(** * MarketCapSync: the two market-cap scripts of fintail-financial-dashboard

    Shallow embedding of
      - infrastructure/scripts/update-all-market-caps.py  (persistence variant)
      - infrastructure/scripts/check-pltr-marketcap.py     (print-only variant)

    Python values read from the provider's [info] dict are a small tagged
    union (None, bool, int, float, str); floats are IEEE binary64 values of
    [SpecFloat], and the formatting the f-strings ask of the Python runtime
    ([.2f], [,], [str]) is computed on their exact value. The provider
    ([yfinance]) and the DynamoDB client are oracles that answer or raise;
    what is printed, fetched and sent to the store is logged in an explicit
    world threaded through a state and exception monad. Exceptions are the
    subclasses of [Exception]; [print] does not raise. The runtime is
    CPython 3.11 with its default settings: converting an int of more than
    4300 decimal digits to text raises [ValueError]. The imports at the top
    of the scripts, with the installation of missing packages, are modelled
    over a process that logs the commands handed to [subprocess]. *)

From Stdlib Require Import ZArith Lia List Bool Ascii String.
From Stdlib Require Import Numbers.DecimalString Numbers.DecimalPos Numbers.DecimalZ.
From Stdlib Require Import Floats.SpecFloat.
From stdpp Require Import base option list strings gmap.

Local Open Scope Z_scope.

(** ** Strings and decimal digits *)

Module PyStr.

(** The newline character written [\n] in the Python sources. *)
Definition nl : string := String (ascii_of_nat 10) EmptyString.

(** [str(z)] for a Python int. *)
Definition str_of_Z (z : Z) : string :=
  NilZero.string_of_int (Z.to_int z).

(** ["0" * n]. *)
Fixpoint zeros (n : nat) : string :=
  match n with
  | O => EmptyString
  | S k => String "0" (zeros k)
  end.

(** Left padding with zeros up to [width] characters. *)
Definition zfill (width : nat) (s : string) : string :=
  zeros (width - String.length s) +:+ s.

Fixpoint rev_string (acc s : string) : string :=
  match s with
  | EmptyString => acc
  | String c r => rev_string (String c acc) r
  end.

(** Insert a comma after every third character of a string that is
    read from its least significant digit. *)
Fixpoint group3_rev (s : string) : string :=
  match s with
  | String a (String b (String c ((String _ _) as r))) =>
      String a (String b (String c (String "," (group3_rev r))))
  | _ => s
  end.

(** Thousands separators of the format specifier [,] on a digit string. *)
Definition group_thousands (digits : string) : string :=
  rev_string EmptyString (group3_rev (rev_string EmptyString digits)).

End PyStr.
Export PyStr.

(** ** IEEE binary64 and the float formatting of the Python runtime *)

Module PyFloat.

Definition prec : Z := 53.
Definition emax : Z := 1024.

(** Python floats are binary64 values; [float(z)] and [x / y] round to
    nearest, ties to even. *)
Definition b64_of_Z (z : Z) : spec_float := binary_normalize prec emax z 0 false.
Definition b64_div (x y : spec_float) : spec_float := SFdiv prec emax x y.

(** The float literal [1e9] of both scripts. *)
Definition f1e9 : spec_float := b64_of_Z 1000000000.

(** Canonical mantissa and exponent of a finite value. *)
Definition b64_canon (s : bool) (m : positive) (e : Z) : spec_float :=
  binary_round prec emax s m e.

Definition sign_str (s : bool) : string := if s then "-" else "".

(** Nearest integer to [n / d] for [0 <= n] and [0 < d], ties to even. *)
Definition round_half_even (n d : Z) : Z :=
  let q := n / d in
  match (2 * (n mod d)) ?= d with
  | Lt => q
  | Gt => q + 1
  | Eq => if Z.even q then q else q + 1
  end.

(** The magnitude [m * 2^e] of a finite float as a fraction. *)
Definition mag_num (m : positive) (e : Z) : Z :=
  if 0 <=? e then Zpos m * 2 ^ e else Zpos m.
Definition mag_den (e : Z) : Z :=
  if 0 <=? e then 1 else 2 ^ (- e).

(** Number of hundredths printed by the format specifier [.2f]: the exact
    binary value, correctly rounded, ties to even. *)
Definition hundredths (m : positive) (e : Z) : Z :=
  round_half_even (100 * mag_num m e) (mag_den e).

Definition fixed2 (h : Z) : string :=
  str_of_Z (h / 100) +:+ "." +:+ zfill 2 (str_of_Z (h mod 100)).

(** [format(x, '.2f')] for a float [x]. *)
Definition format_2f (x : spec_float) : string :=
  match x with
  | S754_nan => "nan"
  | S754_infinity s => sign_str s +:+ "inf"
  | S754_zero s => sign_str s +:+ "0.00"
  | S754_finite s m e => sign_str s +:+ fixed2 (hundredths m e)
  end.

(** *** Shortest round-trip digits ([repr] of a float) *)

Definition ceil_div (n d : Z) : Z := - ((- n) / d).

(** For the canonical finite value [m * 2^e], the candidates [D * 10^k]
    inside its rounding interval: smallest, largest and the nearest to the
    value itself. The interval is measured in units of [2^ue], half the
    smaller gap to a neighbouring float. *)
Record interval := {
  iv_low : Z; iv_val : Z; iv_high : Z; iv_ue : Z; iv_closed : bool }.

Definition rounding_interval (m : positive) (e : Z) : interval :=
  let halved := (Zpos m =? 2 ^ (prec - 1)) && (emin prec emax <? e) in
  let e' := if halved then e - 1 else e in
  let v := Zpos m * 2 ^ (e - e' + 1) in
  {| iv_low := v - 1; iv_val := v; iv_high := v + 2 ^ (e - e');
     iv_ue := e' - 1; iv_closed := Z.even (Zpos m) |}.

Definition candidates (iv : interval) (k : Z) : Z * Z * Z :=
  let p := 2 ^ Z.max (iv_ue iv) 0 * 10 ^ Z.max (- k) 0 in
  let q := 2 ^ Z.max (- iv_ue iv) 0 * 10 ^ Z.max k 0 in
  let lo := if iv_closed iv then ceil_div (iv_low iv * p) q
            else iv_low iv * p / q + 1 in
  let hi := if iv_closed iv then iv_high iv * p / q
            else ceil_div (iv_high iv * p) q - 1 in
  (lo, hi, round_half_even (iv_val iv * p) q).

Fixpoint shortest_from (fuel : nat) (iv : interval) (k : Z) : option (Z * Z) :=
  match fuel with
  | O => None
  | S fuel' =>
      let '(lo, hi, c) := candidates iv k in
      if lo <=? hi then Some (Z.max lo (Z.min hi c), k)
      else shortest_from fuel' iv (k - 1)
  end.

(** Digits [D] and decimal exponent [k] of the shortest decimal that reads
    back as the same float. The search starts above the decimal magnitude
    of the value; should it not end, the exact expansion is taken. *)
Definition shortest (m : positive) (e : Z) : Z * Z :=
  let iv := rounding_interval m e in
  let l := Z.log2 (iv_high iv) + iv_ue iv + 1 in
  let k0 := if 0 <=? l then l * 31 / 100 + 1 else - ((- l) * 30 / 100) + 1 in
  match shortest_from 60 iv k0 with
  | Some r => r
  | None =>
      let k := Z.min (iv_ue iv) 0 in
      let '(_, _, c) := candidates iv k in (c, k)
  end.

(** Layout of [repr]: fixed notation while the decimal point lies between
    -4 and 16 digits from the first digit, exponent notation otherwise. *)
Definition repr_layout (digits : string) (decpt : Z) : string * string :=
  let n := Z.of_nat (String.length digits) in
  if (decpt <=? -4) || (16 <? decpt) then
    let x := decpt - 1 in
    let frac := match digits with
                | String c EmptyString => String c EmptyString
                | String c r => String c (String "." r)
                | EmptyString => EmptyString
                end in
    (frac,
     "e" +:+ (if x <? 0 then "-" else "+") +:+ zfill 2 (str_of_Z (Z.abs x)))
  else if decpt <=? 0 then
    ("0", "." +:+ zeros (Z.to_nat (- decpt)) +:+ digits)
  else if n <=? decpt then
    (digits +:+ zeros (Z.to_nat (decpt - n)), ".0")
  else
    (substring 0 (Z.to_nat decpt) digits,
     "." +:+ substring (Z.to_nat decpt) (Z.to_nat (n - decpt)) digits).

(** Integer part and remainder of [repr(x)] for a finite nonzero float. *)
Definition repr_parts (m : positive) (e : Z) : string * string :=
  match b64_canon false m e with
  | S754_finite _ m' e' =>
      let '(d, k) := shortest m' e' in
      let digits := str_of_Z d in
      repr_layout digits (Z.of_nat (String.length digits) + k)
  | _ => ("inf", "")
  end.

(** [repr(x)], which is also [str(x)] and [format(x, '')]. *)
Definition float_repr (x : spec_float) : string :=
  match x with
  | S754_nan => "nan"
  | S754_infinity s => sign_str s +:+ "inf"
  | S754_zero s => sign_str s +:+ "0.0"
  | S754_finite s m e =>
      let '(ip, rest) := repr_parts m e in sign_str s +:+ ip +:+ rest
  end.

(** [format(x, ',')]: [repr] with the integer digits grouped by thousands;
    in exponent notation the part before the exponent has one integer
    digit. *)
Definition float_format_comma (x : spec_float) : string :=
  match x with
  | S754_finite s m e =>
      let '(ip, rest) := repr_parts m e in
      match rest with
      | String "." _ => sign_str s +:+ group_thousands ip +:+ rest
      | _ => sign_str s +:+ ip +:+ rest
      end
  | S754_zero s => sign_str s +:+ "0.0"
  | _ => float_repr x
  end.

End PyFloat.
Export PyFloat.

(** ** Python values and the operations the scripts apply to them *)

Module PyVal.

(** Values found in the provider's [info] dict. *)
Inductive pyval :=
| PyNone
| PyBool (b : bool)
| PyInt (z : Z)
| PyFloat (x : spec_float)
| PyStr (s : string).

(** A raised exception: its class and [str(e)]. *)
Record exn := { exn_class : string; exn_msg : string }.

Inductive outcome (A : Type) :=
| Returned (a : A)
| Raised (e : exn).
Arguments Returned {A} a.
Arguments Raised {A} e.

Definition TypeError (msg : string) : exn := {| exn_class := "TypeError"; exn_msg := msg |}.
Definition ValueError (msg : string) : exn := {| exn_class := "ValueError"; exn_msg := msg |}.
Definition OverflowError (msg : string) : exn := {| exn_class := "OverflowError"; exn_msg := msg |}.
Definition ZeroDivisionError (msg : string) : exn :=
  {| exn_class := "ZeroDivisionError"; exn_msg := msg |}.

(** [type(v).__name__]. *)
Definition type_name (v : pyval) : string :=
  match v with
  | PyNone => "NoneType"
  | PyBool _ => "bool"
  | PyInt _ => "int"
  | PyFloat _ => "float"
  | PyStr _ => "str"
  end.

(** [bool(v)]; the guard [if not market_cap] is [negb (truthy market_cap)]. *)
Definition truthy (v : pyval) : bool :=
  match v with
  | PyNone => false
  | PyBool b => b
  | PyInt z => negb (z =? 0)
  | PyFloat (S754_zero _) => false
  | PyFloat _ => true
  | PyStr s => negb (String.eqb s "")
  end.

(** [float(z)] for an int: an int beyond the binary64 range raises. *)
Definition int_to_float (z : Z) : outcome spec_float :=
  match b64_of_Z z with
  | S754_infinity _ => Raised (OverflowError "int too large to convert to float")
  | x => Returned x
  end.

Definition int_of_bool (b : bool) : Z := if b then 1 else 0.

(** [v / y] for a float right operand [y]. *)
Definition float_truediv (x y : spec_float) : outcome pyval :=
  match y with
  | S754_zero _ => Raised (ZeroDivisionError "float division by zero")
  | _ => Returned (PyFloat (b64_div x y))
  end.

Definition py_truediv (v : pyval) (y : spec_float) : outcome pyval :=
  match v with
  | PyInt z =>
      match int_to_float z with
      | Returned x => float_truediv x y
      | Raised e => Raised e
      end
  | PyBool b =>
      match int_to_float (int_of_bool b) with
      | Returned x => float_truediv x y
      | Raised e => Raised e
      end
  | PyFloat x => float_truediv x y
  | _ => Raised (TypeError ("unsupported operand type(s) for /: '" +:+ type_name v
                             +:+ "' and 'float'"))
  end.

(** [format(v, '.2f')], the f-string field [{v:.2f}]. *)
Definition py_format_2f (v : pyval) : outcome string :=
  match v with
  | PyNone =>
      Raised (TypeError "unsupported format string passed to NoneType.__format__")
  | PyBool b =>
      match int_to_float (int_of_bool b) with
      | Returned x => Returned (format_2f x)
      | Raised e => Raised e
      end
  | PyInt z =>
      match int_to_float z with
      | Returned x => Returned (format_2f x)
      | Raised e => Raised e
      end
  | PyFloat x => Returned (format_2f x)
  | PyStr _ => Raised (ValueError "Unknown format code 'f' for object of type 'str'")
  end.

(** [sys.int_info.default_max_str_digits]: the longest decimal text an int
    is converted to. *)
Definition max_str_digits : nat := 4300.

Definition int_str_limit : exn :=
  ValueError "Exceeds the limit (4300 digits) for integer string conversion; use sys.set_int_max_str_digits() to increase the limit".

(** [str(z)] for an int: the digits are counted without the sign, and a
    text of more than [max_str_digits] digits is not produced. *)
Definition int_str (z : Z) : outcome string :=
  if (max_str_digits <? String.length (str_of_Z (Z.abs z)))%nat
  then Raised int_str_limit
  else Returned (str_of_Z z).

(** [format(z, ',')] for an int: the decimal digits, which the same limit
    bounds, grouped by thousands behind the sign. *)
Definition int_format_comma (z : Z) : outcome string :=
  match int_str (Z.abs z) with
  | Returned digits => Returned (sign_str (z <? 0) +:+ group_thousands digits)
  | Raised e => Raised e
  end.

(** [format(v, ',')], the f-string field [{v:,}]. *)
Definition py_format_comma (v : pyval) : outcome string :=
  match v with
  | PyNone =>
      Raised (TypeError "unsupported format string passed to NoneType.__format__")
  | PyBool b => int_format_comma (int_of_bool b)
  | PyInt z => int_format_comma z
  | PyFloat x => Returned (float_format_comma x)
  | PyStr _ => Raised (ValueError "Cannot specify ',' with 's'.")
  end.

(** [str(v)], which is also the f-string field [{v}]. *)
Definition py_str (v : pyval) : outcome string :=
  match v with
  | PyNone => Returned "None"
  | PyBool b => Returned (if b then "True" else "False")
  | PyInt z => int_str z
  | PyFloat x => Returned (float_repr x)
  | PyStr s => Returned s
  end.

(** The [info] dict and its [get] method. *)
Abbreviation info_dict := (gmap string pyval).

Definition dict_get (d : info_dict) (k : string) : pyval :=
  default PyNone (d !! k).

Definition dict_get_default (d : info_dict) (k : string) (dflt : pyval) : pyval :=
  default dflt (d !! k).

End PyVal.
Export PyVal.

(** ** The DynamoDB client call *)

Module Dynamo.

(** Attribute values as the low-level client takes them: [{'S': s}] and
    [{'N': digits}]. *)
Inductive attribute_value :=
| AttrS (s : string)
| AttrN (n : string).

(** Keyword arguments of [dynamodb.update_item]. *)
Record update_item_request := {
  TableName : string;
  Key : gmap string attribute_value;
  UpdateExpression : string;
  ExpressionAttributeValues : gmap string attribute_value }.

(** A table of the remote store: composite key to attributes. *)
Abbreviation item := (gmap string attribute_value).
Abbreviation table := (gmap (string * string) (gmap string attribute_value)).

(** The words of an update expression. *)
Fixpoint split_spaces (cur : string) (s : string) : list string :=
  match s with
  | EmptyString => [rev_string EmptyString cur]
  | String c r =>
      if Ascii.eqb c " " then rev_string EmptyString cur :: split_spaces EmptyString r
      else split_spaces (String c cur) r
  end.

Definition set_action (expr : string) : option (string * string) :=
  match split_spaces EmptyString expr with
  | [kw; name; eq; placeholder] =>
      if String.eqb kw "SET" && String.eqb eq "=" then Some (name, placeholder)
      else None
  | _ => None
  end.

Definition request_key (r : update_item_request) : option (string * string) :=
  match Key r !! "PK", Key r !! "SK" with
  | Some (AttrS pk), Some (AttrS sk) => Some (pk, sk)
  | _, _ => None
  end.

(** Modelled from the spec: the remote table is outside the repository.
    Spec section 6 has a record identified by the composite key (partition
    key, sort key) and an update operation that sets a single attribute;
    the store applies an expression [SET name = :placeholder] by binding
    that one attribute of the addressed record, creating the record when
    there is none. *)
Definition apply_update (t : table) (r : update_item_request) : table :=
  match request_key r, set_action (UpdateExpression r) with
  | Some k, Some (name, placeholder) =>
      match ExpressionAttributeValues r !! placeholder with
      | Some v => <[k := <[name := v]> (default ∅ (t !! k))]> t
      | None => t
      end
  | _, _ => t
  end.

End Dynamo.
Export Dynamo.

(** ** The world the scripts act on *)

Module World.

(** [stdout] holds the argument of every [print] call, oldest first;
    [fetched] the tickers whose quote was requested; [update_item_calls]
    the requests handed to [dynamodb.update_item]. *)
Record world := {
  stdout : list string;
  fetched : list string;
  update_item_calls : list update_item_request }.

Definition initial : world :=
  {| stdout := []; fetched := []; update_item_calls := [] |}.

(** Computations that may raise. *)
Definition M (A : Type) : Type := world -> outcome A * world.

Definition ret {A} (a : A) : M A := fun w => (Returned a, w).

Definition bind {A B} (m : M A) (k : A -> M B) : M B :=
  fun w =>
    match m w with
    | (Returned a, w') => k a w'
    | (Raised e, w') => (Raised e, w')
    end.

Definition lift {A} (o : outcome A) : M A := fun w => (o, w).

(** [try: body / except Exception as e: handler e]. *)
Definition try_except {A} (body : M A) (handler : exn -> M A) : M A :=
  fun w =>
    match body w with
    | (Returned a, w') => (Returned a, w')
    | (Raised e, w') => handler e w'
    end.

Definition print (s : string) : M unit :=
  fun w =>
    (Returned tt,
     {| stdout := stdout w ++ [s]; fetched := fetched w;
        update_item_calls := update_item_calls w |}).

End World.
Export World.

Declare Scope py_scope.
Delimit Scope py_scope with py.
Notation "x <- m ;; k" := (bind m (fun x => k))
  (at level 20, m at level 99, k at level 200, only parsing) : py_scope.
Notation "m ;; k" := (bind m (fun _ => k))
  (at level 100, k at level 200, only parsing, right associativity) : py_scope.

(** ** The two scripts *)

Section Scripts.

(** [yf.Ticker(ticker).info]: the dict, or the exception the library
    raises; it may depend on the tickers requested before. *)
Variable provider : list string -> string -> outcome info_dict.

(** The service behind [dynamodb.update_item]: [None] when the call
    returns, the raised exception otherwise; it may depend on the calls
    made before. *)
Variable store : list update_item_request -> update_item_request -> option exn.

Local Open Scope py_scope.

Definition fetch_info (ticker : string) : M info_dict :=
  fun w =>
    (provider (fetched w) ticker,
     {| stdout := stdout w; fetched := fetched w ++ [ticker];
        update_item_calls := update_item_calls w |}).

Definition update_item (r : update_item_request) : M unit :=
  fun w =>
    let w' := {| stdout := stdout w; fetched := fetched w;
                 update_item_calls := update_item_calls w ++ [r] |} in
    match store (update_item_calls w) r with
    | None => (Returned tt, w')
    | Some e => (Raised e, w')
    end.

(** *** update-all-market-caps.py *)

Definition TABLE_NAME : string := "fintail-companies-development".

(** The keyword arguments of the call at lines 45-55, [number] being the
    text [str(market_cap)] evaluated at line 53. *)
Definition market_cap_request (ticker : string) (number : string)
  : update_item_request :=
  {| TableName := TABLE_NAME;
     Key := {[ "PK" := AttrS ("COMPANY#" +:+ ticker); "SK" := AttrS "METADATA" ]};
     UpdateExpression := "SET marketCap = :mc";
     ExpressionAttributeValues := {[ ":mc" := AttrN number ]} |}.

Definition update_market_cap (ticker : string) : M unit :=
  print (nl +:+ "Fetching data for " +:+ ticker +:+ "...") ;;
  try_except
    (info <- fetch_info ticker ;;
     let market_cap := dict_get info "marketCap" in
     let current_price :=
       dict_get_default info "currentPrice" (dict_get info "regularMarketPrice") in
     let shares_outstanding := dict_get info "sharesOutstanding" in
     if negb (truthy market_cap) then
       print ("❌ No market cap data available for " +:+ ticker)
     else
       price <- lift (py_format_2f current_price) ;;
       print ("   Stock Price: $" +:+ price) ;;
       billions <- lift (py_truediv market_cap f1e9) ;;
       cap <- lift (py_format_2f billions) ;;
       print ("   Market Cap: $" +:+ cap +:+ "B") ;;
       shares <- lift (py_format_comma shares_outstanding) ;;
       print ("   Shares Outstanding: " +:+ shares) ;;
       number <- lift (py_str market_cap) ;;
       update_item (market_cap_request ticker number) ;;
       print ("✅ Updated " +:+ ticker +:+ " market cap in DynamoDB"))
    (fun e => print ("❌ Error updating " +:+ ticker +:+ ": " +:+ exn_msg e)).

Definition tickers : list string := ["PLTR"; "AMZN"; "META"].

(** [for ticker in tickers: body ticker]. *)
Fixpoint for_each (ts : list string) (body : string -> M unit) : M unit :=
  match ts with
  | [] => ret tt
  | t :: rest => body t ;; for_each rest body
  end.

Definition main : M unit :=
  print ("🚀 Updating market caps from Yahoo Finance..." +:+ nl) ;;
  for_each tickers update_market_cap ;;
  print (nl +:+ "🎉 Market cap updates completed!").

(** *** check-pltr-marketcap.py (module body; nothing catches what the
    formatting raises) *)

Definition check_pltr_marketcap : M unit :=
  info <- fetch_info "PLTR" ;;
  print (nl +:+ "✅ PLTR Market Data:") ;;
  price <- lift (py_str (dict_get_default info "currentPrice"
                           (dict_get_default info "regularMarketPrice" (PyStr "N/A")))) ;;
  print ("   Stock Price: $" +:+ price) ;;
  billions <- lift (py_truediv (dict_get_default info "marketCap" (PyInt 0)) f1e9) ;;
  cap <- lift (py_format_2f billions) ;;
  print ("   Market Cap: $" +:+ cap +:+ "B") ;;
  raw <- lift (py_str (dict_get_default info "marketCap" (PyInt 0))) ;;
  print ("   Market Cap (raw): " +:+ raw) ;;
  shares <- lift (py_format_comma (dict_get_default info "sharesOutstanding" (PyInt 0))) ;;
  print ("   Shares Outstanding: " +:+ shares).

End Scripts.

(** ** What one run of each script does *)

Module Lines.

(** The texts the scripts print. *)
Definition banner_line : string := "🚀 Updating market caps from Yahoo Finance..." +:+ nl.
Definition completed_line : string := nl +:+ "🎉 Market cap updates completed!".
Definition fetching_line (ticker : string) : string :=
  nl +:+ "Fetching data for " +:+ ticker +:+ "...".
Definition no_data_line (ticker : string) : string :=
  "❌ No market cap data available for " +:+ ticker.
Definition error_line (ticker : string) (e : exn) : string :=
  "❌ Error updating " +:+ ticker +:+ ": " +:+ exn_msg e.
Definition updated_line (ticker : string) : string :=
  "✅ Updated " +:+ ticker +:+ " market cap in DynamoDB".
Definition price_line (p : string) : string := "   Stock Price: $" +:+ p.
Definition cap_line (c : string) : string := "   Market Cap: $" +:+ c +:+ "B".
Definition raw_line (r : string) : string := "   Market Cap (raw): " +:+ r.
Definition shares_line (s : string) : string := "   Shares Outstanding: " +:+ s.
Definition check_header : string := nl +:+ "✅ PLTR Market Data:".

(** [needle in hay]. *)
Fixpoint contains (needle hay : string) : bool :=
  String.prefix needle hay ||
  match hay with
  | EmptyString => false
  | String _ rest => contains needle rest
  end.

(** Some printed line shows the text. *)
Definition shows (out : list string) (text : string) : bool :=
  existsb (contains text) out.

End Lines.
Export Lines.

(** The price both scripts select from the dict, before the default. *)
Definition selected_price (info : info_dict) : option pyval :=
  match info !! "currentPrice" with
  | Some v => Some v
  | None => info !! "regularMarketPrice"
  end.

(** Lines 40-42 as a function: the report lines printed and the exception
    that stopped the formatting, if one was raised. *)
Definition report (market_cap current_price shares_outstanding : pyval)
  : list string * option exn :=
  match py_format_2f current_price with
  | Raised e => ([], Some e)
  | Returned p =>
      match py_truediv market_cap f1e9 with
      | Raised e => ([price_line p], Some e)
      | Returned b =>
          match py_format_2f b with
          | Raised e => ([price_line p], Some e)
          | Returned c =>
              match py_format_comma shares_outstanding with
              | Raised e => ([price_line p; cap_line c], Some e)
              | Returned s => ([price_line p; cap_line c; shares_line s], None)
              end
          end
      end
  end.

Definition after_print (s : string) (w : world) : world :=
  {| stdout := stdout w ++ [s]; fetched := fetched w;
     update_item_calls := update_item_calls w |}.

(** Lines 15-19 of the check script as a function. *)
Definition check_report (info : info_dict) : list string * option exn :=
  let market_cap := dict_get_default info "marketCap" (PyInt 0) in
  let price := default (PyStr "N/A") (selected_price info) in
  match py_str price with
  | Raised e => ([check_header], Some e)
  | Returned p =>
      match py_truediv market_cap f1e9 with
      | Raised e => ([check_header; price_line p], Some e)
      | Returned b =>
          match py_format_2f b with
          | Raised e => ([check_header; price_line p], Some e)
          | Returned c =>
              match py_str market_cap with
              | Raised e => ([check_header; price_line p; cap_line c], Some e)
              | Returned raw =>
                  match py_format_comma
                          (dict_get_default info "sharesOutstanding" (PyInt 0)) with
                  | Raised e =>
                      ([check_header; price_line p; cap_line c; raw_line raw], Some e)
                  | Returned s =>
                      ([check_header; price_line p; cap_line c; raw_line raw;
                        shares_line s], None)
                  end
              end
          end
      end
  end.

Section RunViews.

Variable provider : list string -> string -> outcome info_dict.
Variable store : list update_item_request -> update_item_request -> option exn.

(** The world one call of [update_market_cap] leaves behind. *)
Definition after_ticker (ticker : string) (w : world) : world :=
  match provider (fetched w) ticker with
  | Raised e =>
      {| stdout := stdout w ++ [fetching_line ticker; error_line ticker e];
         fetched := fetched w ++ [ticker];
         update_item_calls := update_item_calls w |}
  | Returned info =>
      let market_cap := dict_get info "marketCap" in
      if truthy market_cap then
        match report market_cap (default PyNone (selected_price info))
                (dict_get info "sharesOutstanding") with
        | (lines, Some e) =>
            {| stdout := stdout w ++ fetching_line ticker :: lines ++ [error_line ticker e];
               fetched := fetched w ++ [ticker];
               update_item_calls := update_item_calls w |}
        | (lines, None) =>
            match py_str market_cap with
            | Raised e =>
                {| stdout := stdout w ++ fetching_line ticker :: lines
                               ++ [error_line ticker e];
                   fetched := fetched w ++ [ticker];
                   update_item_calls := update_item_calls w |}
            | Returned number =>
                let r := market_cap_request ticker number in
                {| stdout := stdout w ++ fetching_line ticker :: lines ++
                     [match store (update_item_calls w) r with
                      | None => updated_line ticker
                      | Some e => error_line ticker e
                      end];
                   fetched := fetched w ++ [ticker];
                   update_item_calls := update_item_calls w ++ [r] |}
            end
        end
      else
        {| stdout := stdout w ++ [fetching_line ticker; no_data_line ticker];
           fetched := fetched w ++ [ticker];
           update_item_calls := update_item_calls w |}
  end.

(** The loop of [main] threads the world through the tickers in order. *)
Definition after_tickers (ts : list string) (w : world) : world :=
  fold_left (fun w' t => after_ticker t w') ts w.

(** A call of [update_item] happens exactly when the quote arrived, its
    market cap is truthy, the three report lines were formatted and
    [str(market_cap)] gave the text [number]. *)
Definition reaches_write (t : string) (w : world) (number : string) : Prop :=
  exists (info : info_dict) (lines : list string),
    provider (fetched w) t = Returned info /\
    truthy (dict_get info "marketCap") = true /\
    report (dict_get info "marketCap") (default PyNone (selected_price info))
      (dict_get info "sharesOutstanding") = (lines, None) /\
    py_str (dict_get info "marketCap") = Returned number.

(** Result and world of the check script. *)
Definition after_check (w : world) : outcome unit * world :=
  match provider (fetched w) "PLTR" with
  | Raised e =>
      (Raised e,
       {| stdout := stdout w; fetched := fetched w ++ ["PLTR"];
          update_item_calls := update_item_calls w |})
  | Returned info =>
      (match snd (check_report info) with
       | None => Returned tt
       | Some e => Raised e
       end,
       {| stdout := stdout w ++ fst (check_report info);
          fetched := fetched w ++ ["PLTR"];
          update_item_calls := update_item_calls w |})
  end.

End RunViews.

(** ** Sample quotes and oracles *)

Module Samples.

(** The float [25.50] and the quote of the PLTR scenario. *)
Definition f25_50 : spec_float := S754_finite false 7177611906121728 (-48).

Definition pltr_quote : info_dict :=
  {[ "currentPrice" := PyFloat f25_50;
     "marketCap" := PyInt 54000000000;
     "sharesOutstanding" := PyInt 2116000000 ]}.

(** A quote of the AMZN scenario: [marketCap = 1900000000000]. *)
Definition amzn_quote : info_dict :=
  {[ "currentPrice" := PyInt 180;
     "marketCap" := PyInt 1900000000000;
     "sharesOutstanding" := PyInt 10500000000 ]}.

(** A quote with a market cap and no price. *)
Definition priceless_quote : info_dict :=
  {[ "marketCap" := PyInt 54000000000;
     "sharesOutstanding" := PyInt 2116000000 ]}.

(** A quote whose market cap is the integer zero. *)
Definition zero_cap_quote : info_dict :=
  {[ "currentPrice" := PyFloat f25_50;
     "marketCap" := PyInt 0;
     "sharesOutstanding" := PyInt 2116000000 ]}.

(** A market cap whose quotient by [10^9] lies halfway between two
    hundredths, and one beyond the integers a float holds exactly. *)
Definition tie_cap_quote : info_dict :=
  {[ "currentPrice" := PyFloat f25_50;
     "marketCap" := PyInt 15000000;
     "sharesOutstanding" := PyInt 2116000000 ]}.

Definition wide_cap_quote : info_dict :=
  {[ "currentPrice" := PyFloat f25_50;
     "marketCap" := PyInt 9007199264999999;
     "sharesOutstanding" := PyInt 2116000000 ]}.

Definition always (info : info_dict) : list string -> string -> outcome info_dict :=
  fun _ _ => Returned info.

Definition connection_error : exn :=
  {| exn_class := "ConnectionError"; exn_msg := "provider unreachable" |}.

(** A provider that fails for META only. *)
Definition meta_down : list string -> string -> outcome info_dict :=
  fun _ t =>
    if String.eqb t "META" then Raised connection_error
    else if String.eqb t "AMZN" then Returned amzn_quote
    else Returned pltr_quote.

Definition store_ok : list update_item_request -> update_item_request -> option exn :=
  fun _ _ => None.

Definition access_denied : exn :=
  {| exn_class := "ClientError"; exn_msg := "AccessDeniedException" |}.

Definition store_down : list update_item_request -> update_item_request -> option exn :=
  fun _ _ => Some access_denied.

End Samples.
Export Samples.

(** ** Specification of the rounding location *)

(** Position of the remainder [r] of a division by [M] against one half. *)
Definition loc_spec (l : location) (r M : Z) : Prop :=
  match l with
  | loc_Exact => r = 0
  | loc_Inexact Lt => 0 < 2 * r < M
  | loc_Inexact Eq => 2 * r = M
  | loc_Inexact Gt => M < 2 * r
  end.

(** ** Readers of the printed texts *)

Module Readers.

(** The text without its thousands separators. *)
Fixpoint strip_commas (s : string) : string :=
  match s with
  | EmptyString => EmptyString
  | String c r =>
      if Ascii.eqb c "," then strip_commas r else String c (strip_commas r)
  end.

Fixpoint count_commas (s : string) : nat :=
  match s with
  | EmptyString => O
  | String c r => if Ascii.eqb c "," then S (count_commas r) else count_commas r
  end.

(** The integer a decimal text denotes. *)
Definition Z_of_str (s : string) : option Z :=
  option_map Z.of_int (NilZero.int_of_string s).

Definition is_digit (c : ascii) : bool :=
  (48 <=? nat_of_ascii c)%nat && (nat_of_ascii c <=? 57)%nat.

Fixpoint all_digits (s : string) : bool :=
  match s with
  | EmptyString => true
  | String c r => is_digit c && all_digits r
  end.

(** Digits, a point and exactly two digits; [seen] tells whether a digit
    came before. *)
Fixpoint digits_point_two (seen : bool) (s : string) : bool :=
  match s with
  | EmptyString => false
  | String c r =>
      if is_digit c then digits_point_two true r
      else if Ascii.eqb c "." then
        seen && match r with
                | String a (String b EmptyString) => is_digit a && is_digit b
                | _ => false
                end
      else false
  end.

(** An optional minus sign, digits, a point and two digits. *)
Definition two_decimals (s : string) : bool :=
  match s with
  | String "-" r => digits_point_two false r
  | _ => digits_point_two false s
  end.

(** The text is an optional minus sign, digits that read as [h / 100], a
    point, and two digits that read as [h mod 100]. *)
Definition shows_hundredths (text : string) (negative : bool) (h : Z) : Prop :=
  exists ip fp : string,
    text = (if negative then "-" else "") +:+ ip +:+ "." +:+ fp /\
    ip <> EmptyString /\ all_digits ip = true /\
    String.length fp = 2%nat /\ all_digits fp = true /\
    Z_of_str ip = Some (h / 100) /\ Z_of_str fp = Some (h mod 100).

(** The two digits printed for [n] hundredths read back as [n]. *)
Definition two_digit_check (n : nat) : bool :=
  match zfill 2 (str_of_Z (Z.of_nat n)) with
  | String a (String b EmptyString) =>
      is_digit a && is_digit b &&
      match Z_of_str (String a (String b EmptyString)) with
      | Some v => v =? Z.of_nat n
      | None => false
      end
  | _ => false
  end.

End Readers.
Export Readers.

(** ** Which values the format fields accept *)

(** The values [format(v, '.2f')] and [v / 1e9] accept: numbers, an int
    only while it converts to a float. *)
Definition formats_as_float (v : pyval) : bool :=
  match v with
  | PyBool _ | PyFloat _ => true
  | PyInt z => match b64_of_Z z with S754_infinity _ => false | _ => true end
  | PyNone | PyStr _ => false
  end.

(** The ints [str] converts: at most [max_str_digits] digits. *)
Definition int_fits (z : Z) : bool :=
  (String.length (str_of_Z (Z.abs z)) <=? max_str_digits)%nat.

(** The values [format(v, ',')] accepts: numbers, an int only while its
    digits fit. *)
Definition formats_with_commas (v : pyval) : bool :=
  match v with
  | PyBool _ | PyFloat _ => true
  | PyInt z => int_fits z
  | PyNone | PyStr _ => false
  end.

(** The values [str(v)] accepts: everything but an int whose digits do not
    fit. *)
Definition prints_as_text (v : pyval) : bool :=
  match v with
  | PyInt z => int_fits z
  | _ => true
  end.

(** ** The scripts from their first line: imports and installation *)

Module Prologue.

(** What an [import] statement does: it binds the module, raises
    [ImportError] (or a subclass), or raises something else. *)
Inductive import_result :=
| Imported
| ImportFailed (e : exn)
| ImportCrashed (e : exn).

(** The process: the argument lists handed to [subprocess.check_call]
    and the world of the script proper. *)
Record process := {
  pip_calls : list (list string);
  console : world }.

Definition boot : process := {| pip_calls := []; console := initial |}.

End Prologue.
Export Prologue.

Section WholeScripts.

(** [import name], which may depend on what was installed before. *)
Variable importer : list (list string) -> string -> import_result.

(** [subprocess.check_call(argv)]: [None] when the command exits with 0,
    the raised exception otherwise. *)
Variable check_call : list (list string) -> list string -> option exn.

(** [sys.executable]. *)
Variable sys_executable : string.

(** [boto3.client(service, region_name=region)]: [None] when the client
    is built. *)
Variable new_client : string -> string -> option exn.

Variable provider : list string -> string -> outcome info_dict.
Variable store : list update_item_request -> update_item_request -> option exn.

(** The [import] statements of a [try] body, in order; the first one
    that raises ends them. *)
Fixpoint import_all (names : list string) (installed : list (list string))
  : import_result :=
  match names with
  | [] => Imported
  | n :: rest =>
      match importer installed n with
      | Imported => import_all rest installed
      | r => r
      end
  end.

(** [try: import ... / except ImportError: print(notice);
    subprocess.check_call(argv); import ...]. *)
Definition import_or_install (names : list string) (notice : string)
  (argv : list string) (p : process) : outcome unit * process :=
  match import_all names (pip_calls p) with
  | Imported => (Returned tt, p)
  | ImportCrashed e => (Raised e, p)
  | ImportFailed _ =>
      let p1 := {| pip_calls := pip_calls p ++ [argv];
                   console := after_print notice (console p) |} in
      match check_call (pip_calls p) argv with
      | Some e => (Raised e, p1)
      | None =>
          match import_all names (pip_calls p1) with
          | Imported => (Returned tt, p1)
          | ImportFailed e => (Raised e, p1)
          | ImportCrashed e => (Raised e, p1)
          end
      end
  end.

(** update-all-market-caps.py run as a script: lines 10-17, the client of
    line 20, then [main()] under [if __name__ == '__main__']. *)
Definition update_all_market_caps (p : process) : outcome unit * process :=
  match import_or_install ["yfinance"; "boto3"] "Installing required packages..."
          [sys_executable; "-m"; "pip"; "install"; "yfinance"; "boto3"; "-q"] p with
  | (Raised e, p') => (Raised e, p')
  | (Returned _, p') =>
      match new_client "dynamodb" "us-east-1" with
      | Some e => (Raised e, p')
      | None =>
          (fst (main provider store (console p')),
           {| pip_calls := pip_calls p';
              console := snd (main provider store (console p')) |})
      end
  end.

(** check-pltr-marketcap.py run as a script: lines 3-9, then the body. *)
Definition check_pltr_script (p : process) : outcome unit * process :=
  match import_or_install ["yfinance"] "Installing yfinance..."
          ["pip"; "install"; "yfinance"; "-q"] p with
  | (Raised e, p') => (Raised e, p')
  | (Returned _, p') =>
      (fst (check_pltr_marketcap provider (console p')),
       {| pip_calls := pip_calls p';
          console := snd (check_pltr_marketcap provider (console p')) |})
  end.

End WholeScripts.

(** Sample hosts. *)
Module Hosts.

Definition all_installed : list (list string) -> string -> import_result :=
  fun _ _ => Imported.

Definition module_not_found (name : string) : exn :=
  {| exn_class := "ModuleNotFoundError";
     exn_msg := "No module named '" +:+ name +:+ "'" |}.

(** Nothing is importable until something was installed. *)
Definition missing_until_installed : list (list string) -> string -> import_result :=
  fun installed name =>
    match installed with
    | [] => ImportFailed (module_not_found name)
    | _ => Imported
    end.

Definition pip_ok : list (list string) -> list string -> option exn :=
  fun _ _ => None.

Definition called_process_error : exn :=
  {| exn_class := "CalledProcessError";
     exn_msg := "Command returned non-zero exit status 1." |}.

Definition pip_fails : list (list string) -> list string -> option exn :=
  fun _ _ => Some called_process_error.

Definition client_ok : string -> string -> option exn := fun _ _ => None.

(** A quote whose market cap is a text. *)
Definition text_cap_quote : info_dict :=
  {[ "currentPrice" := PyFloat f25_50;
     "marketCap" := PyStr "54B";
     "sharesOutstanding" := PyInt 2116000000 ]}.

(** A quote whose market cap key holds None. *)
Definition none_cap_quote : info_dict :=
  {[ "currentPrice" := PyFloat f25_50;
     "marketCap" := PyNone;
     "sharesOutstanding" := PyInt 2116000000 ]}.

(** A quote whose market cap is an integer of 1025 bits. *)
Definition huge_cap_quote : info_dict :=
  {[ "currentPrice" := PyFloat f25_50;
     "marketCap" := PyInt (2 ^ 1024);
     "sharesOutstanding" := PyInt 2116000000 ]}.

End Hosts.
Export Hosts.

(** * Properties *)

(** ** Binary64 arithmetic *)

Lemma digits2_size (p : positive) : digits2_pos p = Pos.size p.
Proof. induction p; cbn; congruence. Qed.

Lemma digits2_bounds (p : positive) :
  2 ^ (Zpos (digits2_pos p) - 1) <= Zpos p < 2 ^ Zpos (digits2_pos p).
Proof.
  rewrite digits2_size. split.
  - pose proof (Pos.size_le p) as H.
    assert (H' : 2 ^ Zpos (Pos.size p) <= 2 * Zpos p).
    { change 2 with (Zpos 2) at 1. rewrite <- Pos2Z.inj_pow. 
      change (2 * Zpos p) with (Zpos (p~0)). apply Pos2Z.pos_le_pos. exact H. }
    replace (Zpos (Pos.size p)) with (Z.succ (Zpos (Pos.size p) - 1)) in H' by lia.
    rewrite Z.pow_succ_r in H' by lia. lia.
  - pose proof (Pos.size_gt p) as H.
    change 2 with (Zpos 2). rewrite <- Pos2Z.inj_pow. apply Pos2Z.pos_lt_pos. exact H.
Qed.

Lemma digits2_unique (p : positive) (d : Z) :
  2 ^ (d - 1) <= Zpos p < 2 ^ d -> Zpos (digits2_pos p) = d.
Proof.
  intros [Hlo Hhi]. pose proof (digits2_bounds p) as [Hlo' Hhi'].
  assert (0 < d). { destruct (Z_lt_le_dec 0 d); [assumption|]. 
    assert (2 ^ d <= 2^0) by (destruct (Z.eq_dec d 0); [subst; lia| rewrite Z.pow_neg_r by lia; cbn; lia]). cbn in *. lia. }
  destruct (Z.lt_trichotomy (Zpos (digits2_pos p)) d) as [Hlt | [Heq | Hgt]]; [| exact Heq |].
  - assert (2 ^ Zpos (digits2_pos p) <= 2 ^ (d - 1)) by (apply Z.pow_le_mono_r; lia). lia.
  - assert (2 ^ d <= 2 ^ (Zpos (digits2_pos p) - 1)) by (apply Z.pow_le_mono_r; lia). lia.
Qed.

Lemma iter_xO_value (p k : positive) :
  Zpos (Pos.iter xO p k) = Zpos p * 2 ^ Zpos k.
Proof.
  induction k as [| k IH] using Pos.peano_ind.
  - cbn. lia.
  - rewrite Pos.iter_succ, Pos2Z.inj_xO, IH, Pos2Z.inj_succ, Z.pow_succ_r by lia. lia.
Qed.

Lemma loc_of_shr_record_of_loc (m : Z) (l : location) :
  loc_of_shr_record (shr_record_of_loc m l) = l.
Proof. destruct l as [| []]; reflexivity. Qed.

(** A mantissa of 53 digits with nothing beyond it is kept as it is. *)
Lemma binary_round_aux_exact (m : positive) (e : Z) :
  2 ^ 52 <= Zpos m < 2 ^ 53 -> -1074 <= e <= 971 ->
  binary_round_aux 53 1024 false (Zpos m) e loc_Exact = S754_finite false m e.
Proof.
  intros Hm He. unfold binary_round_aux, shr_fexp. cbn [Zdigits2].
  rewrite (digits2_unique m 53) by lia. unfold fexp, emin.
  replace (Z.max (53 + e - 53) (3 - 1024 - 53) - e) with 0 by lia.
  cbn [shr shr_record_of_loc shr_m loc_of_shr_record round_nearest_even Zdigits2].
  rewrite (digits2_unique m 53) by lia.
  replace (Z.max (53 + e - 53) (3 - 1024 - 53) - e) with 0 by lia.
  cbn [shr shr_m].
  replace (e <=? 1024 - 53) with true by (symmetry; apply Z.leb_le; lia).
  reflexivity.
Qed.

Lemma b64_of_Z_exact (z : Z) :
  0 < z < 2 ^ 53 ->
  exists (m : positive) (e : Z),
    b64_of_Z z = S754_finite false m e /\
    2 ^ 52 <= Zpos m < 2 ^ 53 /\ -52 <= e <= 0 /\
    Zpos m = z * 2 ^ (- e).
Proof.
  intros Hz. destruct z as [| p | p]; try lia.
  unfold b64_of_Z, binary_normalize, binary_round.
  pose proof (digits2_bounds p) as Hd.
  set (d := Zpos (digits2_pos p)) in *.
  assert (Hd53 : 1 <= d <= 53).
  { split; [subst d; lia |].
    destruct (Z_le_gt_dec d 53) as [H | H]; [exact H | exfalso].
    assert (2 ^ 53 <= 2 ^ (d - 1)) by (apply Z.pow_le_mono_r; lia). lia. }
  unfold fexp, emin, PyFloat.prec, PyFloat.emax.
  replace (Z.max (d + 0 - 53) (3 - 1024 - 53)) with (d - 53) by lia.
  unfold shl_align. destruct (d - 53 - 0) as [| k | k] eqn:Hk; try lia.
  - exists p, 0. replace d with 53 in * by lia.
    rewrite binary_round_aux_exact by lia.
    repeat split; try lia.
  - exists (Pos.iter xO p k), (d - 53).
    assert (Hv : Zpos (Pos.iter xO p k) = Zpos p * 2 ^ (53 - d)).
    { rewrite iter_xO_value. f_equal. f_equal. lia. }
    assert (Hr : 2 ^ 52 <= Zpos (Pos.iter xO p k) < 2 ^ 53).
    { rewrite Hv. 
      replace (2 ^ 52) with (2 ^ (d - 1) * 2 ^ (53 - d))
        by (rewrite <- Z.pow_add_r by lia; f_equal; lia).
      replace (2 ^ 53) with (2 ^ d * 2 ^ (53 - d))
        by (rewrite <- Z.pow_add_r by lia; f_equal; lia).
      assert (0 < 2 ^ (53 - d)) by (apply Z.pow_pos_nonneg; lia).
      split; [apply Z.mul_le_mono_nonneg_r; lia | apply Z.mul_lt_mono_pos_r; lia]. }
    rewrite binary_round_aux_exact by lia.
    repeat split; try lia.
    rewrite Hv. f_equal. f_equal. lia.
Qed.

Lemma new_location_even_spec (M r : Z) :
  0 <= r < M -> loc_spec (new_location_even M r) r M.
Proof.
  intros Hr. unfold new_location_even.
  destruct (Z.eqb_spec r 0) as [-> | Hne]; [reflexivity |].
  cbn [loc_spec]. destruct (Z.compare_spec (2 * r) M); lia.
Qed.

(** Second half of [binary_round_aux]: a rounded mantissa of 53 digits is
    kept; the mantissa [2^53] becomes [2^52] one exponent higher. *)
Lemma round_finish (q e : Z) :
  2 ^ 52 <= q <= 2 ^ 53 -> -1074 <= e <= 970 ->
  exists (m' : positive) (e' : Z),
    (let '(mrs, e'') := shr_fexp 53 1024 q e loc_Exact in
     match shr_m mrs with
     | Z0 => S754_zero false
     | Zpos m => if e'' <=? 1024 - 53 then S754_finite false m e''
                 else S754_infinity false
     | Zneg _ => S754_nan
     end) = S754_finite false m' e' /\
    2 ^ 52 <= Zpos m' < 2 ^ 53 /\
    ((e' = e /\ Zpos m' = q) \/ (e' = e + 1 /\ 2 * Zpos m' = q)).
Proof.
  intros Hq He. destruct q as [| p | p]; try lia.
  destruct (Z.eq_dec (Zpos p) (2 ^ 53)) as [Heq | Hne].
  - injection Heq as ->. exists 4503599627370496%positive, (e + 1).
    unfold shr_fexp. cbn [Zdigits2].
    change (Zpos (digits2_pos _)) with 54. unfold fexp, emin.
    replace (Z.max (54 + e - 53) (3 - 1024 - 53) - e) with 1 by lia.
    cbn [shr shr_record_of_loc iter_pos shr_1 shr_m orb].
    replace (e + 1 <=? 1024 - 53) with true by (symmetry; apply Z.leb_le; lia).
    split; [reflexivity |]. split; [lia |]. right. split; [reflexivity | lia].
  - exists p, e. unfold shr_fexp. cbn [Zdigits2].
    rewrite (digits2_unique p 53) by lia. unfold fexp, emin.
    replace (Z.max (53 + e - 53) (3 - 1024 - 53) - e) with 0 by lia.
    cbn [shr shr_record_of_loc shr_m].
    replace (e <=? 1024 - 53) with true by (symmetry; apply Z.leb_le; lia).
    split; [reflexivity |]. split; [lia |]. left. split; reflexivity.
Qed.

(** [binary_round_aux] on a quotient [q] with remainder [r] out of [M]:
    the result is the float nearest to [(q + r / M) * 2^e]. *)
Lemma binary_round_aux_nearest (q e r M : Z) (l : location) :
  0 <= r < M -> loc_spec l r M ->
  2 ^ 52 <= q < 2 ^ 54 - 2 -> -1074 <= e <= 969 ->
  exists (m' : positive) (e' : Z),
    binary_round_aux 53 1024 false q e l = S754_finite false m' e' /\
    2 ^ 52 <= Zpos m' < 2 ^ 53 /\
    ((e' = e /\ 2 * Z.abs (Zpos m' * M - (q * M + r)) <= M) \/
     (e' = e + 1 /\ Z.abs (2 * Zpos m' * M - (q * M + r)) <= M)).
Proof.
  intros Hr Hl Hq He. unfold binary_round_aux.
  destruct q as [| p | p]; try lia.
  destruct (Z_lt_le_dec (Zpos p) (2 ^ 53)) as [H53 | H54].
  - unfold shr_fexp at 1. cbn [Zdigits2].
    rewrite (digits2_unique p 53) by lia. unfold fexp at 1, emin.
    replace (Z.max (53 + e - 53) (3 - 1024 - 53) - e) with 0 by lia.
    cbn [shr]. rewrite loc_of_shr_record_of_loc.
    replace (shr_m (shr_record_of_loc (Zpos p) l)) with (Zpos p)
      by (destruct l as [| []]; reflexivity).
    set (q' := round_nearest_even (Zpos p) l).
    assert (Hq' : (q' = Zpos p /\ 2 * r <= M) \/ (q' = Zpos p + 1 /\ M <= 2 * r)).
    { subst q'. destruct l as [| []]; cbn [round_nearest_even loc_spec] in *;
        try (left; split; [reflexivity | lia]);
        try (right; split; [reflexivity | lia]).
      destruct (Z.even (Zpos p));
        [left; split; [reflexivity | lia] | right; split; [reflexivity | lia]]. }
    clearbody q'.
    destruct (round_finish q' e) as (m' & e' & Hres & Hm' & Hcase); [lia | lia |].
    exists m', e'. split; [exact Hres |]. split; [exact Hm' |].
    destruct Hcase as [[-> Hm] | [-> Hm]]; [left | right];
      (split; [reflexivity |]); rewrite Hm;
      destruct Hq' as [[-> Hle] | [-> Hle]]; lia.
  - unfold shr_fexp at 1. cbn [Zdigits2].
    rewrite (digits2_unique p 54) by lia. unfold fexp at 1, emin.
    replace (Z.max (54 + e - 53) (3 - 1024 - 53) - e) with 1 by lia.
    cbn [shr iter_pos].
    assert (Hq' : exists p' : positive,
               (round_nearest_even (shr_m (shr_1 (shr_record_of_loc (Zpos p) l)))
                  (loc_of_shr_record (shr_1 (shr_record_of_loc (Zpos p) l))) = Zpos p'
                \/ round_nearest_even (shr_m (shr_1 (shr_record_of_loc (Zpos p) l)))
                  (loc_of_shr_record (shr_1 (shr_record_of_loc (Zpos p) l))) = Zpos p' + 1)
               /\ ((Zpos p = 2 * Zpos p' /\
                    round_nearest_even (shr_m (shr_1 (shr_record_of_loc (Zpos p) l)))
                      (loc_of_shr_record (shr_1 (shr_record_of_loc (Zpos p) l))) = Zpos p')
                   \/ (Zpos p = 2 * Zpos p' + 1 /\ r = 0)
                   \/ (Zpos p = 2 * Zpos p' + 1 /\ 0 < r /\
                       round_nearest_even (shr_m (shr_1 (shr_record_of_loc (Zpos p) l)))
                         (loc_of_shr_record (shr_1 (shr_record_of_loc (Zpos p) l)))
                       = Zpos p' + 1))).
    { destruct p as [p' | p' |]; try lia; exists p'.
      - destruct l as [| []];
          cbn [shr_record_of_loc shr_1 shr_m loc_of_shr_record orb round_nearest_even
               loc_spec] in *.
        + split; [destruct (Z.even (Zpos p')); auto |]. right. left. lia.
        + split; [auto |]. right. right. lia.
        + split; [auto |]. right. right. lia.
        + split; [auto |]. right. right. lia.
      - split; [left |]; [| left; split; [lia |]]; destruct l as [| []]; reflexivity. }
    destruct Hq' as (p' & Hrange & Hq').
    set (q' := round_nearest_even _ _) in *. clearbody q'.
    destruct (round_finish q' (e + 1)) as (m' & e' & Hres & Hm' & Hcase);
      [lia | lia |].
    exists m', e'. split; [exact Hres |]. split; [exact Hm' |].
    right. destruct Hcase as [[-> Hm] | [-> Hm]]; [| lia].
    split; [reflexivity |]. rewrite Hm.
    destruct Hq' as [[Hp ->] | [[Hp ->] | (Hp & Hpos & ->)]]; rewrite Hp;
      lia.
Qed.

(** Division of a float of integer value by [1e9]: the quotient is the
    float nearest to the exact quotient. *)
Lemma b64_div_1e9_nearest (m : positive) (e : Z) :
  2 ^ 52 <= Zpos m < 2 ^ 53 -> -52 <= e <= 0 ->
  exists (m' : positive) (e' : Z),
    b64_div (S754_finite false m e) f1e9 = S754_finite false m' e' /\
    ((e' = e - 30 /\ 2 * Z.abs (10 ^ 9 * Zpos m' - Zpos m * 2 ^ 30) <= 10 ^ 9) \/
     (e' = e - 29 /\ Z.abs (2 * 10 ^ 9 * Zpos m' - Zpos m * 2 ^ 30) <= 10 ^ 9)).
Proof.
  intros Hm He.
  change f1e9 with (S754_finite false 8388608000000000 (-23)).
  unfold b64_div, SFdiv, SFdiv_core_binary. cbn [xorb Zdigits2].
  rewrite (digits2_unique m 53) by lia.
  change (Zpos (digits2_pos 8388608000000000)) with 53.
  unfold fexp, emin, PyFloat.prec, PyFloat.emax.
  replace (Z.min (Z.max (53 + e - (53 + -23) - 53) (3 - 1024 - 53)) (e - -23))
    with (e - 30) by lia.
  replace (e - -23 - (e - 30)) with 53 by lia.
  rewrite Z.shiftl_mul_pow2 by lia.
  pose proof (Z_div_mod (Zpos m * 2 ^ 53) 8388608000000000 ltac:(lia)) as Hdiv.
  destruct (Z.div_eucl (Zpos m * 2 ^ 53) 8388608000000000) as [q r].
  destruct Hdiv as [Hdiv Hr].
  change (new_location 8388608000000000) with (new_location_even 8388608000000000).
  destruct (binary_round_aux_nearest q (e - 30) r 8388608000000000
              (new_location_even 8388608000000000 r))
    as (m' & e' & Hres & _ & Hacc);
    [lia | apply new_location_even_spec; lia | lia | lia |].
  exists m', e'. split; [exact Hres |].
  destruct Hacc as [[-> Hacc] | [-> Hacc]]; [left | right].
  - split; [reflexivity | lia].
  - split; [lia | lia].
Qed.

Lemma mag_den_pos (e : Z) : 0 < mag_den e.
Proof.
  unfold mag_den. destruct (0 <=? e) eqn:He; [lia |].
  apply Z.pow_pos_nonneg; lia.
Qed.

Lemma mag_num_nonneg (m : positive) (e : Z) : 0 <= mag_num m e.
Proof.
  unfold mag_num. destruct (0 <=? e) eqn:He; [| lia].
  apply Z.mul_nonneg_nonneg; [lia | apply Z.pow_nonneg; lia].
Qed.

(** [round_half_even n d] is an integer nearest to [n / d]; on a tie it is
    the even one. *)
Lemma round_half_even_nearest (n d : Z) :
  0 <= n -> 0 < d ->
  2 * Z.abs (n - round_half_even n d * d) <= d /\
  (2 * (n mod d) = d -> Z.even (round_half_even n d) = true).
Proof.
  intros Hn Hd. unfold round_half_even.
  pose proof (Z.div_mod n d ltac:(lia)) as Hdm.
  pose proof (Z.mod_pos_bound n d Hd) as Hr.
  destruct (Z.compare_spec (2 * (n mod d)) d) as [Heq | Hlt | Hgt].
  - destruct (Z.even (n / d)) eqn:Hev.
    + split; [nia | intros _; exact Hev].
    + split; [nia |]. intros _. rewrite Z.even_add, Hev. reflexivity.
  - split; [nia | lia].
  - split; [nia | lia].
Qed.

(** For an integer market cap below [2^53] the hundredths printed for
    [market_cap / 1e9] are nearest to the exact quotient [z / 10^9]. *)
Lemma billions_nearest_cent (z : Z) :
  0 < z < 2 ^ 53 ->
  exists (m : positive) (e : Z),
    py_truediv (PyInt z) f1e9 = Returned (PyFloat (S754_finite false m e)) /\
    2 * Z.abs (10 ^ 7 * hundredths m e - z) <= 10 ^ 7.
Proof.
  intros Hz.
  destruct (b64_of_Z_exact z Hz) as (mz & ez & Hfl & Hmz & Hez & Hval).
  destruct (b64_div_1e9_nearest mz ez Hmz Hez) as (m & e & Hq & Hacc).
  exists m, e. split.
  - unfold py_truediv, int_to_float. rewrite Hfl.
    change f1e9 with (S754_finite false 8388608000000000 (-23)) in *.
    cbn [float_truediv]. rewrite Hq. reflexivity.
  - set (K := 2 ^ (- ez)) in *.
    assert (HK : 1 <= K) by (subst K; apply (Z.pow_le_mono_r 2 0); lia).
    assert (HD : exists D : Z,
               2 ^ 29 <= D /\ mag_den e = D /\ mag_num m e = Zpos m /\
               2 * Z.abs (10 ^ 9 * Zpos m - z * D) <= 10 ^ 9).
    { destruct Hacc as [[-> Hacc] | [-> Hacc]].
      - exists (2 ^ 30 * K). unfold mag_den, mag_num.
        replace (0 <=? ez - 30) with false by (symmetry; apply Z.leb_gt; lia).
        split; [nia |]. split; [| split; [reflexivity | nia]].
        subst K. rewrite <- Z.pow_add_r by lia. f_equal. lia.
      - exists (2 ^ 29 * K). unfold mag_den, mag_num.
        replace (0 <=? ez - 29) with false by (symmetry; apply Z.leb_gt; lia).
        split; [nia |]. split; [| split; [reflexivity | nia]].
        subst K. rewrite <- Z.pow_add_r by lia. f_equal. lia. }
    destruct HD as (D & HD & Hden & Hnum & Hb).
    pose proof (round_half_even_nearest (100 * mag_num m e) (mag_den e)) as Hh.
    fold (hundredths m e) in Hh. rewrite Hden, Hnum in Hh.
    destruct Hh as [Ha _]; [lia | lia |].
    set (h := hundredths m e) in *. clearbody h.
    assert (Hid : D * (z - 10 ^ 7 * h)
                  = 10 ^ 7 * (100 * Zpos m - h * D) - (10 ^ 9 * Zpos m - z * D)) by ring.
    nia.
Qed.

(** ** Integers beyond the range of a float *)

Lemma shr_1_m (mrs : shr_record) : 0 <= shr_m mrs -> shr_m (shr_1 mrs) = shr_m mrs / 2.
Proof.
  destruct mrs as [m r s]. cbn [shr_m]. intros Hm.
  destruct m as [| [p | p |] | p]; cbn [shr_1 shr_m]; try lia; try reflexivity.
  - rewrite Pos2Z.inj_xI. apply Z.div_unique with (r := 1); lia.
  - rewrite Pos2Z.inj_xO. apply Z.div_unique with (r := 0); lia.
Qed.

Lemma iter_shr_1_m (k : positive) (mrs : shr_record) :
  0 <= shr_m mrs ->
  shr_m (SpecFloat.iter_pos shr_1 k mrs) = shr_m mrs / 2 ^ Zpos k.
Proof.
  revert mrs. induction k as [k IH | k IH |]; intros mrs Hm; cbn [SpecFloat.iter_pos].
  - assert (Hpow : 0 < 2 ^ Zpos k) by (apply Z.pow_pos_nonneg; lia).
    assert (H1 : 0 <= shr_m (shr_1 mrs)) by (rewrite shr_1_m by lia; apply Z.div_pos; lia).
    assert (H2 : 0 <= shr_m (SpecFloat.iter_pos shr_1 k (shr_1 mrs)))
      by (rewrite IH by lia; apply Z.div_pos; lia).
    assert (He : 2 ^ Zpos k~1 = 2 * (2 ^ Zpos k * 2 ^ Zpos k)).
    { replace (Zpos k~1) with (1 + Zpos k + Zpos k) by lia.
      rewrite !Z.pow_add_r by lia. lia. }
    rewrite IH, IH, shr_1_m, He by lia.
    rewrite !Z.div_div by lia. reflexivity.
  - assert (Hpow : 0 < 2 ^ Zpos k) by (apply Z.pow_pos_nonneg; lia).
    assert (H2 : 0 <= shr_m (SpecFloat.iter_pos shr_1 k mrs))
      by (rewrite IH by lia; apply Z.div_pos; lia).
    assert (He : 2 ^ Zpos k~0 = 2 ^ Zpos k * 2 ^ Zpos k).
    { replace (Zpos k~0) with (Zpos k + Zpos k) by lia.
      rewrite !Z.pow_add_r by lia. lia. }
    rewrite IH, IH, He by lia.
    rewrite !Z.div_div by lia. reflexivity.
  - rewrite shr_1_m by lia. reflexivity.
Qed.

(** Second half of [binary_round_aux] above the largest exponent. *)
Lemma round_finish_overflow (sx : bool) (q e : Z) :
  2 ^ 52 <= q <= 2 ^ 53 -> 972 <= e ->
  (let '(mrs, e'') := shr_fexp 53 1024 q e loc_Exact in
   match shr_m mrs with
   | Z0 => S754_zero sx
   | Zpos m => if e'' <=? 1024 - 53 then S754_finite sx m e''
               else S754_infinity sx
   | Zneg _ => S754_nan
   end) = S754_infinity sx.
Proof.
  intros Hq He. destruct q as [| p | p]; try lia.
  destruct (Z.eq_dec (Zpos p) (2 ^ 53)) as [Heq | Hne].
  - injection Heq as ->. unfold shr_fexp. cbn [Zdigits2].
    change (Zpos (digits2_pos _)) with 54. unfold fexp, emin.
    replace (Z.max (54 + e - 53) (3 - 1024 - 53) - e) with 1 by lia.
    cbn [shr shr_record_of_loc SpecFloat.iter_pos shr_1 shr_m orb].
    replace (e + 1 <=? 1024 - 53) with false by (symmetry; apply Z.leb_gt; lia).
    reflexivity.
  - unfold shr_fexp. cbn [Zdigits2].
    rewrite (digits2_unique p 53) by lia. unfold fexp, emin.
    replace (Z.max (53 + e - 53) (3 - 1024 - 53) - e) with 0 by lia.
    cbn [shr shr_record_of_loc shr_m].
    replace (e <=? 1024 - 53) with false by (symmetry; apply Z.leb_gt; lia).
    reflexivity.
Qed.

Lemma round_nearest_even_step (m : Z) (l : location) :
  round_nearest_even m l = m \/ round_nearest_even m l = m + 1.
Proof. destruct l as [| []]; cbn; auto. destruct (Z.even m); auto. Qed.

(** An integer of 1025 bits or more rounds to an infinity. *)
Lemma binary_round_overflow (sx : bool) (p : positive) :
  2 ^ 1024 <= Zpos p -> binary_round 53 1024 sx p 0 = S754_infinity sx.
Proof.
  intros Hp. unfold binary_round.
  pose proof (digits2_bounds p) as Hd.
  set (d := Zpos (digits2_pos p)) in *.
  assert (Hd1025 : 1025 <= d).
  { destruct (Z_lt_le_dec d 1025) as [H | H]; [exfalso | exact H].
    assert (2 ^ d <= 2 ^ 1024) by (apply Z.pow_le_mono_r; lia). lia. }
  unfold fexp at 1, emin.
  replace (Z.max (d + 0 - 53) (3 - 1024 - 53)) with (d - 53) by lia.
  unfold shl_align. destruct (d - 53 - 0) as [| k | k] eqn:Hk; try lia.
  unfold binary_round_aux. unfold shr_fexp at 1. cbn [Zdigits2]. fold d.
  unfold fexp at 1, emin.
  replace (Z.max (d + 0 - 53) (3 - 1024 - 53) - 0) with (Zpos k) by lia.
  cbn [shr].
  set (mrs := SpecFloat.iter_pos shr_1 k (shr_record_of_loc (Zpos p) loc_Exact)).
  assert (Hm : shr_m mrs = Zpos p / 2 ^ Zpos k)
    by (subst mrs; rewrite iter_shr_1_m; cbn [shr_record_of_loc shr_m]; [reflexivity | lia]).
  assert (Hpow : 0 < 2 ^ Zpos k) by (apply Z.pow_pos_nonneg; lia).
  assert (Hrange : 2 ^ 52 <= shr_m mrs < 2 ^ 53).
  { rewrite Hm. replace (Zpos k) with (d - 53) in * by lia. split.
    - apply Z.div_le_lower_bound; [lia |].
      rewrite <- Z.pow_add_r by lia. replace (d - 53 + 52) with (d - 1) by lia. lia.
    - apply Z.div_lt_upper_bound; [lia |].
      rewrite <- Z.pow_add_r by lia. replace (d - 53 + 53) with d by lia. lia. }
  apply round_finish_overflow; [| lia].
  destruct (round_nearest_even_step (shr_m mrs) (loc_of_shr_record mrs)) as [-> | ->]; lia.
Qed.

Lemma b64_of_Z_overflow (z : Z) :
  2 ^ 1024 <= Z.abs z -> exists s : bool, b64_of_Z z = S754_infinity s.
Proof.
  intros Hz. unfold b64_of_Z, binary_normalize.
  destruct z as [| p | p]; [cbn in Hz; lia | |];
    unfold PyFloat.prec, PyFloat.emax; rewrite binary_round_overflow by (cbn in Hz; lia);
    eexists; reflexivity.
Qed.

Lemma int_to_float_overflow (z : Z) :
  2 ^ 1024 <= Z.abs z ->
  int_to_float z = Raised (OverflowError "int too large to convert to float").
Proof.
  intros Hz. unfold int_to_float.
  destruct (b64_of_Z_overflow z Hz) as [s ->]. reflexivity.
Qed.

(** ** Decimal texts *)

Lemma Z_of_str_of_Z (z : Z) : Z_of_str (str_of_Z z) = Some z.
Proof.
  unfold Z_of_str, str_of_Z. rewrite NilZero.isi.
  - cbn [option_map]. rewrite DecimalZ.of_to. reflexivity.
  - destruct z as [| p | p]; cbn; try discriminate.
    intros [= H]. exact (Unsigned.to_uint_nonnil p H).
  - destruct z as [| p | p]; cbn; try discriminate.
    intros [= H]. exact (Unsigned.to_uint_nonnil p H).
Qed.

Lemma all_digits_uint (d : Decimal.uint) :
  all_digits (NilEmpty.string_of_uint d) = true.
Proof. induction d; cbn [NilEmpty.string_of_uint all_digits]; try rewrite IHd; reflexivity. Qed.

Lemma all_digits_str_of_Z (z : Z) : 0 <= z -> all_digits (str_of_Z z) = true.
Proof.
  intros Hz. unfold str_of_Z. destruct z as [| p | p]; try lia; [reflexivity |].
  cbn [Z.to_int NilZero.string_of_int]. unfold NilZero.string_of_uint.
  destruct (Pos.to_uint p) eqn:E; try (rewrite <- E; apply all_digits_uint).
  reflexivity.
Qed.

Lemma str_of_Z_nonempty (z : Z) : str_of_Z z <> EmptyString.
Proof.
  intros H. pose proof (Z_of_str_of_Z z) as Hz. rewrite H in Hz. discriminate.
Qed.

Lemma str_of_Z_neg (p : positive) :
  str_of_Z (Zneg p) = String "-" (str_of_Z (Zpos p)).
Proof. reflexivity. Qed.

Lemma str_of_Z_sign (z : Z) :
  str_of_Z z = sign_str (z <? 0) +:+ str_of_Z (Z.abs z).
Proof. destruct z; reflexivity. Qed.

(** *** The number of digits of an integer *)

Lemma length_string_of_uint (d : Decimal.uint) :
  String.length (NilEmpty.string_of_uint d) = Decimal.nb_digits d.
Proof.
  induction d; cbn [NilEmpty.string_of_uint String.length Decimal.nb_digits];
    congruence.
Qed.

(** Reading digits behind an accumulator [acc] appends them to it. *)
Lemma of_uint_acc_bounds (d : Decimal.uint) (acc : positive) :
  Zpos acc * 10 ^ Z.of_nat (Decimal.nb_digits d) <= Zpos (Pos.of_uint_acc d acc)
  < (Zpos acc + 1) * 10 ^ Z.of_nat (Decimal.nb_digits d).
Proof.
  revert acc. induction d as [| d IH | d IH | d IH | d IH | d IH | d IH | d IH | d IH
                              | d IH | d IH]; intros acc;
    cbn [Pos.of_uint_acc Decimal.nb_digits];
    [cbn; lia | ..];
    rewrite Nat2Z.inj_succ, Z.pow_succ_r by lia;
    match goal with
    | |- context [Pos.of_uint_acc d ?a] => specialize (IH a)
    end;
    assert (HP : 0 < 10 ^ Z.of_nat (Decimal.nb_digits d))
      by (apply Z.pow_pos_nonneg; lia);
    set (P := 10 ^ Z.of_nat (Decimal.nb_digits d)) in *;
    rewrite ?Pos2Z.inj_add, ?Pos2Z.inj_mul in IH; nia.
Qed.

(** The decimal text of a positive number has no leading zero: a number of
    [n] digits lies between [10^(n-1)] and [10^n]. *)
Lemma pos_digits_bounds (p : positive) :
  let n := Z.of_nat (Decimal.nb_digits (Pos.to_uint p)) in
  10 ^ (n - 1) <= Zpos p < 10 ^ n.
Proof.
  cbv zeta.
  pose proof (Unsigned.of_to p) as Hof.
  pose proof (Unsigned.to_of (Pos.to_uint p)) as Hnorm. rewrite Hof in Hnorm.
  change (N.to_uint (Npos p)) with (Pos.to_uint p) in Hnorm.
  pose proof (Unsigned.to_uint_nonzero p) as Hnz.
  pose proof (Unsigned.to_uint_nonnil p) as Hnn.
  assert (Hhead : forall d', Pos.to_uint p <> Decimal.D0 d').
  { intros d' Hd. rewrite Hd in Hnorm, Hnz.
    unfold Decimal.unorm in Hnorm. cbn [Decimal.nzhead] in Hnorm.
    destruct (Decimal.nzhead d') eqn:Hh;
      apply (DecimalFacts.nzhead_nonzero d' d'); congruence. }
  destruct (Pos.to_uint p) as [| d | d | d | d | d | d | d | d | d | d] eqn:Hd;
    [congruence | exfalso; exact (Hhead d eq_refl) | ..];
    cbn [Pos.of_uint] in Hof; injection Hof as <-;
    match goal with
    | |- context [Pos.of_uint_acc d ?a] => pose proof (of_uint_acc_bounds d a) as Hb
    end;
    cbn [Decimal.nb_digits]; rewrite Nat2Z.inj_succ;
    replace (Z.succ (Z.of_nat (Decimal.nb_digits d)) - 1)
      with (Z.of_nat (Decimal.nb_digits d)) by lia;
    rewrite Z.pow_succ_r by lia;
    assert (HP : 0 < 10 ^ Z.of_nat (Decimal.nb_digits d))
      by (apply Z.pow_pos_nonneg; lia);
    set (P := 10 ^ Z.of_nat (Decimal.nb_digits d)) in *; nia.
Qed.

Lemma length_str_of_pos (p : positive) :
  String.length (str_of_Z (Zpos p)) = Decimal.nb_digits (Pos.to_uint p).
Proof.
  unfold str_of_Z. cbn [Z.to_int NilZero.string_of_int]. unfold NilZero.string_of_uint.
  pose proof (Unsigned.to_uint_nonnil p) as Hnn.
  destruct (Pos.to_uint p) eqn:E; [congruence | ..]; rewrite <- E;
    apply length_string_of_uint.
Qed.

(** A natural number has at most [k] digits exactly when it is below
    [10^k]. *)
Lemma str_of_Z_digits (n : Z) (k : nat) :
  0 <= n -> (1 <= k)%nat ->
  (String.length (str_of_Z n) <= k)%nat <-> n < 10 ^ Z.of_nat k.
Proof.
  intros Hn Hk. destruct n as [| p | p]; try lia.
  - split; intros _; [apply Z.pow_pos_nonneg; lia | cbn; lia].
  - rewrite length_str_of_pos. pose proof (pos_digits_bounds p) as Hb. cbv zeta in Hb.
    set (L := Decimal.nb_digits (Pos.to_uint p)) in *. split; intros H.
    + assert (10 ^ Z.of_nat L <= 10 ^ Z.of_nat k) by (apply Z.pow_le_mono_r; lia). lia.
    + destruct (Nat.le_gt_cases L k) as [Hle | Hgt]; [exact Hle | exfalso].
      assert (10 ^ Z.of_nat k <= 10 ^ (Z.of_nat L - 1)) by (apply Z.pow_le_mono_r; lia).
      lia.
Qed.

(** The limit of [str] on the value: an int is converted exactly when it is
    below [10^4300] in absolute value. *)
Lemma int_fits_below (z : Z) : int_fits z = true <-> Z.abs z < 10 ^ 4300.
Proof.
  unfold int_fits. rewrite Nat.leb_le.
  change (10 ^ 4300) with (10 ^ Z.of_nat max_str_digits).
  apply str_of_Z_digits; [lia | unfold max_str_digits; lia].
Qed.

Lemma int_str_fits (z : Z) : int_fits z = true -> int_str z = Returned (str_of_Z z).
Proof.
  unfold int_fits, int_str. intros H%Nat.leb_le.
  destruct (Nat.ltb_spec max_str_digits (String.length (str_of_Z (Z.abs z))));
    [lia | reflexivity].
Qed.

Lemma int_str_too_long (z : Z) : int_fits z = false -> int_str z = Raised int_str_limit.
Proof.
  unfold int_fits, int_str. intros H%Nat.leb_gt.
  destruct (Nat.ltb_spec max_str_digits (String.length (str_of_Z (Z.abs z))));
    [reflexivity | lia].
Qed.

Lemma int_fits_abs (z : Z) : int_fits (Z.abs z) = int_fits z.
Proof. unfold int_fits. rewrite Z.abs_idemp. reflexivity. Qed.

Lemma int_format_comma_fits (z : Z) :
  int_fits z = true ->
  int_format_comma z
  = Returned (sign_str (z <? 0) +:+ group_thousands (str_of_Z (Z.abs z))).
Proof.
  intros H. unfold int_format_comma.
  rewrite int_str_fits by (rewrite int_fits_abs; exact H). reflexivity.
Qed.

Lemma int_format_comma_too_long (z : Z) :
  int_fits z = false -> int_format_comma z = Raised int_str_limit.
Proof.
  intros H. unfold int_format_comma.
  rewrite int_str_too_long by (rewrite int_fits_abs; exact H). reflexivity.
Qed.

(** An int that converts to a float is far below the limit of [str]. *)
Lemma float_int_fits (z : Z) : formats_as_float (PyInt z) = true -> int_fits z = true.
Proof.
  cbn [formats_as_float]. intros Hf. apply int_fits_below.
  destruct (Z_lt_le_dec (Z.abs z) (2 ^ 1024)) as [Hlt | Hge].
  - assert (2 ^ 1024 <= 10 ^ 1024) by (apply Z.pow_le_mono_l; lia).
    assert (10 ^ 1024 <= 10 ^ 4300) by (apply Z.pow_le_mono_r; lia).
    set (A := 2 ^ 1024) in *. set (B := 10 ^ 1024) in *. set (C := 10 ^ 4300) in *.
    lia.
  - destruct (b64_of_Z_overflow z Hge) as [s Hs]. rewrite Hs in Hf. discriminate.
Qed.

(** ** Acceptance of the format fields *)

Lemma py_format_2f_accepts (v : pyval) :
  (exists s, py_format_2f v = Returned s) <-> formats_as_float v = true.
Proof.
  destruct v as [| b | z | x | s]; cbn [py_format_2f formats_as_float].
  - split; [intros [s H]; discriminate | discriminate].
  - split; [reflexivity | intros _]. destruct b; eexists; reflexivity.
  - unfold int_to_float. destruct (b64_of_Z z); split; intros H;
      try reflexivity; try (eexists; reflexivity);
      try discriminate; destruct H; discriminate.
  - split; [reflexivity | intros _; eexists; reflexivity].
  - split; [intros [s' H]; discriminate | discriminate].
Qed.

Lemma py_truediv_1e9_accepts (v : pyval) :
  (exists x, py_truediv v f1e9 = Returned (PyFloat x)) <-> formats_as_float v = true.
Proof.
  change f1e9 with (S754_finite false 8388608000000000 (-23)).
  destruct v as [| b | z | x | s]; cbn [py_truediv formats_as_float].
  - split; [intros [s H]; discriminate | discriminate].
  - split; [reflexivity | intros _]. destruct b; eexists; reflexivity.
  - unfold int_to_float. destruct (b64_of_Z z); cbn [float_truediv]; split; intros H;
      try reflexivity; try (eexists; reflexivity);
      try discriminate; destruct H; discriminate.
  - split; [reflexivity | intros _; eexists; reflexivity].
  - split; [intros [s' H]; discriminate | discriminate].
Qed.

Lemma py_truediv_returns_float (v : pyval) (y : spec_float) (b : pyval) :
  py_truediv v y = Returned b -> exists x, b = PyFloat x.
Proof.
  unfold py_truediv, float_truediv.
  destruct v as [| c | z | x | s]; try discriminate.
  - destruct (int_to_float _); [| discriminate].
    destruct y; intros [= <-]; eauto.
  - destruct (int_to_float _); [| discriminate].
    destruct y; intros [= <-]; eauto.
  - destruct y; intros [= <-]; eauto.
Qed.

Lemma py_format_comma_accepts (v : pyval) :
  (exists s, py_format_comma v = Returned s) <-> formats_with_commas v = true.
Proof.
  destruct v as [| b | z | x | s]; cbn [py_format_comma formats_with_commas].
  - split; [intros [s H]; discriminate | discriminate].
  - split; [reflexivity | intros _]. destruct b; eexists; reflexivity.
  - destruct (int_fits z) eqn:Hf.
    + rewrite int_format_comma_fits by exact Hf. split; eauto.
    + rewrite int_format_comma_too_long by exact Hf.
      split; [intros [s H]; discriminate | discriminate].
  - split; [reflexivity | intros _; eexists; reflexivity].
  - split; [intros [s' H]; discriminate | discriminate].
Qed.

Lemma py_str_accepts (v : pyval) :
  (exists s, py_str v = Returned s) <-> prints_as_text v = true.
Proof.
  destruct v as [| b | z | x | s]; cbn [py_str prints_as_text];
    try (split; [reflexivity | intros _; eexists; reflexivity]).
  destruct (int_fits z) eqn:Hf.
  - rewrite int_str_fits by exact Hf. split; eauto.
  - rewrite int_str_too_long by exact Hf.
    split; [intros [s H]; discriminate | discriminate].
Qed.

Lemma py_str_raises (v : pyval) (e : exn) : py_str v = Raised e -> e = int_str_limit.
Proof.
  destruct v as [| b | z | x | s]; cbn [py_str]; try discriminate.
  unfold int_str. destruct (_ <? _)%nat; [congruence | discriminate].
Qed.

(** A number that divides by [1e9] or formats with [.2f] has a text. *)
Lemma float_prints (v : pyval) : formats_as_float v = true -> prints_as_text v = true.
Proof.
  destruct v as [| b | z | x | s]; try reflexivity; try discriminate.
  apply float_int_fits.
Qed.

Lemma report_accepts (mc pr sh : pyval) :
  (exists lines, report mc pr sh = (lines, None)) <->
  formats_as_float pr && formats_as_float mc && formats_with_commas sh = true.
Proof.
  rewrite !andb_true_iff, <- py_format_2f_accepts, <- py_truediv_1e9_accepts,
    <- py_format_comma_accepts.
  unfold report. split.
  - intros [lines H].
    destruct (py_format_2f pr) as [p |]; [| discriminate].
    destruct (py_truediv mc f1e9) as [b |] eqn:Hb; [| discriminate].
    destruct (py_truediv_returns_float _ _ _ Hb) as [x ->].
    destruct (py_format_2f (PyFloat x)) as [c |]; [| discriminate].
    destruct (py_format_comma sh) as [s |]; [| discriminate].
    repeat split; eauto.
  - intros [[[p ->] [x ->]] [s ->]]. cbn [py_format_2f]. eauto.
Qed.

(** Once the report lines are formatted, [str(market_cap)] returns. *)
Lemma report_number (mc pr sh : pyval) (lines : list string) :
  report mc pr sh = (lines, None) -> exists number, py_str mc = Returned number.
Proof.
  intros H. apply py_str_accepts, float_prints.
  assert (Hex : exists l, report mc pr sh = (l, None)) by eauto.
  apply report_accepts in Hex. rewrite !andb_true_iff in Hex. tauto.
Qed.

Lemma report_complete (mc pr sh : pyval) (lines : list string) :
  report mc pr sh = (lines, None) ->
  exists p c s, lines = [price_line p; cap_line c; shares_line s].
Proof.
  unfold report.
  destruct (py_format_2f pr) as [p | e]; [| discriminate].
  destruct (py_truediv mc f1e9) as [b | e]; [| discriminate].
  destruct (py_format_2f b) as [c | e]; [| discriminate].
  destruct (py_format_comma sh) as [s | e]; [| discriminate].
  intros H. injection H as <-. exists p, c, s. reflexivity.
Qed.

(** Integers of at most 53 bits convert to a float. *)
Lemma small_int_formats (z : Z) : 0 <= z < 2 ^ 53 -> formats_as_float (PyInt z) = true.
Proof.
  intros Hz. cbn [formats_as_float].
  destruct (Z.eq_dec z 0) as [-> | Hne]; [reflexivity |].
  destruct (b64_of_Z_exact z) as (m & e & -> & _); [lia | reflexivity].
Qed.

(** ** Two decimals *)

Lemma digits_point_two_app (ip : string) (a b : ascii) (seen : bool) :
  all_digits ip = true -> (seen = true \/ ip <> EmptyString) ->
  digits_point_two seen (ip +:+ String "." (String a (String b EmptyString)))
  = is_digit a && is_digit b.
Proof.
  revert seen. induction ip as [| c r IH]; intros seen Hd Hne.
  - destruct Hne as [-> | Hne]; [reflexivity | congruence].
  - cbn [all_digits] in Hd. apply andb_true_iff in Hd as [Hc Hr].
    change (String c r +:+ String "." (String a (String b EmptyString)))
      with (String c (r +:+ String "." (String a (String b EmptyString)))).
    cbn [digits_point_two]. rewrite Hc. apply IH; [exact Hr | left; reflexivity].
Qed.

Lemma two_digits (r : Z) :
  0 <= r < 100 ->
  exists a b : ascii,
    zfill 2 (str_of_Z r) = String a (String b EmptyString) /\
    is_digit a = true /\ is_digit b = true /\
    Z_of_str (String a (String b EmptyString)) = Some r.
Proof.
  intros Hr.
  assert (Hall : forallb two_digit_check (seq 0 100) = true) by (vm_compute; reflexivity).
  rewrite forallb_forall in Hall.
  specialize (Hall (Z.to_nat r)). rewrite in_seq in Hall.
  specialize (Hall ltac:(lia)). unfold two_digit_check in Hall.
  rewrite Z2Nat.id in Hall by lia.
  destruct (zfill 2 (str_of_Z r)) as [| a [| b [| c s]]]; try discriminate.
  apply andb_true_iff in Hall as [Hab Hv]. apply andb_true_iff in Hab as [Ha Hb].
  exists a, b. repeat split; try assumption.
  destruct (Z_of_str _) as [v |]; [| discriminate].
  apply Z.eqb_eq in Hv. congruence.
Qed.

Lemma round_half_even_nonneg (n d : Z) : 0 <= n -> 0 < d -> 0 <= round_half_even n d.
Proof.
  intros Hn Hd. unfold round_half_even.
  pose proof (Z.div_pos n d Hn Hd).
  destruct (_ ?= _); [destruct (Z.even _) |..]; lia.
Qed.

Lemma hundredths_nonneg (m : positive) (e : Z) : 0 <= hundredths m e.
Proof.
  unfold hundredths. apply round_half_even_nonneg; [| apply mag_den_pos].
  pose proof (mag_num_nonneg m e). lia.
Qed.

Lemma digit_not_minus (c : ascii) (s : string) :
  is_digit c = true -> two_decimals (String c s) = digits_point_two false (String c s).
Proof.
  intros Hc. unfold two_decimals.
  destruct (Ascii.eqb_spec c "-") as [-> | Hne]; [discriminate |].
  destruct c as [[] [] [] [] [] [] [] []]; try reflexivity. congruence.
Qed.

Lemma fixed2_shape (h : Z) :
  0 <= h ->
  exists (ip fp : string),
    fixed2 h = ip +:+ "." +:+ fp /\
    two_decimals (ip +:+ "." +:+ fp) = true /\
    digits_point_two false (ip +:+ "." +:+ fp) = true /\
    String.length fp = 2%nat /\
    Z_of_str ip = Some (h / 100) /\ Z_of_str fp = Some (h mod 100) /\
    ip <> EmptyString /\ all_digits ip = true /\ all_digits fp = true.
Proof.
  intros Hh. unfold fixed2.
  destruct (two_digits (h mod 100)) as (a & b & Hz & Ha & Hb & Hv);
    [apply Z.mod_pos_bound; lia |].
  rewrite Hz. exists (str_of_Z (h / 100)), (String a (String b EmptyString)).
  assert (Hip : all_digits (str_of_Z (h / 100)) = true)
    by (apply all_digits_str_of_Z; apply Z.div_pos; lia).
  assert (Hdp : digits_point_two false
                  (str_of_Z (h / 100) +:+ "." +:+ String a (String b EmptyString)) = true).
  { change ("." +:+ String a (String b EmptyString))
      with (String "." (String a (String b EmptyString))).
    rewrite digits_point_two_app; [rewrite Ha, Hb; reflexivity | exact Hip |].
    right. apply str_of_Z_nonempty. }
  split; [reflexivity |]. split; [| split; [exact Hdp |]].
  - destruct (str_of_Z (h / 100)) as [| c r] eqn:E; [discriminate |].
    cbn [all_digits] in Hip. apply andb_true_iff in Hip as [Hc _].
    change (String c r +:+ "." +:+ String a (String b EmptyString))
      with (String c (r +:+ "." +:+ String a (String b EmptyString))) in *.
    rewrite digit_not_minus by exact Hc. exact Hdp.
  - split; [reflexivity |]. split; [apply Z_of_str_of_Z |]. split; [exact Hv |].
    split; [apply str_of_Z_nonempty |]. split; [exact Hip |].
    cbn [all_digits]. rewrite Ha, Hb. reflexivity.
Qed.

(** The text [.2f] gives for a finite float shows its hundredths. *)
Lemma format_2f_shows (s : bool) (m : positive) (e : Z) :
  shows_hundredths (format_2f (S754_finite s m e)) s (hundredths m e).
Proof.
  destruct (fixed2_shape (hundredths m e) (hundredths_nonneg m e))
    as (ip & fp & Hfix & _ & _ & Hlen & Hip & Hfp & Hne & Hdi & Hdf).
  exists ip, fp. cbn [format_2f]. rewrite Hfix.
  split; [destruct s; reflexivity |]. auto 10.
Qed.

(** The hundredths printed are the integer nearest to a hundred times the
    magnitude [m * 2^e], the even one on a tie. *)
Lemma hundredths_nearest (m : positive) (e : Z) :
  let num := 100 * Zpos m * 2 ^ Z.max e 0 in
  let den := 2 ^ Z.max (- e) 0 in
  0 <= hundredths m e /\
  2 * Z.abs (num - hundredths m e * den) <= den /\
  (2 * Z.abs (num - hundredths m e * den) = den -> Z.even (hundredths m e) = true).
Proof.
  cbv zeta.
  assert (Hnum : 100 * Zpos m * 2 ^ Z.max e 0 = 100 * mag_num m e).
  { unfold mag_num. destruct (Z.leb_spec 0 e).
    - rewrite Z.max_l by lia. lia.
    - rewrite Z.max_r by lia. cbn. lia. }
  assert (Hden : 2 ^ Z.max (- e) 0 = mag_den e).
  { unfold mag_den. destruct (Z.leb_spec 0 e).
    - rewrite Z.max_r by lia. reflexivity.
    - rewrite Z.max_l by lia. reflexivity. }
  rewrite Hnum, Hden.
  pose proof (mag_den_pos e) as Hd. pose proof (mag_num_nonneg m e) as Hn.
  split; [apply hundredths_nonneg |].
  unfold hundredths.
  destruct (round_half_even_nearest (100 * mag_num m e) (mag_den e)) as [Hnear Htie];
    [lia | lia |].
  split; [exact Hnear |].
  intros Heq. apply Htie.
  set (n := 100 * mag_num m e) in *. set (d := mag_den e) in *.
  pose proof (Z.div_mod n d ltac:(lia)) as Hdm.
  pose proof (Z.mod_pos_bound n d Hd) as Hr.
  unfold round_half_even in Heq.
  destruct (Z.compare_spec (2 * (n mod d)) d) as [H | H | H]; [exact H | nia | nia].
Qed.

(** ** Runs of the two scripts *)

Section Runs.

Variable provider : list string -> string -> outcome info_dict.
Variable store : list update_item_request -> update_item_request -> option exn.

Lemma selected_price_get (info : info_dict) :
  dict_get_default info "currentPrice" (dict_get info "regularMarketPrice")
  = default PyNone (selected_price info).
Proof.
  unfold dict_get_default, dict_get, selected_price.
  destruct (info !! "currentPrice"); reflexivity.
Qed.

Lemma selected_price_get_default (info : info_dict) (d : pyval) :
  dict_get_default info "currentPrice" (dict_get_default info "regularMarketPrice" d)
  = default d (selected_price info).
Proof.
  unfold dict_get_default, selected_price.
  destruct (info !! "currentPrice"); reflexivity.
Qed.

Ltac run_monad :=
  unfold update_market_cap, check_pltr_marketcap, bind, try_except, print,
    fetch_info, update_item, lift, ret; cbn [stdout fetched update_item_calls].

Ltac tidy_world :=
  repeat (progress cbn [stdout fetched update_item_calls app fst snd]
          || rewrite <- app_assoc);
  try reflexivity.

(** A call of [update_market_cap] returns normally whatever the provider
    and the store do, and leaves the world [after_ticker] describes. *)
Lemma update_market_cap_run (ticker : string) (w : world) :
  update_market_cap provider store ticker w
  = (Returned tt, after_ticker provider store ticker w).
Proof.
  unfold after_ticker. run_monad.
  destruct (provider (fetched w) ticker) as [info | e]; [| tidy_world].
  rewrite selected_price_get.
  destruct (truthy (dict_get info "marketCap")); cbn [negb]; [| tidy_world].
  unfold report.
  destruct (py_format_2f (default PyNone (selected_price info))) as [p | e];
    [| tidy_world].
  destruct (py_truediv (dict_get info "marketCap") f1e9) as [b | e]; [| tidy_world].
  destruct (py_format_2f b) as [c | e]; [| tidy_world].
  destruct (py_format_comma (dict_get info "sharesOutstanding")) as [s | e];
    [| tidy_world].
  destruct (py_str (dict_get info "marketCap")) as [number | e]; [| tidy_world].
  cbn [stdout fetched update_item_calls].
  destruct (store (update_item_calls w) (market_cap_request ticker number));
    tidy_world.
Qed.

(** The check script: its lines, and the exception that ends it if its
    formatting raises. *)
Lemma check_pltr_marketcap_run (w : world) :
  check_pltr_marketcap provider w = after_check provider w.
Proof.
  unfold after_check, check_report. run_monad.
  destruct (provider (fetched w) "PLTR") as [info | e]; [| reflexivity].
  rewrite selected_price_get_default.
  destruct (py_str (default (PyStr "N/A") (selected_price info))) as [p | e];
    [| tidy_world].
  destruct (py_truediv (dict_get_default info "marketCap" (PyInt 0)) f1e9) as [b | e];
    [| tidy_world].
  destruct (py_format_2f b) as [c | e]; [| tidy_world].
  destruct (py_str (dict_get_default info "marketCap" (PyInt 0))) as [raw | e];
    [| tidy_world].
  destruct (py_format_comma (dict_get_default info "sharesOutstanding" (PyInt 0)))
    as [s | e]; tidy_world.
Qed.

Lemma for_each_run (ts : list string) (w : world) :
  for_each ts (update_market_cap provider store) w
  = (Returned tt, after_tickers provider store ts w).
Proof.
  revert w. induction ts as [| t ts IH]; intros w; [reflexivity |].
  cbn [for_each]. unfold bind. rewrite update_market_cap_run. apply IH.
Qed.

Lemma main_run (w : world) :
  main provider store w
  = (Returned tt,
     after_print completed_line
       (after_tickers provider store tickers (after_print banner_line w))).
Proof.
  unfold main, bind. cbn [print]. fold (after_print banner_line w).
  rewrite for_each_run. reflexivity.
Qed.

(** Frame of one call: what it adds to each log. *)
Lemma after_ticker_fetched (t : string) (w : world) :
  fetched (after_ticker provider store t w) = fetched w ++ [t].
Proof.
  unfold after_ticker.
  destruct (provider (fetched w) t) as [info | e]; [| reflexivity].
  destruct (truthy _); [| reflexivity].
  destruct (report _ _ _) as [lines [e |]]; [reflexivity |].
  destruct (py_str _); reflexivity.
Qed.

Lemma after_ticker_stdout (t : string) (w : world) :
  exists lines : list string,
    stdout (after_ticker provider store t w) = stdout w ++ fetching_line t :: lines.
Proof.
  unfold after_ticker.
  destruct (provider (fetched w) t) as [info | e]; [| eexists; reflexivity].
  destruct (truthy _); [| eexists; reflexivity].
  destruct (report _ _ _) as [lines [e |]]; [eexists; reflexivity |].
  destruct (py_str _); eexists; reflexivity.
Qed.

Lemma after_ticker_calls (t : string) (w : world) :
  (update_item_calls (after_ticker provider store t w) = update_item_calls w /\
   forall number, ~ reaches_write provider t w number) \/
  (exists number, reaches_write provider t w number /\
     update_item_calls (after_ticker provider store t w)
     = update_item_calls w ++ [market_cap_request t number]).
Proof.
  unfold after_ticker, reaches_write.
  destruct (provider (fetched w) t) as [info | e] eqn:Hp.
  - destruct (truthy (dict_get info "marketCap")) eqn:Ht.
    + destruct (report _ _ _) as [lines [e |]] eqn:Hr.
      * left. split; [reflexivity |].
        intros number (info' & lines' & Hi & _ & Hr' & _).
        injection Hi as <-. rewrite Hr in Hr'. discriminate.
      * destruct (py_str (dict_get info "marketCap")) as [number | e] eqn:Hn.
        -- right. exists number. split; [| reflexivity].
           exists info, lines. auto.
        -- left. split; [reflexivity |].
           intros number (info' & lines' & Hi & _ & _ & Hn').
           injection Hi as <-. rewrite Hn in Hn'. discriminate.
    + left. split; [reflexivity |].
      intros number (info' & lines' & Hi & Ht' & _).
      injection Hi as <-. rewrite Ht in Ht'. discriminate.
  - left. split; [reflexivity |].
    intros number (info' & lines' & Hi & _). discriminate.
Qed.

(** A run whose market cap is falsy: the warning and nothing else. *)
Lemma after_ticker_falsy (t : string) (w : world) (info : info_dict) :
  provider (fetched w) t = Returned info ->
  truthy (dict_get info "marketCap") = false ->
  after_ticker provider store t w
  = {| stdout := stdout w ++ [fetching_line t; no_data_line t];
       fetched := fetched w ++ [t];
       update_item_calls := update_item_calls w |}.
Proof. intros Hp Ht. unfold after_ticker. rewrite Hp. cbn zeta. rewrite Ht. reflexivity. Qed.

(** A run whose report formatting raises: the lines printed so far, the
    error line, and no call to the store. *)
Lemma after_ticker_report_raises (t : string) (w : world) (info : info_dict)
  (lines : list string) (e : exn) :
  provider (fetched w) t = Returned info ->
  truthy (dict_get info "marketCap") = true ->
  report (dict_get info "marketCap") (default PyNone (selected_price info))
    (dict_get info "sharesOutstanding") = (lines, Some e) ->
  after_ticker provider store t w
  = {| stdout := stdout w ++ fetching_line t :: lines ++ [error_line t e];
       fetched := fetched w ++ [t];
       update_item_calls := update_item_calls w |}.
Proof.
  intros Hp Ht Hr. unfold after_ticker. rewrite Hp. cbn zeta. rewrite Ht, Hr.
  reflexivity.
Qed.

(** A run that reaches the write. *)
Lemma after_ticker_written (t : string) (w : world) (info : info_dict)
  (lines : list string) (number : string) :
  provider (fetched w) t = Returned info ->
  truthy (dict_get info "marketCap") = true ->
  report (dict_get info "marketCap") (default PyNone (selected_price info))
    (dict_get info "sharesOutstanding") = (lines, None) ->
  py_str (dict_get info "marketCap") = Returned number ->
  after_ticker provider store t w
  = let r := market_cap_request t number in
    {| stdout := stdout w ++ fetching_line t :: lines ++
         [match store (update_item_calls w) r with
          | None => updated_line t
          | Some e => error_line t e
          end];
       fetched := fetched w ++ [t];
       update_item_calls := update_item_calls w ++ [r] |}.
Proof.
  intros Hp Ht Hr Hn. unfold after_ticker. rewrite Hp. cbn zeta. rewrite Ht, Hr, Hn.
  reflexivity.
Qed.

(** A run whose report lines were formatted reaches the write: by then
    [str(market_cap)] cannot raise. *)
Lemma after_ticker_reported (t : string) (w : world) (info : info_dict)
  (lines : list string) :
  provider (fetched w) t = Returned info ->
  truthy (dict_get info "marketCap") = true ->
  report (dict_get info "marketCap") (default PyNone (selected_price info))
    (dict_get info "sharesOutstanding") = (lines, None) ->
  exists number : string,
    py_str (dict_get info "marketCap") = Returned number /\
    after_ticker provider store t w
    = let r := market_cap_request t number in
      {| stdout := stdout w ++ fetching_line t :: lines ++
           [match store (update_item_calls w) r with
            | None => updated_line t
            | Some e => error_line t e
            end];
         fetched := fetched w ++ [t];
         update_item_calls := update_item_calls w ++ [r] |}.
Proof.
  intros Hp Ht Hr. destruct (report_number _ _ _ _ Hr) as [number Hn].
  exists number. split; [exact Hn |]. apply after_ticker_written with info; assumption.
Qed.

(** Every request the loop adds comes from a ticker of the list whose run
    reached the write. *)
Lemma after_tickers_calls (ts : list string) (w : world) (r : update_item_request) :
  r ∈ update_item_calls (after_tickers provider store ts w) ->
  r ∈ update_item_calls w \/
  exists t w' number,
    t ∈ ts /\ reaches_write provider t w' number /\ r = market_cap_request t number.
Proof.
  revert w. induction ts as [| t ts IH]; intros w Hr; [left; exact Hr |].
  cbn [after_tickers fold_left] in Hr. apply IH in Hr as [Hr | Hr].
  - destruct (after_ticker_calls t w) as [[Heq _] | (mc & Hw & Heq)];
      rewrite Heq in Hr; [left; exact Hr |].
    apply elem_of_app in Hr as [Hr | Hr]; [left; exact Hr |].
    apply list_elem_of_singleton in Hr. right. exists t, w, mc.
    split; [apply elem_of_cons; left; reflexivity | split; assumption].
  - destruct Hr as (t' & w' & mc & Hin & Hw & Heq). right. exists t', w', mc.
    split; [apply elem_of_cons; right; exact Hin | split; assumption].
Qed.

Lemma after_tickers_fetched (ts : list string) (w : world) :
  fetched (after_tickers provider store ts w) = fetched w ++ ts.
Proof.
  revert w. induction ts as [| t ts IH]; intros w; cbn [after_tickers fold_left].
  - symmetry. apply app_nil_r.
  - unfold after_tickers in IH. rewrite IH, after_ticker_fetched, <- app_assoc.
    reflexivity.
Qed.

End Runs.

(** Shape of the request built at lines 45-55. *)
Lemma market_cap_request_PK (t : string) (number : string) :
  Key (market_cap_request t number) !! "PK" = Some (AttrS ("COMPANY#" +:+ t)).
Proof. reflexivity. Qed.

Lemma market_cap_request_SK (t : string) (number : string) :
  Key (market_cap_request t number) !! "SK" = Some (AttrS "METADATA").
Proof. reflexivity. Qed.

Lemma company_key_inj (t t' : string) :
  "COMPANY#" +:+ t = "COMPANY#" +:+ t' -> t = t'.
Proof. cbn [String.append]. intros H. injection H as H. exact H. Qed.

(** ** The claims *)

(** C1. update-all-market-caps.py, [update_market_cap]: when the fetched
    quote has no marketCap (the key is missing or holds None), the call
    prints the line "No market cap data available for <ticker>", makes no
    [update_item] call and returns normally; and over any list of tickers,
    a ticker whose quotes never carry a marketCap has no request keyed
    COMPANY#<ticker> added to the store's log. *)
Theorem C1_absent_market_cap_never_written
  (provider : list string -> string -> outcome info_dict)
  (store : list update_item_request -> update_item_request -> option exn)
  (ticker : string) :
  (forall (info : info_dict) (w : world),
     provider (fetched w) ticker = Returned info ->
     dict_get info "marketCap" = PyNone ->
     update_market_cap provider store ticker w
     = (Returned tt,
        {| stdout := stdout w ++ [fetching_line ticker; no_data_line ticker];
           fetched := fetched w ++ [ticker];
           update_item_calls := update_item_calls w |})) /\
  ((forall (h : list string) (info : info_dict),
      provider h ticker = Returned info -> dict_get info "marketCap" = PyNone) ->
   forall (ts : list string) (w : world) (r : update_item_request),
     r ∈ update_item_calls (snd (for_each ts (update_market_cap provider store) w)) ->
     r ∈ update_item_calls w \/
     Key r !! "PK" <> Some (AttrS ("COMPANY#" +:+ ticker))).
Proof.
  split.
  - intros info w Hp Hmc. rewrite update_market_cap_run. f_equal.
    apply after_ticker_falsy with (info := info); [exact Hp |].
    rewrite Hmc. reflexivity.
  - intros Habs ts w r. rewrite for_each_run. cbn [snd]. intros Hr.
    apply after_tickers_calls in Hr as [Hr | (t & w' & number & _ & Hw & ->)];
      [left; exact Hr | right].
    rewrite market_cap_request_PK. intros Heq.
    assert (t = ticker) as -> by (apply company_key_inj; congruence).
    destruct Hw as (info & lines & Hp & Ht & _).
    rewrite (Habs _ _ Hp) in Ht. discriminate.
Qed.

Lemma C1_witness :
  update_market_cap (always ∅) store_ok "XYZ" initial
  = (Returned tt,
     {| stdout := [fetching_line "XYZ"; no_data_line "XYZ"];
        fetched := ["XYZ"];
        update_item_calls := [] |}).
Proof.
  apply (proj1 (C1_absent_market_cap_never_written (always ∅) store_ok "XYZ")
           ∅ initial); reflexivity.
Defined.

(** C2, as stated, fails on check-pltr-marketcap.py: on a quote without
    fields the script reads the default 0 for marketCap, evaluates
    [0 / 1e9] and prints "Market Cap: $0.00B" and "Market Cap (raw): 0". *)
Lemma C2_counterexample :
  (∅ : info_dict) !! "marketCap" = None /\
  dict_get_default (∅ : info_dict) "marketCap" (PyInt 0) = PyInt 0 /\
  py_truediv (dict_get_default (∅ : info_dict) "marketCap" (PyInt 0)) f1e9
  = Returned (PyFloat (S754_zero false)) /\
  check_pltr_marketcap (always ∅) initial
  = (Returned tt,
     {| stdout := [check_header; "   Stock Price: $N/A"; "   Market Cap: $0.00B";
                   "   Market Cap (raw): 0"; "   Shares Outstanding: 0"];
        fetched := ["PLTR"];
        update_item_calls := [] |}).
Proof. repeat split; vm_compute; reflexivity. Qed.

(** C2, amended. For a quote without the key marketCap:
    update-all-market-caps.py reads None for it (no default of zero),
    prints the fetching line and the line "No market cap data available"
    and nothing else, sends nothing and returns, so that [market_cap / 1e9]
    is not evaluated; check-pltr-marketcap.py reads the default 0 for it,
    evaluates [0 / 1e9] and, after the price line, prints
    "Market Cap: $0.00B" and "Market Cap (raw): 0", then the shares line,
    and returns. There a price missing under both keys is printed as
    "N/A", and a missing sharesOutstanding as "0". *)
Theorem C2_absent_market_cap_rendering
  (provider : list string -> string -> outcome info_dict)
  (store : list update_item_request -> update_item_request -> option exn)
  (info : info_dict) :
  info !! "marketCap" = None ->
  let check_price :=
    dict_get_default info "currentPrice"
      (dict_get_default info "regularMarketPrice" (PyStr "N/A")) in
  let check_shares := dict_get_default info "sharesOutstanding" (PyInt 0) in
  (dict_get info "marketCap" = PyNone /\
   forall (ticker : string) (w : world),
     provider (fetched w) ticker = Returned info ->
     update_market_cap provider store ticker w
     = (Returned tt,
        {| stdout := stdout w ++ [fetching_line ticker; no_data_line ticker];
           fetched := fetched w ++ [ticker];
           update_item_calls := update_item_calls w |})) /\
  (dict_get_default info "marketCap" (PyInt 0) = PyInt 0 /\
   py_truediv (dict_get_default info "marketCap" (PyInt 0)) f1e9
   = Returned (PyFloat (S754_zero false)) /\
   forall (w : world) (p : string),
     provider (fetched w) "PLTR" = Returned info ->
     py_str check_price = Returned p ->
     (exists rest : list string,
        stdout (snd (check_pltr_marketcap provider w))
        = stdout w ++ [check_header; "   Stock Price: $" +:+ p; "   Market Cap: $0.00B";
                       "   Market Cap (raw): 0"] ++ rest) /\
     (forall s : string,
        py_format_comma check_shares = Returned s ->
        check_pltr_marketcap provider w
        = (Returned tt,
           {| stdout := stdout w ++ [check_header; "   Stock Price: $" +:+ p;
                                     "   Market Cap: $0.00B"; "   Market Cap (raw): 0";
                                     "   Shares Outstanding: " +:+ s];
              fetched := fetched w ++ ["PLTR"];
              update_item_calls := update_item_calls w |}))) /\
  (info !! "currentPrice" = None -> info !! "regularMarketPrice" = None ->
   py_str check_price = Returned "N/A"%string) /\
  (info !! "sharesOutstanding" = None ->
   py_format_comma check_shares = Returned "0"%string).
Proof.
  intros Habs. cbv zeta.
  assert (Hnone : dict_get info "marketCap" = PyNone)
    by (unfold dict_get; rewrite Habs; reflexivity).
  assert (Hzero : dict_get_default info "marketCap" (PyInt 0) = PyInt 0)
    by (unfold dict_get_default; rewrite Habs; reflexivity).
  split; [| split; [| split]].
  - split; [exact Hnone |].
    intros ticker w Hp. rewrite update_market_cap_run. f_equal.
    apply after_ticker_falsy with (info := info); [exact Hp |].
    rewrite Hnone. reflexivity.
  - split; [exact Hzero |]. rewrite Hzero. split; [reflexivity |].
    intros w p Hp Hprice. rewrite selected_price_get_default in Hprice.
    rewrite check_pltr_marketcap_run. unfold after_check. rewrite Hp.
    unfold check_report. rewrite Hprice, Hzero.
    change (py_truediv (PyInt 0) f1e9) with (Returned (PyFloat (S754_zero false))).
    cbv iota beta.
    change (py_format_2f (PyFloat (S754_zero false))) with (Returned "0.00"%string).
    cbv iota beta.
    change (py_str (PyInt 0)) with (Returned "0"%string).
    cbv iota beta. split.
    + destruct (py_format_comma (dict_get_default info "sharesOutstanding" (PyInt 0)))
        as [s | e]; eexists; reflexivity.
    + intros s ->. reflexivity.
  - intros H1 H2. unfold dict_get_default. rewrite H1, H2. reflexivity.
  - intros H. unfold dict_get_default. rewrite H. reflexivity.
Qed.

Lemma C2_witness :
  check_pltr_marketcap (always ∅) initial
  = (Returned tt,
     {| stdout := stdout initial ++ [check_header; "   Stock Price: $N/A";
                                     "   Market Cap: $0.00B"; "   Market Cap (raw): 0";
                                     "   Shares Outstanding: 0"];
        fetched := fetched initial ++ ["PLTR"];
        update_item_calls := update_item_calls initial |}).
Proof.
  refine (proj2 (proj2 (proj2 (proj1 (proj2
            (C2_absent_market_cap_rendering (always ∅) store_ok ∅ _))))
            initial "N/A" _ _) "0" _);
    reflexivity.
Defined.

(** C3. update-all-market-caps.py: no failure leaves [update_market_cap];
    a retrieval failure and a persistence failure are each printed as the
    ticker's own error line; [main] always returns normally after
    requesting all three tickers. With a provider that fails for "META"
    only, the run prints the three report lines for "PLTR" and for "AMZN",
    the error line for "META" and the completion line. *)
Theorem C3_failures_do_not_stop_the_batch
  (provider : list string -> string -> outcome info_dict)
  (store : list update_item_request -> update_item_request -> option exn) :
  (forall (t : string) (w : world),
     fst (update_market_cap provider store t w) = Returned tt) /\
  (forall w : world,
     fst (main provider store w) = Returned tt /\
     fetched (snd (main provider store w)) = fetched w ++ ["PLTR"; "AMZN"; "META"]) /\
  (forall (t : string) (w : world) (e : exn),
     provider (fetched w) t = Raised e ->
     snd (update_market_cap provider store t w)
     = {| stdout := stdout w ++ [fetching_line t; error_line t e];
          fetched := fetched w ++ [t];
          update_item_calls := update_item_calls w |}) /\
  (forall (t : string) (w : world) (info : info_dict) (lines : list string) (e : exn),
     provider (fetched w) t = Returned info ->
     truthy (dict_get info "marketCap") = true ->
     report (dict_get info "marketCap")
       (dict_get_default info "currentPrice" (dict_get info "regularMarketPrice"))
       (dict_get info "sharesOutstanding") = (lines, None) ->
     exists number : string,
       py_str (dict_get info "marketCap") = Returned number /\
       (store (update_item_calls w) (market_cap_request t number) = Some e ->
        snd (update_market_cap provider store t w)
        = {| stdout := stdout w ++ fetching_line t :: lines ++ [error_line t e];
             fetched := fetched w ++ [t];
             update_item_calls :=
               update_item_calls w ++ [market_cap_request t number] |})) /\
  (forall (w : world) (i1 i2 : info_dict) (l1 l2 : list string) (e : exn),
     provider (fetched w) "PLTR" = Returned i1 ->
     provider (fetched w ++ ["PLTR"]) "AMZN" = Returned i2 ->
     provider (fetched w ++ ["PLTR"; "AMZN"]) "META" = Raised e ->
     truthy (dict_get i1 "marketCap") = true ->
     report (dict_get i1 "marketCap")
       (dict_get_default i1 "currentPrice" (dict_get i1 "regularMarketPrice"))
       (dict_get i1 "sharesOutstanding") = (l1, None) ->
     truthy (dict_get i2 "marketCap") = true ->
     report (dict_get i2 "marketCap")
       (dict_get_default i2 "currentPrice" (dict_get i2 "regularMarketPrice"))
       (dict_get i2 "sharesOutstanding") = (l2, None) ->
     (exists p c s, l1 = [price_line p; cap_line c; shares_line s]) /\
     (exists p c s, l2 = [price_line p; cap_line c; shares_line s]) /\
     exists status1 status2 : string,
       stdout (snd (main provider store w))
       = stdout w ++ [banner_line; fetching_line "PLTR"] ++ l1
           ++ [status1; fetching_line "AMZN"] ++ l2
           ++ [status2; fetching_line "META"; error_line "META" e; completed_line]).
Proof.
  split; [| split; [| split; [| split]]].
  - intros t w. rewrite update_market_cap_run. reflexivity.
  - intros w. rewrite main_run. cbn [fst snd after_print fetched].
    rewrite after_tickers_fetched. split; reflexivity.
  - intros t w e Hp. rewrite update_market_cap_run. cbn [snd].
    unfold after_ticker. rewrite Hp. reflexivity.
  - intros t w info lines e Hp Ht Hr. rewrite selected_price_get in Hr.
    destruct (after_ticker_reported provider store t w info lines Hp Ht Hr)
      as (number & Hn & Hrun).
    exists number. split; [exact Hn |]. intros Hs.
    rewrite update_market_cap_run. cbn [snd]. rewrite Hrun.
    cbv zeta. rewrite Hs. reflexivity.
  - intros w i1 i2 l1 l2 e H1 H2 H3 Ht1 Hr1 Ht2 Hr2.
    rewrite selected_price_get in Hr1, Hr2.
    split; [exact (report_complete _ _ _ _ Hr1) |].
    split; [exact (report_complete _ _ _ _ Hr2) |].
    rewrite main_run. cbn [snd after_print stdout].
    unfold after_tickers, tickers. cbn [fold_left].
    set (w0 := after_print banner_line w).
    destruct (after_ticker_reported provider store "PLTR" w0 i1 l1 H1 Ht1 Hr1)
      as (n1 & _ & ->).
    cbv zeta.
    match goal with
    | |- context [after_ticker provider store "AMZN" ?x] => set (w1 := x)
    end.
    destruct (after_ticker_reported provider store "AMZN" w1 i2 l2 H2 Ht2 Hr2)
      as (n2 & _ & ->).
    cbv zeta.
    match goal with
    | |- context [after_ticker provider store "META" ?x] => set (w2 := x)
    end.
    assert (Hf : fetched w2 = fetched w ++ ["PLTR"; "AMZN"]).
    { subst w2 w1 w0. cbn [fetched after_print]. rewrite <- app_assoc. reflexivity. }
    unfold after_ticker. rewrite Hf, H3.
    subst w2 w1 w0. cbn [stdout after_print].
    eexists _, _.
    repeat (rewrite <- app_assoc; cbn [app]). reflexivity.
Qed.

Lemma C3_witness :
  (exists p c s, [price_line "25.50"; cap_line "54.00"; shares_line "2,116,000,000"]
                 = [price_line p; cap_line c; shares_line s]) /\
  (exists p c s, [price_line "180.00"; cap_line "1900.00"; shares_line "10,500,000,000"]
                 = [price_line p; cap_line c; shares_line s]) /\
  exists status1 status2 : string,
    stdout (snd (main meta_down store_ok initial))
    = [] ++ [banner_line; fetching_line "PLTR"]
        ++ [price_line "25.50"; cap_line "54.00"; shares_line "2,116,000,000"]
        ++ [status1; fetching_line "AMZN"]
        ++ [price_line "180.00"; cap_line "1900.00"; shares_line "10,500,000,000"]
        ++ [status2; fetching_line "META"; error_line "META" connection_error;
            completed_line].
Proof.
  apply (proj2 (proj2 (proj2 (proj2
           (C3_failures_do_not_stop_the_batch meta_down store_ok))))
           initial pltr_quote amzn_quote);
    reflexivity.
Defined.

(** A store that rejects every call: each ticker gets its report and its
    error line, one request each, and the batch completes. *)
Example persistence_failure_run :
  main (always pltr_quote) store_down initial
  = (Returned tt,
     {| stdout :=
          [banner_line;
           fetching_line "PLTR"; "   Stock Price: $25.50"; "   Market Cap: $54.00B";
           "   Shares Outstanding: 2,116,000,000";
           "❌ Error updating PLTR: AccessDeniedException";
           fetching_line "AMZN"; "   Stock Price: $25.50"; "   Market Cap: $54.00B";
           "   Shares Outstanding: 2,116,000,000";
           "❌ Error updating AMZN: AccessDeniedException";
           fetching_line "META"; "   Stock Price: $25.50"; "   Market Cap: $54.00B";
           "   Shares Outstanding: 2,116,000,000";
           "❌ Error updating META: AccessDeniedException";
           completed_line];
        fetched := ["PLTR"; "AMZN"; "META"];
        update_item_calls :=
          [market_cap_request "PLTR" "54000000000";
           market_cap_request "AMZN" "54000000000";
           market_cap_request "META" "54000000000"] |}).
Proof. reflexivity. Qed.

(** C4, as stated, fails: a present marketCap is not enough for the
    persistence step to be reached. For a quote with marketCap 54000000000
    and no price the report formatting raises, the error line is printed
    and no request is issued. *)
Lemma C4_counterexample :
  priceless_quote !! "marketCap" = Some (PyInt 54000000000) /\
  update_market_cap (always priceless_quote) store_ok "PLTR" initial
  = (Returned tt,
     {| stdout := [fetching_line "PLTR";
                   "❌ Error updating PLTR: unsupported format string passed to NoneType.__format__"];
        fetched := ["PLTR"];
        update_item_calls := [] |}).
Proof. split; vm_compute; reflexivity. Qed.

(** C4, amended. update-all-market-caps.py, [update_market_cap]: when the
    quote arrives with a truthy marketCap and the three report lines are
    formatted, the call hands exactly one request to [update_item],
    whatever the store answers: table fintail-companies-development, key
    PK = COMPANY#<ticker>, SK = METADATA, expression [SET marketCap = :mc]
    with [:mc] bound to the number [str(market_cap)], which for an integer
    market cap is its decimal text. Applied to a table the request binds
    the attribute marketCap of that record and changes no other record and
    no other attribute. In every other case (no quote, a falsy marketCap, a
    report line that fails to format) the call hands no request. *)
Theorem C4_one_keyed_set_only_update
  (provider : list string -> string -> outcome info_dict)
  (store : list update_item_request -> update_item_request -> option exn)
  (ticker : string) (w : world) :
  let sent := update_item_calls (snd (update_market_cap provider store ticker w)) in
  let k := ("COMPANY#" +:+ ticker, "METADATA"%string) in
  (forall (info : info_dict) (lines : list string),
     provider (fetched w) ticker = Returned info ->
     truthy (dict_get info "marketCap") = true ->
     report (dict_get info "marketCap")
       (dict_get_default info "currentPrice" (dict_get info "regularMarketPrice"))
       (dict_get info "sharesOutstanding") = (lines, None) ->
     exists (number : string) (r : update_item_request),
       py_str (dict_get info "marketCap") = Returned number /\
       (forall z : Z,
          dict_get info "marketCap" = PyInt z ->
          Z_of_str number = Some z /\ (0 <= z -> all_digits number = true)) /\
       sent = update_item_calls w ++ [r] /\
       TableName r = "fintail-companies-development" /\
       Key r = {[ "PK" := AttrS ("COMPANY#" +:+ ticker); "SK" := AttrS "METADATA" ]} /\
       request_key r = Some k /\
       UpdateExpression r = "SET marketCap = :mc" /\
       ExpressionAttributeValues r = {[ ":mc" := AttrN number ]} /\
       forall t : table,
         apply_update t r !! k
         = Some (<["marketCap" := AttrN number]> (default ∅ (t !! k))) /\
         (forall k' : string * string, k' <> k -> apply_update t r !! k' = t !! k') /\
         (forall a : string, a <> "marketCap" ->
            default ∅ (apply_update t r !! k) !! a = default ∅ (t !! k) !! a)) /\
  (forall e : exn, provider (fetched w) ticker = Raised e -> sent = update_item_calls w) /\
  (forall info : info_dict,
     provider (fetched w) ticker = Returned info ->
     truthy (dict_get info "marketCap") = false ->
     sent = update_item_calls w) /\
  (forall (info : info_dict) (lines : list string) (e : exn),
     provider (fetched w) ticker = Returned info ->
     report (dict_get info "marketCap")
       (dict_get_default info "currentPrice" (dict_get info "regularMarketPrice"))
       (dict_get info "sharesOutstanding") = (lines, Some e) ->
     sent = update_item_calls w).
Proof.
  cbv zeta. rewrite update_market_cap_run. cbn [snd].
  split; [| split; [| split]].
  - intros info lines Hp Ht Hr. rewrite selected_price_get in Hr.
    destruct (after_ticker_reported provider store ticker w info lines Hp Ht Hr)
      as (number & Hn & ->).
    exists number, (market_cap_request ticker number). cbv zeta. cbn [update_item_calls].
    split; [exact Hn |]. split.
    { intros z Hz. rewrite Hz in Hn. cbn [py_str] in Hn.
      unfold int_str in Hn. destruct (_ <? _)%nat; [discriminate |].
      injection Hn as <-. split; [apply Z_of_str_of_Z | apply all_digits_str_of_Z]. }
    do 6 (split; [reflexivity |]).
    intros t.
    change (apply_update t (market_cap_request ticker number))
      with (<[("COMPANY#" +:+ ticker, "METADATA"%string) :=
               <["marketCap" := AttrN number]>
                 (default ∅ (t !! ("COMPANY#" +:+ ticker, "METADATA"%string)))]> t).
    split; [apply lookup_insert_eq | split].
    + intros k' Hk. apply lookup_insert_ne. congruence.
    + intros a Ha. rewrite lookup_insert_eq. cbn [default].
      apply lookup_insert_ne. congruence.
  - intros e Hp. unfold after_ticker. rewrite Hp. reflexivity.
  - intros info Hp Ht.
    rewrite (after_ticker_falsy provider store ticker w info Hp Ht). reflexivity.
  - intros info lines e Hp Hr. rewrite selected_price_get in Hr.
    unfold after_ticker. rewrite Hp. cbv zeta.
    destruct (truthy (dict_get info "marketCap")); [| reflexivity].
    rewrite Hr. reflexivity.
Qed.

(** The request of the AMZN scenario: the value sent is 1900000000000. *)
Lemma C4_witness :
  update_item_calls (snd (update_market_cap (always amzn_quote) store_ok "AMZN" initial))
  = [{| TableName := "fintail-companies-development";
        Key := {[ "PK" := AttrS "COMPANY#AMZN"; "SK" := AttrS "METADATA" ]};
        UpdateExpression := "SET marketCap = :mc";
        ExpressionAttributeValues := {[ ":mc" := AttrN "1900000000000" ]} |}].
Proof.
  destruct (proj1 (C4_one_keyed_set_only_update (always amzn_quote) store_ok "AMZN" initial)
              amzn_quote
              [price_line "180.00"; cap_line "1900.00"; shares_line "10,500,000,000"]
              eq_refl eq_refl eq_refl)
    as (number & r & Hnumber & _ & Hsent & Htable & Hkey & _ & Hexpr & Hvalue & _).
  assert (number = "1900000000000"%string) as ->
    by (change (Returned "1900000000000"%string = Returned number) in Hnumber;
        congruence).
  rewrite Hsent. destruct r as [tn key expr vals]. cbn in Htable, Hkey, Hexpr, Hvalue.
  subst tn key expr vals. reflexivity.
Defined.

(** The float [25.50] is [51 / 2], and [2550 / 100] computed in binary64. *)
Example f25_50_value :
  f25_50 = b64_canon false 51 (-1) /\
  f25_50 = b64_div (b64_of_Z 2550) (b64_of_Z 100).
Proof. split; reflexivity. Qed.

(** C5, as stated, fails on both scripts: on the PLTR scenario the
    persistence variant prints no raw line, and the check script prints the
    price as [str] gives it, "25.5". *)
Lemma C5_counterexample :
  shows (stdout (snd (update_market_cap (always pltr_quote) store_ok "PLTR" initial)))
    "Market Cap (raw): 54000000000" = false /\
  shows (stdout (snd (check_pltr_marketcap (always pltr_quote) initial)))
    "Stock Price: $25.50" = false /\
  stdout (snd (update_market_cap (always pltr_quote) store_ok "PLTR" initial))
  = [fetching_line "PLTR"; "   Stock Price: $25.50"; "   Market Cap: $54.00B";
     "   Shares Outstanding: 2,116,000,000"; updated_line "PLTR"] /\
  stdout (snd (check_pltr_marketcap (always pltr_quote) initial))
  = [check_header; "   Stock Price: $25.5"; "   Market Cap: $54.00B";
     "   Market Cap (raw): 54000000000"; "   Shares Outstanding: 2,116,000,000"].
Proof. repeat split; vm_compute; reflexivity. Qed.

(** C5, amended. For a quote with currentPrice 25.50, marketCap 54000000000
    and sharesOutstanding 2116000000, update-all-market-caps.py prints
    "Stock Price: $25.50", "Market Cap: $54.00B" and
    "Shares Outstanding: 2,116,000,000" (and no raw line), and
    check-pltr-marketcap.py prints "Stock Price: $25.5" (the price is not
    formatted there), "Market Cap: $54.00B", "Market Cap (raw): 54000000000"
    and "Shares Outstanding: 2,116,000,000". *)
Theorem C5_scenario_reports
  (provider : list string -> string -> outcome info_dict)
  (store : list update_item_request -> update_item_request -> option exn)
  (info : info_dict) :
  info !! "currentPrice" = Some (PyFloat f25_50) ->
  info !! "marketCap" = Some (PyInt 54000000000) ->
  info !! "sharesOutstanding" = Some (PyInt 2116000000) ->
  (forall (ticker : string) (w : world),
     provider (fetched w) ticker = Returned info ->
     exists status : string,
       stdout (snd (update_market_cap provider store ticker w))
       = stdout w ++ [fetching_line ticker; "   Stock Price: $25.50";
                      "   Market Cap: $54.00B";
                      "   Shares Outstanding: 2,116,000,000"; status]) /\
  (forall w : world,
     provider (fetched w) "PLTR" = Returned info ->
     check_pltr_marketcap provider w
     = (Returned tt,
        {| stdout := stdout w ++ [check_header; "   Stock Price: $25.5";
                                  "   Market Cap: $54.00B";
                                  "   Market Cap (raw): 54000000000";
                                  "   Shares Outstanding: 2,116,000,000"];
           fetched := fetched w ++ ["PLTR"];
           update_item_calls := update_item_calls w |})).
Proof.
  intros Hprice Hcap Hshares.
  assert (Hsel : selected_price info = Some (PyFloat f25_50))
    by (unfold selected_price; rewrite Hprice; reflexivity).
  split.
  - intros ticker w Hp. rewrite update_market_cap_run. cbn [snd].
    assert (Hmc : dict_get info "marketCap" = PyInt 54000000000)
      by (unfold dict_get; rewrite Hcap; reflexivity).
    assert (Hsh : dict_get info "sharesOutstanding" = PyInt 2116000000)
      by (unfold dict_get; rewrite Hshares; reflexivity).
    rewrite (after_ticker_written provider store ticker w info
               ["   Stock Price: $25.50"; "   Market Cap: $54.00B";
                "   Shares Outstanding: 2,116,000,000"]%string "54000000000" Hp).
    + cbv zeta. cbn [stdout app]. eexists. reflexivity.
    + rewrite Hmc. reflexivity.
    + rewrite Hmc, Hsel, Hsh. vm_compute. reflexivity.
    + rewrite Hmc. reflexivity.
  - intros w Hp. rewrite check_pltr_marketcap_run. unfold after_check.
    rewrite Hp.
    assert (Hrep : check_report info
                   = ([check_header; "   Stock Price: $25.5"; "   Market Cap: $54.00B";
                       "   Market Cap (raw): 54000000000";
                       "   Shares Outstanding: 2,116,000,000"]%string, None)).
    { unfold check_report, dict_get_default.
      rewrite Hsel, Hcap, Hshares. vm_compute. reflexivity. }
    rewrite Hrep. reflexivity.
Qed.

Lemma C5_witness :
  (forall (ticker : string) (w : world),
     always pltr_quote (fetched w) ticker = Returned pltr_quote ->
     exists status : string,
       stdout (snd (update_market_cap (always pltr_quote) store_ok ticker w))
       = stdout w ++ [fetching_line ticker; "   Stock Price: $25.50";
                      "   Market Cap: $54.00B";
                      "   Shares Outstanding: 2,116,000,000"; status]) /\
  (forall w : world,
     always pltr_quote (fetched w) "PLTR" = Returned pltr_quote ->
     check_pltr_marketcap (always pltr_quote) w
     = (Returned tt,
        {| stdout := stdout w ++ [check_header; "   Stock Price: $25.5";
                                  "   Market Cap: $54.00B";
                                  "   Market Cap (raw): 54000000000";
                                  "   Shares Outstanding: 2,116,000,000"];
           fetched := fetched w ++ ["PLTR"];
           update_item_calls := update_item_calls w |})).
Proof.
  apply (C5_scenario_reports (always pltr_quote) store_ok pltr_quote); reflexivity.
Defined.

(** C6, as stated, fails when [marketCap / 1e9] is read as the exact
    quotient: the scripts divide in binary64. For marketCap
    9007199264999999 the quotient 9007199.264999999 is nearer to 9007199.26,
    and both scripts print 9007199.27; for marketCap 15000000 the quotient
    0.015 lies halfway between 0.01 and 0.02, which rounding half up and
    rounding half to even both take to 0.02, and both scripts print 0.01. *)
Lemma C6_counterexample :
  2 * Z.abs (100 * 9007199264999999 - 900719926 * 10 ^ 9) < 10 ^ 9 /\
  stdout (snd (update_market_cap (always wide_cap_quote) store_ok "PLTR" initial))
  = [fetching_line "PLTR"; "   Stock Price: $25.50"; "   Market Cap: $9007199.27B";
     "   Shares Outstanding: 2,116,000,000"; updated_line "PLTR"] /\
  stdout (snd (check_pltr_marketcap (always wide_cap_quote) initial))
  = [check_header; "   Stock Price: $25.5"; "   Market Cap: $9007199.27B";
     "   Market Cap (raw): 9007199264999999"; "   Shares Outstanding: 2,116,000,000"] /\
  2 * (100 * 15000000) = (1 + 2) * 10 ^ 9 /\
  stdout (snd (update_market_cap (always tie_cap_quote) store_ok "PLTR" initial))
  = [fetching_line "PLTR"; "   Stock Price: $25.50"; "   Market Cap: $0.01B";
     "   Shares Outstanding: 2,116,000,000"; updated_line "PLTR"] /\
  stdout (snd (check_pltr_marketcap (always tie_cap_quote) initial))
  = [check_header; "   Stock Price: $25.5"; "   Market Cap: $0.01B";
     "   Market Cap (raw): 15000000"; "   Shares Outstanding: 2,116,000,000"].
Proof. repeat split; vm_compute; reflexivity. Qed.

(** C6, amended. In both scripts the billions line is "Market Cap: $",
    then the binary64 quotient [market_cap / 1e9] in the format [.2f], then
    "B". For a finite quotient that text is an optional minus sign, the
    digits of [h / 100], a point and the two digits of [h mod 100], where
    [h] is the integer nearest to a hundred times the magnitude of the
    quotient, the even one on a tie. For an integer market cap [z] with
    [0 < z < 2^53], [h] is within half a hundredth of the exact quotient
    [z / 10^9], and is that quotient rounded to the nearest hundredth
    whenever it is not halfway between two hundredths. *)
Theorem C6_billions_line_is_quotient_rounded
  (provider : list string -> string -> outcome info_dict)
  (store : list update_item_request -> update_item_request -> option exn)
  (info : info_dict) (q : spec_float) :
  (forall (ticker : string) (w : world) (p : string),
     provider (fetched w) ticker = Returned info ->
     truthy (dict_get info "marketCap") = true ->
     py_format_2f
       (dict_get_default info "currentPrice" (dict_get info "regularMarketPrice"))
     = Returned p ->
     py_truediv (dict_get info "marketCap") f1e9 = Returned (PyFloat q) ->
     exists rest : list string,
       stdout (snd (update_market_cap provider store ticker w))
       = stdout w ++ [fetching_line ticker; price_line p;
                      "   Market Cap: $" +:+ format_2f q +:+ "B"] ++ rest) /\
  (forall (w : world) (p : string),
     provider (fetched w) "PLTR" = Returned info ->
     py_str (dict_get_default info "currentPrice"
               (dict_get_default info "regularMarketPrice" (PyStr "N/A")))
     = Returned p ->
     py_truediv (dict_get_default info "marketCap" (PyInt 0)) f1e9
     = Returned (PyFloat q) ->
     exists rest : list string,
       stdout (snd (check_pltr_marketcap provider w))
       = stdout w ++ [check_header; price_line p;
                      "   Market Cap: $" +:+ format_2f q +:+ "B"] ++ rest) /\
  (forall (s : bool) (m : positive) (e : Z),
     q = S754_finite s m e ->
     exists h : Z,
       0 <= h /\ shows_hundredths (format_2f q) s h /\
       let num := 100 * Zpos m * 2 ^ Z.max e 0 in
       let den := 2 ^ Z.max (- e) 0 in
       2 * Z.abs (num - h * den) <= den /\
       (2 * Z.abs (num - h * den) = den -> Z.even h = true)) /\
  (forall z : Z,
     0 < z < 2 ^ 53 ->
     py_truediv (PyInt z) f1e9 = Returned (PyFloat q) ->
     exists h : Z,
       0 <= h /\ shows_hundredths (format_2f q) false h /\
       2 * Z.abs (10 ^ 7 * h - z) <= 10 ^ 7 /\
       (z mod 10 ^ 7 <> 5 * 10 ^ 6 -> h = (z + 5 * 10 ^ 6) / 10 ^ 7)).
Proof.
  split; [| split; [| split]].
  - intros ticker w p Hp Ht Hfmt Hdiv. rewrite selected_price_get in Hfmt.
    rewrite update_market_cap_run. cbn [snd].
    unfold after_ticker. rewrite Hp. cbv zeta. rewrite Ht.
    unfold report. rewrite Hfmt, Hdiv. cbn [py_format_2f].
    destruct (py_format_comma (dict_get info "sharesOutstanding")) as [s | e];
      [| eexists; reflexivity].
    destruct (py_str (dict_get info "marketCap")); eexists; reflexivity.
  - intros w p Hp Hprice Hdiv. rewrite selected_price_get_default in Hprice.
    rewrite check_pltr_marketcap_run. unfold after_check.
    rewrite Hp. cbn [snd stdout]. unfold check_report. rewrite Hprice, Hdiv.
    cbn [py_format_2f].
    destruct (py_str (dict_get_default info "marketCap" (PyInt 0))) as [raw | e];
      [| exists []; reflexivity].
    destruct (py_format_comma (dict_get_default info "sharesOutstanding" (PyInt 0)))
      as [s | e]; eexists; reflexivity.
  - intros s m e ->. exists (hundredths m e).
    destruct (hundredths_nearest m e) as (Hpos & Hnear & Htie).
    split; [exact Hpos |]. split; [apply format_2f_shows |].
    cbv zeta. split; assumption.
  - intros z Hz Hdiv.
    destruct (billions_nearest_cent z Hz) as (m & e & Hq & Hacc).
    rewrite Hq in Hdiv. injection Hdiv as <-. exists (hundredths m e).
    split; [apply hundredths_nonneg |]. split; [apply format_2f_shows |].
    split; [exact Hacc |].
    intros Hnt. set (h := hundredths m e) in *. clearbody h.
    apply Z.div_unique with (r := z + 5 * 10 ^ 6 - 10 ^ 7 * h); [| lia].
    left. split; [lia |].
    destruct (Z.eq_dec (z - 10 ^ 7 * h) (5 * 10 ^ 6)) as [Heq | Hne]; [| lia].
    exfalso. apply Hnt.
    replace z with (5 * 10 ^ 6 + h * 10 ^ 7) by lia.
    rewrite Z.mod_add by lia. reflexivity.
Qed.

Lemma C6_witness :
  (exists rest : list string,
     stdout (snd (update_market_cap (always pltr_quote) store_ok "PLTR" initial))
     = stdout initial
         ++ [fetching_line "PLTR"; "   Stock Price: $25.50"; "   Market Cap: $54.00B"]
         ++ rest) /\
  (exists h : Z,
     0 <= h /\ shows_hundredths "54.00" false h /\
     2 * Z.abs (10 ^ 7 * h - 54000000000) <= 10 ^ 7 /\
     (54000000000 mod 10 ^ 7 <> 5 * 10 ^ 6 -> h = (54000000000 + 5 * 10 ^ 6) / 10 ^ 7)).
Proof.
  split.
  - apply (proj1 (C6_billions_line_is_quotient_rounded (always pltr_quote) store_ok
                    pltr_quote (S754_finite false 7599824371187712 (-47)))
             "PLTR" initial "25.50");
      reflexivity.
  - apply (proj2 (proj2 (proj2 (C6_billions_line_is_quotient_rounded
                                  (always pltr_quote) store_ok pltr_quote
                                  (S754_finite false 7599824371187712 (-47)))))
             54000000000); [lia | reflexivity].
Defined.

(** The PLTR quotient [54000000000 / 1e9] is the float 54.0, printed 54.00. *)
Example pltr_billions :
  py_truediv (PyInt 54000000000) f1e9
  = Returned (PyFloat (S754_finite false 7599824371187712 (-47))) /\
  format_2f (S754_finite false 7599824371187712 (-47)) = "54.00"%string /\
  hundredths 7599824371187712 (-47) = 5400.
Proof. repeat split; vm_compute; reflexivity. Qed.

(** A quotient on a tie: [15000000 / 1e9] is the float just below 0.015 and
    prints as 0.01, one of the two hundredths nearest to 0.015. *)
Example half_cent_tie :
  exists (m : positive) (e : Z),
    py_truediv (PyInt 15000000) f1e9 = Returned (PyFloat (S754_finite false m e)) /\
    format_2f (S754_finite false m e) = "0.01"%string /\
    hundredths m e = 1.
Proof. eexists _, _. repeat split; vm_compute; reflexivity. Qed.

(** Beyond [2^53] the integer is rounded when it is converted to a float:
    [9007199264999999 / 1e9] prints as 9007199.27. *)
Example beyond_2_53 :
  exists (m : positive) (e : Z),
    py_truediv (PyInt 9007199264999999) f1e9
    = Returned (PyFloat (S754_finite false m e)) /\
    format_2f (S754_finite false m e) = "9007199.27"%string.
Proof. eexists _, _. split; vm_compute; reflexivity. Qed.

(** C7. Both scripts take the reported price from the key currentPrice
    when the dict has that key, and from regularMarketPrice otherwise (with
    None, respectively the text N/A, when that key is missing too); the
    "Stock Price" line they print is built from that value: from its
    format [.2f] in update-all-market-caps.py and from its [str] in
    check-pltr-marketcap.py, which stops after the header when the value
    is an int too long to have one. *)
Theorem C7_price_prefers_currentPrice
  (provider : list string -> string -> outcome info_dict)
  (store : list update_item_request -> update_item_request -> option exn)
  (info : info_dict) :
  let price := dict_get_default info "currentPrice" (dict_get info "regularMarketPrice") in
  let check_price :=
    dict_get_default info "currentPrice"
      (dict_get_default info "regularMarketPrice" (PyStr "N/A")) in
  (forall v : pyval, info !! "currentPrice" = Some v -> price = v /\ check_price = v) /\
  (info !! "currentPrice" = None ->
   price = default PyNone (info !! "regularMarketPrice") /\
   check_price = default (PyStr "N/A") (info !! "regularMarketPrice")) /\
  (forall (ticker : string) (w : world) (p : string),
     provider (fetched w) ticker = Returned info ->
     truthy (dict_get info "marketCap") = true ->
     py_format_2f price = Returned p ->
     exists rest : list string,
       stdout (snd (update_market_cap provider store ticker w))
       = stdout w ++ [fetching_line ticker; price_line p] ++ rest) /\
  (forall w : world,
     provider (fetched w) "PLTR" = Returned info ->
     (exists (p : string) (rest : list string),
        py_str check_price = Returned p /\
        stdout (snd (check_pltr_marketcap provider w))
        = stdout w ++ [check_header; price_line p] ++ rest) \/
     (prints_as_text check_price = false /\
      stdout (snd (check_pltr_marketcap provider w)) = stdout w ++ [check_header])).
Proof.
  cbv zeta. split; [| split; [| split]].
  - intros v Hv. unfold dict_get_default. rewrite Hv. split; reflexivity.
  - intros Hv. unfold dict_get_default, dict_get. rewrite Hv. split; reflexivity.
  - intros ticker w p Hp Ht Hfmt. rewrite update_market_cap_run. cbn [snd].
    unfold after_ticker. rewrite Hp. cbv zeta. rewrite Ht.
    rewrite selected_price_get in Hfmt. unfold report. rewrite Hfmt.
    destruct (py_truediv (dict_get info "marketCap") f1e9) as [b | e];
      [| eexists; reflexivity].
    destruct (py_format_2f b) as [c | e]; [| eexists; reflexivity].
    destruct (py_format_comma (dict_get info "sharesOutstanding")) as [s | e];
      [| eexists; reflexivity].
    destruct (py_str (dict_get info "marketCap")); eexists; reflexivity.
  - intros w Hp. rewrite check_pltr_marketcap_run. unfold after_check.
    rewrite Hp. cbn [snd stdout]. rewrite selected_price_get_default.
    unfold check_report.
    destruct (py_str (default (PyStr "N/A") (selected_price info))) as [p | e] eqn:Hprice.
    + left. exists p.
      destruct (py_truediv (dict_get_default info "marketCap" (PyInt 0)) f1e9) as [b | e];
        [| exists []; split; reflexivity].
      destruct (py_format_2f b) as [c | e]; [| exists []; split; reflexivity].
      destruct (py_str (dict_get_default info "marketCap" (PyInt 0))) as [raw | e];
        [| eexists; split; reflexivity].
      destruct (py_format_comma (dict_get_default info "sharesOutstanding" (PyInt 0)))
        as [s | e]; eexists; split; reflexivity.
    + right. split; [| reflexivity].
      destruct (prints_as_text (default (PyStr "N/A") (selected_price info))) eqn:Hacc;
        [| reflexivity].
      apply py_str_accepts in Hacc as [p Hp']. congruence.
Qed.

Lemma C7_witness :
  exists rest : list string,
    stdout (snd (update_market_cap (always pltr_quote) store_ok "PLTR" initial))
    = [fetching_line "PLTR"; price_line "25.50"] ++ rest.
Proof.
  apply (proj1 (proj2 (proj2 (C7_price_prefers_currentPrice (always pltr_quote)
                                store_ok pltr_quote))) "PLTR" initial "25.50");
    reflexivity.
Defined.

(** C8. update-all-market-caps.py, [main]: every invocation runs
    [update_market_cap] on "PLTR", then "AMZN", then "META", each call
    starting from the world the previous one left and each returning
    normally; quotes are requested for exactly these three tickers in this
    order; the last thing printed is the completion line, after which
    [main] returns. *)
Theorem C8_main_processes_fixed_sequence
  (provider : list string -> string -> outcome info_dict)
  (store : list update_item_request -> update_item_request -> option exn)
  (w : world) :
  tickers = ["PLTR"; "AMZN"; "META"] /\
  let w0 := after_print banner_line w in
  let r1 := update_market_cap provider store "PLTR" w0 in
  let r2 := update_market_cap provider store "AMZN" (snd r1) in
  let r3 := update_market_cap provider store "META" (snd r2) in
  fst r1 = Returned tt /\ fst r2 = Returned tt /\ fst r3 = Returned tt /\
  main provider store w = (Returned tt, after_print completed_line (snd r3)) /\
  fetched (snd (main provider store w)) = fetched w ++ ["PLTR"; "AMZN"; "META"] /\
  last (stdout (snd (main provider store w))) = Some completed_line /\
  exists out1 out2 out3 : list string,
    stdout (snd (main provider store w))
    = stdout w ++ banner_line :: (fetching_line "PLTR" :: out1)
        ++ (fetching_line "AMZN" :: out2) ++ (fetching_line "META" :: out3)
        ++ [completed_line].
Proof.
  split; [reflexivity |]. cbv zeta.
  rewrite main_run, !update_market_cap_run. cbn [fst snd].
  split; [reflexivity |]. split; [reflexivity |]. split; [reflexivity |].
  split; [reflexivity |].
  split; [| split].
  - cbn [after_print fetched]. rewrite after_tickers_fetched. reflexivity.
  - cbn [after_print stdout]. apply last_snoc.
  - unfold after_tickers, tickers. cbn [fold_left].
    set (w0 := after_print banner_line w).
    destruct (after_ticker_stdout provider store "PLTR" w0) as [out1 H1].
    set (w1 := after_ticker provider store "PLTR" w0) in *.
    destruct (after_ticker_stdout provider store "AMZN" w1) as [out2 H2].
    set (w2 := after_ticker provider store "AMZN" w1) in *.
    destruct (after_ticker_stdout provider store "META" w2) as [out3 H3].
    unfold after_print at 1. cbn [stdout].
    exists out1, out2, out3. rewrite H3, H2, H1. subst w0. cbn [after_print stdout].
    repeat (rewrite <- app_assoc; cbn [app]). reflexivity.
Qed.



(** C10. update-all-market-caps.py, [update_market_cap]: the guard
    [if not market_cap] tests falsiness, so a fetched marketCap equal to 0
    (the int 0, or a float zero) takes the same path as an absent one: the
    warning "No market cap data available" is printed, no report line is
    printed, no [update_item] call is made, and the resulting world is the
    one obtained from the same quote with the marketCap key deleted. *)
Theorem C10_zero_market_cap_is_no_data
  (provider : list string -> string -> outcome info_dict)
  (store : list update_item_request -> update_item_request -> option exn)
  (ticker : string) (info : info_dict) (w : world) :
  provider (fetched w) ticker = Returned info ->
  dict_get info "marketCap" = PyInt 0 \/
  (exists s : bool, dict_get info "marketCap" = PyFloat (S754_zero s)) ->
  update_market_cap provider store ticker w
  = (Returned tt,
     {| stdout := stdout w ++ [fetching_line ticker; no_data_line ticker];
        fetched := fetched w ++ [ticker];
        update_item_calls := update_item_calls w |}) /\
  update_market_cap provider store ticker w
  = update_market_cap (always (delete "marketCap" info)) store ticker w.
Proof.
  intros Hp Hmc.
  assert (Hfalsy : truthy (dict_get info "marketCap") = false)
    by (destruct Hmc as [-> | [s ->]]; reflexivity).
  assert (Hrun : update_market_cap provider store ticker w
                 = (Returned tt,
                    {| stdout := stdout w ++ [fetching_line ticker; no_data_line ticker];
                       fetched := fetched w ++ [ticker];
                       update_item_calls := update_item_calls w |})).
  { rewrite update_market_cap_run. f_equal.
    apply after_ticker_falsy with (info := info); assumption. }
  split; [exact Hrun |].
  rewrite Hrun, update_market_cap_run. f_equal. symmetry.
  apply after_ticker_falsy with (info := delete "marketCap" info); [reflexivity |].
  unfold dict_get. rewrite lookup_delete_eq. reflexivity.
Qed.

Lemma C10_witness :
  update_market_cap (always zero_cap_quote) store_ok "PLTR" initial
  = (Returned tt,
     {| stdout := [fetching_line "PLTR"; no_data_line "PLTR"];
        fetched := ["PLTR"];
        update_item_calls := [] |}) /\
  update_market_cap (always zero_cap_quote) store_ok "PLTR" initial
  = update_market_cap (always (delete "marketCap" zero_cap_quote)) store_ok "PLTR" initial.
Proof.
  apply (C10_zero_market_cap_is_no_data (always zero_cap_quote) store_ok "PLTR"
           zero_cap_quote initial); [reflexivity | left; reflexivity].
Defined.

(** * Further properties of the two scripts *)

(** ** Further properties of the persistence variant *)

Lemma error_line_not_updated (t : string) (e : exn) : error_line t e <> updated_line t.
Proof. unfold error_line, updated_line. cbn [String.append]. discriminate. Qed.

Lemma no_data_line_not_updated (t : string) : no_data_line t <> updated_line t.
Proof. unfold no_data_line, updated_line. cbn [String.append]. discriminate. Qed.

Lemma error_line_not_no_data (t : string) (e : exn) : error_line t e <> no_data_line t.
Proof. unfold error_line, no_data_line. cbn [String.append]. discriminate. Qed.

Lemma last_two {A} (l : list A) (a b : A) : last (l ++ [a; b]) = Some b.
Proof. change [a; b] with ([a] ++ [b]). rewrite app_assoc. apply last_snoc. Qed.

Lemma last_lines {A} (l lines : list A) (a b : A) :
  last (l ++ a :: lines ++ [b]) = Some b.
Proof.
  change (a :: lines ++ [b]) with ((a :: lines) ++ [b]).
  rewrite app_assoc. apply last_snoc.
Qed.

(** X1. The last line a call of [update_market_cap] prints tells what
    happened: it is the "Updated" line exactly when [update_item] was
    called, with the text [str(market_cap)] as the number, and returned,
    and the "No market cap data" line exactly when a quote arrived whose
    market cap is falsy. *)
Theorem X1_outcome_line_is_truthful
  (provider : list string -> string -> outcome info_dict)
  (store : list update_item_request -> update_item_request -> option exn)
  (ticker : string) (w : world) :
  let out := stdout (snd (update_market_cap provider store ticker w)) in
  (last out = Some (updated_line ticker) <->
   exists number : string,
     reaches_write provider ticker w number /\
     store (update_item_calls w) (market_cap_request ticker number) = None) /\
  (last out = Some (no_data_line ticker) <->
   exists info : info_dict,
     provider (fetched w) ticker = Returned info /\
     truthy (dict_get info "marketCap") = false).
Proof.
  cbv zeta. rewrite update_market_cap_run. cbn [snd].
  unfold after_ticker, reaches_write.
  destruct (provider (fetched w) ticker) as [info | e] eqn:Hp.
  - cbv zeta. destruct (truthy (dict_get info "marketCap")) eqn:Ht.
    + destruct (report _ _ _) as [lines [e |]] eqn:Hr; cbn [stdout].
      * rewrite last_lines. split; split.
        -- intros H. exfalso. apply (error_line_not_updated ticker e). congruence.
        -- intros (number & (info' & lines' & [= <-] & _ & Hr' & _) & _).
           rewrite Hr in Hr'. discriminate.
        -- intros H. exfalso. apply (error_line_not_no_data ticker e). congruence.
        -- intros (info' & [= <-] & Ht'). rewrite Ht in Ht'. discriminate.
      * destruct (py_str (dict_get info "marketCap")) as [number | e] eqn:Hn;
          cbn [stdout]; rewrite last_lines; split; split.
        -- intros H. exists number.
           split; [exists info, lines; auto |].
           destruct (store _ _) as [e |]; [| reflexivity].
           exfalso. apply (error_line_not_updated ticker e). congruence.
        -- intros (number' & (info' & lines' & [= <-] & _ & _ & Hn') & Hs).
           rewrite Hn in Hn'. injection Hn' as <-. rewrite Hs. reflexivity.
        -- intros H. exfalso.
           destruct (store _ _) as [e |].
           ++ apply (error_line_not_no_data ticker e). congruence.
           ++ apply (no_data_line_not_updated ticker). congruence.
        -- intros (info' & [= <-] & Ht'). rewrite Ht in Ht'. discriminate.
        -- intros H. exfalso. apply (error_line_not_updated ticker e). congruence.
        -- intros (number' & (info' & lines' & [= <-] & _ & _ & Hn') & _).
           rewrite Hn in Hn'. discriminate.
        -- intros H. exfalso. apply (error_line_not_no_data ticker e). congruence.
        -- intros (info' & [= <-] & Ht'). rewrite Ht in Ht'. discriminate.
    + cbn [stdout]. rewrite last_two. split; split.
      * intros H. exfalso. apply (no_data_line_not_updated ticker). congruence.
      * intros (number & (info' & lines' & [= <-] & Ht' & _) & _).
        rewrite Ht in Ht'. discriminate.
      * intros _. exists info. auto.
      * reflexivity.
  - cbn [stdout]. rewrite last_two. split; split.
    + intros H. exfalso. apply (error_line_not_updated ticker e). congruence.
    + intros (number & (info' & lines' & Hi & _) & _). discriminate.
    + intros H. exfalso. apply (error_line_not_no_data ticker e). congruence.
    + intros (info' & Hi & _). discriminate.
Qed.

(** X2. Every call of [update_market_cap] requests the quote once, prints
    the "Fetching data" line first, then at most three report lines, then
    exactly one outcome line (no data, updated or error); it keeps what
    was printed, fetched and sent before. *)
Theorem X2_call_prints_fetching_then_one_outcome
  (provider : list string -> string -> outcome info_dict)
  (store : list update_item_request -> update_item_request -> option exn)
  (ticker : string) (w : world) :
  let w' := snd (update_market_cap provider store ticker w) in
  fetched w' = fetched w ++ [ticker] /\
  (exists sent : list update_item_request,
     update_item_calls w' = update_item_calls w ++ sent /\ (length sent <= 1)%nat) /\
  exists (lines : list string) (final : string),
    stdout w' = stdout w ++ fetching_line ticker :: lines ++ [final] /\
    (length lines <= 3)%nat /\
    (final = no_data_line ticker \/ final = updated_line ticker \/
     exists e : exn, final = error_line ticker e).
Proof.
  cbv zeta. rewrite update_market_cap_run. cbn [snd].
  split; [apply after_ticker_fetched |]. split.
  - destruct (after_ticker_calls provider store ticker w) as [[Heq _] | (mc & _ & Heq)];
      rewrite Heq.
    + exists []. rewrite app_nil_r. split; [reflexivity | cbn; lia].
    + eexists. split; [reflexivity | cbn; lia].
  - unfold after_ticker.
    destruct (provider (fetched w) ticker) as [info | e].
    + cbv zeta. destruct (truthy (dict_get info "marketCap")).
      * unfold report.
        destruct (py_format_2f _) as [p | e];
          [| exists [], (error_line ticker e); cbn; repeat split; eauto; lia].
        destruct (py_truediv _ _) as [b | e];
          [| eexists [_], (error_line ticker e); cbn; repeat split; eauto; lia].
        destruct (py_format_2f b) as [c | e];
          [| eexists [_], (error_line ticker e); cbn; repeat split; eauto; lia].
        destruct (py_format_comma _) as [s | e];
          [| eexists [_; _], (error_line ticker e); cbn; repeat split; eauto; lia].
        destruct (py_str _) as [number | e];
          [| eexists [_; _; _], (error_line ticker e); cbn; repeat split; eauto; lia].
        eexists [_; _; _], _. cbn [stdout]. split; [reflexivity |].
        split; [cbn; lia |]. destruct (store _ _) as [e |]; eauto.
      * exists [], (no_data_line ticker). cbn. repeat split; eauto; lia.
    + exists [], (error_line ticker e). cbn. repeat split; eauto; lia.
Qed.

(** Requests of a loop: the tickers that were written, in order. *)
Lemma after_tickers_written (provider : list string -> string -> outcome info_dict)
  (store : list update_item_request -> update_item_request -> option exn)
  (ts : list string) (w : world) :
  exists written : list (string * string),
    update_item_calls (after_tickers provider store ts w)
    = update_item_calls w ++ map (fun x => market_cap_request (fst x) (snd x)) written /\
    map fst written `sublist_of` ts.
Proof.
  revert w. induction ts as [| t ts IH]; intros w.
  - exists []. cbn. rewrite app_nil_r. split; [reflexivity | constructor].
  - cbn [after_tickers fold_left].
    destruct (IH (after_ticker provider store t w)) as (written & Heq & Hsub).
    unfold after_tickers in Heq. rewrite Heq.
    destruct (after_ticker_calls provider store t w) as [[Ht _] | (mc & _ & Ht)];
      rewrite Ht.
    + exists written. split; [reflexivity | apply sublist_cons; exact Hsub].
    + exists ((t, mc) :: written). cbn [map fst snd]. rewrite <- app_assoc.
      split; [reflexivity | apply sublist_skip; exact Hsub].
Qed.

(** X3. Whatever the provider and the store do, [main] sends the store at
    most three requests, one per ticker at most and in the order PLTR,
    AMZN, META (each with the text of its market cap); each is the set-only
    update of [marketCap] on the table fintail-companies-development under
    the key COMPANY#<ticker> / METADATA of one of these tickers. *)
Theorem X3_main_writes_only_the_three_records
  (provider : list string -> string -> outcome info_dict)
  (store : list update_item_request -> update_item_request -> option exn)
  (w : world) :
  exists written : list (string * string),
    update_item_calls (snd (main provider store w))
    = update_item_calls w ++ map (fun x => market_cap_request (fst x) (snd x)) written /\
    map fst written `sublist_of` ["PLTR"; "AMZN"; "META"] /\
    (length written <= 3)%nat /\
    forall r : update_item_request,
      r ∈ map (fun x => market_cap_request (fst x) (snd x)) written ->
      TableName r = "fintail-companies-development" /\
      UpdateExpression r = "SET marketCap = :mc" /\
      dom (ExpressionAttributeValues r) = ({[ ":mc" ]} : gset string) /\
      exists t : string,
        t ∈ ["PLTR"; "AMZN"; "META"] /\
        Key r = {[ "PK" := AttrS ("COMPANY#" +:+ t); "SK" := AttrS "METADATA" ]}.
Proof.
  rewrite main_run. cbn [snd after_print update_item_calls].
  destruct (after_tickers_written provider store tickers (after_print banner_line w))
    as (written & Heq & Hsub).
  exists written. split; [exact Heq |]. split; [exact Hsub |]. split.
  - apply sublist_length in Hsub. rewrite length_map in Hsub. exact Hsub.
  - intros r Hr. apply list_elem_of_fmap in Hr as ([t mc] & -> & Hin).
    cbn [fst snd]. split; [reflexivity |]. split; [reflexivity |].
    split; [apply dom_singleton_L |].
    exists t. split; [| reflexivity].
    apply (sublist_subseteq _ _ Hsub).
    apply list_elem_of_fmap. exists (t, mc). split; [reflexivity | exact Hin].
Qed.

(** X4. A call of [update_market_cap] that received a quote sends a
    request exactly when the market cap is truthy and the price, the market
    cap and the shares are numbers the report can format: an int, a bool or
    a float, for the price and the market cap an int only while it converts
    to a float, for the shares an int only while it is below [10^4300] in
    absolute value, the longest int the runtime turns into text. A market
    cap, price or shares that is None or a text is never followed by a
    write. Integers from 0 to 2^53 - 1 are such numbers; integers from
    2^1024 on do not convert to a float. *)
Theorem X4_write_exactly_for_numeric_quotes
  (provider : list string -> string -> outcome info_dict)
  (store : list update_item_request -> update_item_request -> option exn)
  (ticker : string) (info : info_dict) (w : world) :
  provider (fetched w) ticker = Returned info ->
  let market_cap := dict_get info "marketCap" in
  let price :=
    dict_get_default info "currentPrice" (dict_get info "regularMarketPrice") in
  let shares := dict_get info "sharesOutstanding" in
  let sent := update_item_calls (snd (update_market_cap provider store ticker w)) in
  (truthy market_cap && formats_as_float price && formats_as_float market_cap
     && formats_with_commas shares = true ->
   exists number : string,
     py_str market_cap = Returned number /\
     sent = update_item_calls w ++ [market_cap_request ticker number]) /\
  (truthy market_cap && formats_as_float price && formats_as_float market_cap
     && formats_with_commas shares = false ->
   sent = update_item_calls w) /\
  (forall z : Z, 0 <= z < 2 ^ 53 ->
     formats_as_float (PyInt z) = true /\ formats_with_commas (PyInt z) = true) /\
  (forall z : Z, 2 ^ 1024 <= Z.abs z -> formats_as_float (PyInt z) = false) /\
  (forall z : Z, formats_with_commas (PyInt z) = true <-> Z.abs z < 10 ^ 4300) /\
  (forall v : pyval, v = PyNone \/ (exists s, v = PyStr s) ->
     formats_as_float v = false /\ formats_with_commas v = false).
Proof.
  intros Hp. cbv zeta. rewrite selected_price_get, update_market_cap_run. cbn [snd].
  split; [| split; [| split; [| split; [| split]]]].
  - intros Hacc. destruct (truthy (dict_get info "marketCap")) eqn:Ht; [| discriminate].
    cbn [andb] in Hacc. apply report_accepts in Hacc as [lines Hr].
    destruct (after_ticker_reported provider store ticker w info lines Hp Ht Hr)
      as (number & Hn & ->).
    exists number. split; [exact Hn | reflexivity].
  - intros Hacc. unfold after_ticker. rewrite Hp. cbv zeta.
    destruct (truthy (dict_get info "marketCap")); [| reflexivity].
    cbn [andb] in Hacc.
    destruct (report _ _ _) as [lines [e |]] eqn:Hr; [reflexivity |].
    assert (Hex : exists l, report (dict_get info "marketCap")
                    (default PyNone (selected_price info))
                    (dict_get info "sharesOutstanding") = (l, None)) by eauto.
    apply report_accepts in Hex. rewrite Hex in Hacc. discriminate.
  - intros z Hz. pose proof (small_int_formats z Hz) as Hf.
    split; [exact Hf | exact (float_int_fits z Hf)].
  - intros z Hz. cbn [formats_as_float].
    destruct (b64_of_Z_overflow z Hz) as [s ->]. reflexivity.
  - intros z. apply int_fits_below.
  - intros v [-> | [s ->]]; split; reflexivity.
Qed.

Lemma X4_witness :
  update_item_calls (snd (update_market_cap (always text_cap_quote) store_ok "PLTR" initial))
  = update_item_calls initial.
Proof.
  apply (proj1 (proj2 (X4_write_exactly_for_numeric_quotes (always text_cap_quote)
                         store_ok "PLTR" text_cap_quote initial eq_refl)));
    reflexivity.
Defined.

(** ** Thousands separators *)

Lemma strip_commas_digits (s : string) : all_digits s = true -> strip_commas s = s.
Proof.
  induction s as [| c r IH]; [reflexivity |]. cbn [all_digits strip_commas].
  intros [Hc Hr]%andb_true_iff. rewrite (IH Hr).
  destruct (Ascii.eqb_spec c ","); [subst c; discriminate | reflexivity].
Qed.

Lemma count_commas_digits (s : string) : all_digits s = true -> count_commas s = O.
Proof.
  induction s as [| c r IH]; [reflexivity |]. cbn [all_digits count_commas].
  intros [Hc Hr]%andb_true_iff. rewrite (IH Hr).
  destruct (Ascii.eqb_spec c ","); [subst c; discriminate | reflexivity].
Qed.

Lemma strip_commas_rev (acc s : string) :
  strip_commas (rev_string acc s) = rev_string (strip_commas acc) (strip_commas s).
Proof.
  revert acc. induction s as [| c r IH]; intros acc; [reflexivity |].
  cbn [rev_string strip_commas]. rewrite IH. cbn [strip_commas].
  destruct (Ascii.eqb c ","); reflexivity.
Qed.

Lemma count_commas_rev (acc s : string) :
  count_commas (rev_string acc s) = (count_commas acc + count_commas s)%nat.
Proof.
  revert acc. induction s as [| c r IH]; intros acc; cbn [rev_string count_commas].
  - lia.
  - rewrite IH. cbn [count_commas]. destruct (Ascii.eqb c ","); lia.
Qed.

Lemma all_digits_rev (acc s : string) :
  all_digits (rev_string acc s) = all_digits acc && all_digits s.
Proof.
  revert acc. induction s as [| c r IH]; intros acc; cbn [rev_string all_digits].
  - rewrite andb_true_r. reflexivity.
  - rewrite IH. cbn [all_digits]. destruct (is_digit c), (all_digits acc), (all_digits r);
      reflexivity.
Qed.

Lemma length_rev_string (acc s : string) :
  String.length (rev_string acc s) = (String.length acc + String.length s)%nat.
Proof.
  revert acc. induction s as [| c r IH]; intros acc; cbn [rev_string String.length].
  - lia.
  - rewrite IH. cbn [String.length]. lia.
Qed.

Lemma append_empty_r (s : string) : s +:+ EmptyString = s.
Proof.
  induction s as [| c r IH]; [reflexivity |].
  change (String c (r +:+ EmptyString) = String c r). rewrite IH. reflexivity.
Qed.

Lemma rev_string_involutive (s : string) :
  rev_string EmptyString (rev_string EmptyString s) = s.
Proof.
  assert (H : forall acc t, rev_string acc (rev_string t s) = rev_string (s +:+ acc) t).
  { induction s as [| c r IH]; intros acc t; cbn [rev_string String.append].
    - reflexivity.
    - rewrite IH. reflexivity. }
  rewrite H. cbn [rev_string]. apply append_empty_r.
Qed.

Lemma group3_rev_step (a b c d : ascii) (r : string) :
  group3_rev (String a (String b (String c (String d r))))
  = String a (String b (String c (String "," (group3_rev (String d r))))).
Proof. reflexivity. Qed.

Lemma digit_not_comma (c : ascii) : is_digit c = true -> Ascii.eqb c "," = false.
Proof. intros H. destruct (Ascii.eqb_spec c ","); [subst c; discriminate | reflexivity]. Qed.

(** Grouping a digit string read from the right. *)
Lemma group3_rev_digits (n : nat) (s : string) :
  (String.length s <= n)%nat -> all_digits s = true ->
  strip_commas (group3_rev s) = s /\
  count_commas (group3_rev s) = ((String.length s - 1) / 3)%nat.
Proof.
  revert s. induction n as [n IH] using lt_wf_ind. intros s Hn Hd.
  destruct s as [| a [| b [| c [| d r]]]];
    try (split; [apply strip_commas_digits; exact Hd
                | exact (count_commas_digits _ Hd)]).
  rewrite group3_rev_step.
  assert (Hd' := Hd). cbn [all_digits] in Hd'.
  apply andb_true_iff in Hd' as [Ha Hd']. apply andb_true_iff in Hd' as [Hb Hd'].
  apply andb_true_iff in Hd' as [Hc Hd'].
  cbn [String.length] in Hn.
  destruct (IH (n - 3)%nat ltac:(lia) (String d r)) as [Hs Hk];
    [cbn [String.length]; lia | exact Hd' |].
  set (g := group3_rev (String d r)) in *.
  split.
  - cbn [strip_commas].
    rewrite (digit_not_comma a Ha), (digit_not_comma b Hb), (digit_not_comma c Hc).
    change (Ascii.eqb "," ",") with true. cbv iota. rewrite Hs. reflexivity.
  - cbn [count_commas].
    rewrite (digit_not_comma a Ha), (digit_not_comma b Hb), (digit_not_comma c Hc).
    change (Ascii.eqb "," ",") with true. cbv iota. rewrite Hk. cbn [String.length].
    replace (S (S (S (S (String.length r)))) - 1)%nat
      with (1 * 3 + (S (String.length r) - 1))%nat by lia.
    rewrite Nat.div_add_l by lia. lia.
Qed.

Lemma group_thousands_digits (s : string) :
  all_digits s = true ->
  strip_commas (group_thousands s) = s /\
  count_commas (group_thousands s) = ((String.length s - 1) / 3)%nat.
Proof.
  intros Hd. unfold group_thousands.
  assert (Hr : all_digits (rev_string EmptyString s) = true)
    by (rewrite all_digits_rev; exact Hd).
  destruct (group3_rev_digits _ _ (le_n _) Hr) as [Hs Hk].
  rewrite strip_commas_rev, count_commas_rev, Hs, Hk, length_rev_string.
  cbn [strip_commas count_commas String.length plus].
  split; [apply rev_string_involutive | reflexivity].
Qed.

Lemma strip_commas_sign (b : bool) (x : string) :
  strip_commas (sign_str b +:+ x) = sign_str b +:+ strip_commas x.
Proof. destruct b; reflexivity. Qed.

Lemma count_commas_sign (b : bool) (x : string) :
  count_commas (sign_str b +:+ x) = count_commas x.
Proof. destruct b; reflexivity. Qed.

(** X6. The shares line of both scripts, for an integer: with the commas
    taken out the text is [str(shares)] and reads back as the integer; the
    number of commas is the number of digits minus one, divided by three. *)
Theorem X6_thousands_separators_read_back (z : Z) (text : string) :
  py_format_comma (PyInt z) = Returned text ->
  py_str (PyInt z) = Returned (strip_commas text) /\
  Z_of_str (strip_commas text) = Some z /\
  count_commas text = ((String.length (str_of_Z (Z.abs z)) - 1) / 3)%nat.
Proof.
  cbn [py_format_comma py_str]. intros Hfmt.
  assert (Hfits : int_fits z = true).
  { destruct (int_fits z) eqn:Hf; [reflexivity |].
    rewrite int_format_comma_too_long in Hfmt by exact Hf. discriminate. }
  rewrite int_format_comma_fits in Hfmt by exact Hfits. injection Hfmt as <-.
  rewrite int_str_fits by exact Hfits.
  assert (Hd : all_digits (str_of_Z (Z.abs z)) = true)
    by (apply all_digits_str_of_Z; lia).
  destruct (group_thousands_digits _ Hd) as [Hs Hk].
  rewrite (str_of_Z_sign z) at 1.
  set (d := str_of_Z (Z.abs z)) in *. set (g := group_thousands d) in *.
  assert (Hstrip : strip_commas (sign_str (z <? 0) +:+ g) = sign_str (z <? 0) +:+ d)
    by (rewrite strip_commas_sign, Hs; reflexivity).
  split; [rewrite Hstrip; reflexivity |]. split.
  - rewrite Hstrip. subst d. rewrite <- str_of_Z_sign. apply Z_of_str_of_Z.
  - rewrite count_commas_sign. exact Hk.
Qed.

Lemma X6_witness :
  py_str (PyInt 2116000000) = Returned (strip_commas "2,116,000,000") /\
  Z_of_str (strip_commas "2,116,000,000") = Some 2116000000 /\
  count_commas "2,116,000,000"
  = ((String.length (str_of_Z (Z.abs 2116000000)) - 1) / 3)%nat.
Proof. apply (X6_thousands_separators_read_back 2116000000 "2,116,000,000"). reflexivity. Defined.

(** X5. The number sent to the store for an integer market cap is its
    decimal text: it reads back as the market cap, so that different market
    caps are sent as different values; every request a call of
    [update_market_cap] adds for such a quote carries this text. *)
Theorem X5_sent_number_reads_back
  (provider : list string -> string -> outcome info_dict)
  (store : list update_item_request -> update_item_request -> option exn)
  (ticker : string) (info : info_dict) (w : world) (z : Z) :
  provider (fetched w) ticker = Returned info ->
  dict_get info "marketCap" = PyInt z ->
  (forall number : string,
     py_str (PyInt z) = Returned number ->
     ExpressionAttributeValues (market_cap_request ticker number) !! ":mc"
     = Some (AttrN number) /\
     Z_of_str number = Some z) /\
  (forall (z' : Z) (number number' : string),
     py_str (PyInt z) = Returned number ->
     py_str (PyInt z') = Returned number' ->
     market_cap_request ticker number' = market_cap_request ticker number ->
     z' = z) /\
  (forall r : update_item_request,
     r ∈ update_item_calls (snd (update_market_cap provider store ticker w)) ->
     r ∈ update_item_calls w \/
     exists number : string,
       r = market_cap_request ticker number /\ Z_of_str number = Some z).
Proof.
  intros Hp Hmc.
  assert (Hread : forall (x : Z) (n : string),
            py_str (PyInt x) = Returned n -> Z_of_str n = Some x).
  { intros x n. cbn [py_str]. unfold int_str.
    destruct (_ <? _)%nat; [discriminate |]. intros [= <-]. apply Z_of_str_of_Z. }
  split; [| split].
  - intros number Hn. split; [reflexivity | exact (Hread _ _ Hn)].
  - intros z' number number' Hn Hn' Heq.
    assert (H : ExpressionAttributeValues (market_cap_request ticker number') !! ":mc"
                = ExpressionAttributeValues (market_cap_request ticker number) !! ":mc")
      by (rewrite Heq; reflexivity).
    change (Some (AttrN number') = Some (AttrN number)) in H.
    injection H as ->.
    apply Hread in Hn, Hn'. congruence.
  - intros r. rewrite update_market_cap_run. cbn [snd].
    destruct (after_ticker_calls provider store ticker w)
      as [[Heq _] | (number & (info' & lines & Hp' & _ & _ & Hn) & Heq)]; rewrite Heq.
    + auto.
    + rewrite Hp in Hp'. injection Hp' as <-. rewrite Hmc in Hn.
      intros [Hr | Hr%list_elem_of_singleton]%elem_of_app; [auto |].
      right. exists number. split; [exact Hr | exact (Hread _ _ Hn)].
Qed.

Lemma X5_witness :
  ExpressionAttributeValues (market_cap_request "AMZN" "1900000000000") !! ":mc"
  = Some (AttrN "1900000000000") /\
  Z_of_str "1900000000000" = Some 1900000000000.
Proof.
  refine (proj1 (X5_sent_number_reads_back (always amzn_quote) store_ok "AMZN"
                   amzn_quote initial 1900000000000 _ _) "1900000000000" _);
    reflexivity.
Defined.

(** X7. The field [.2f] of the price and of the billions lines: whatever
    number is formatted, the text is nan, inf or -inf, or an optional minus
    sign, digits, a point and exactly two digits; for a finite float the
    digits before and after the point read back as the hundredths printed,
    divided by 100 and modulo 100. *)
Theorem X7_two_decimals_always (v : pyval) (text : string) :
  py_format_2f v = Returned text ->
  (text = "nan" \/ text = "inf" \/ text = "-inf" \/ two_decimals text = true) /\
  (forall (s : bool) (m : positive) (e : Z),
     v = PyFloat (S754_finite s m e) ->
     exists ip fp : string,
       text = sign_str s +:+ ip +:+ "." +:+ fp /\
       String.length fp = 2%nat /\
       Z_of_str ip = Some (hundredths m e / 100) /\
       Z_of_str fp = Some (hundredths m e mod 100)).
Proof.
  intros Hfmt.
  assert (Hfloat : forall x, text = format_2f x ->
            text = "nan" \/ text = "inf" \/ text = "-inf" \/ two_decimals text = true).
  { intros x ->. destruct x as [s | s | | s m e]; cbn [format_2f].
    - destruct s; right; right; right; reflexivity.
    - destruct s; auto.
    - auto.
    - right; right; right.
      destruct (fixed2_shape (hundredths m e) (hundredths_nonneg m e))
        as (ip & fp & -> & Htwo & Hdp & _).
      destruct s; [exact Hdp | exact Htwo]. }
  split.
  - destruct v as [| b | z | x | s]; cbn [py_format_2f] in Hfmt; try discriminate.
    + destruct (int_to_float _) as [x |]; [| discriminate].
      injection Hfmt as <-. eapply Hfloat; reflexivity.
    + destruct (int_to_float _) as [x |]; [| discriminate].
      injection Hfmt as <-. eapply Hfloat; reflexivity.
    + injection Hfmt as <-. eapply Hfloat; reflexivity.
  - intros s m e ->. cbn [py_format_2f format_2f] in Hfmt. injection Hfmt as <-.
    destruct (fixed2_shape (hundredths m e) (hundredths_nonneg m e))
      as (ip & fp & -> & _ & _ & Hlen & Hip & Hfp & _).
    exists ip, fp. auto.
Qed.

Lemma X7_witness :
  ("25.50"%string = "nan"%string \/ "25.50"%string = "inf"%string \/
   "25.50"%string = "-inf"%string \/ two_decimals "25.50" = true) /\
  (forall (s : bool) (m : positive) (e : Z),
     PyFloat f25_50 = PyFloat (S754_finite s m e) ->
     exists ip fp : string,
       "25.50"%string = sign_str s +:+ ip +:+ "." +:+ fp /\
       String.length fp = 2%nat /\
       Z_of_str ip = Some (hundredths m e / 100) /\
       Z_of_str fp = Some (hundredths m e mod 100)).
Proof. apply (X7_two_decimals_always (PyFloat f25_50) "25.50"). reflexivity. Defined.

(** ** Requests applied to a table *)

Lemma apply_market_cap_request (t : table) (ticker : string) (number : string) :
  apply_update t (market_cap_request ticker number)
  = <[("COMPANY#" +:+ ticker, "METADATA"%string) :=
        <["marketCap" := AttrN number]>
          (default ∅ (t !! ("COMPANY#" +:+ ticker, "METADATA"%string)))]> t.
Proof. reflexivity. Qed.

(** X8. Requests of different tickers address different records, so that
    applying them in either order gives the same table; applying a request
    twice is the same as applying it once; and of two requests for the same
    ticker the later one decides the stored market cap. The requests are
    those of [update_market_cap], for any two numbers. *)
Theorem X8_requests_commute_and_are_idempotent
  (t : table) (ticker ticker' : string) (mc mc' : string) :
  let r := market_cap_request ticker mc in
  let r' := market_cap_request ticker' mc' in
  (ticker <> ticker' ->
   request_key r <> request_key r' /\
   apply_update (apply_update t r) r' = apply_update (apply_update t r') r) /\
  apply_update (apply_update t r) r = apply_update t r /\
  apply_update (apply_update t r) (market_cap_request ticker mc')
  = apply_update t (market_cap_request ticker mc').
Proof.
  cbv zeta. rewrite !apply_market_cap_request. split; [| split].
  - intros Hne.
    assert (Hk : ("COMPANY#" +:+ ticker, "METADATA"%string)
                 <> ("COMPANY#" +:+ ticker', "METADATA"%string)).
    { intros H. apply Hne, company_key_inj. congruence. }
    split.
    + change (Some ("COMPANY#" +:+ ticker, "METADATA"%string)
              <> Some ("COMPANY#" +:+ ticker', "METADATA"%string)). congruence.
    + rewrite !lookup_insert_ne by congruence.
      apply insert_insert_ne. congruence.
  - rewrite lookup_insert_eq. cbn [default from_option id].
    rewrite !insert_insert_eq. reflexivity.
  - rewrite lookup_insert_eq. cbn [default from_option id].
    rewrite !insert_insert_eq. reflexivity.
Qed.

Lemma X8_witness :
  request_key (market_cap_request "PLTR" "54000000000")
  <> request_key (market_cap_request "AMZN" "1900000000000") /\
  apply_update (apply_update ∅ (market_cap_request "PLTR" "54000000000"))
    (market_cap_request "AMZN" "1900000000000")
  = apply_update (apply_update ∅ (market_cap_request "AMZN" "1900000000000"))
      (market_cap_request "PLTR" "54000000000").
Proof.
  apply (proj1 (X8_requests_commute_and_are_idempotent ∅ "PLTR" "AMZN"
                  "54000000000" "1900000000000")).
  discriminate.
Defined.

(** ** The check script *)

(** X9. check-pltr-marketcap.py has no handler: when the provider raises,
    the exception leaves the script with nothing printed; when the price
    has no text (an int too long for [str]), it leaves it after the header;
    when the market cap (0 if the key is missing) is not a number the
    report can divide, it leaves it after the header and the price line;
    when the shares (0 if the key is missing) cannot take thousands
    separators, it leaves it after the raw line. A market cap key that
    holds None raises the TypeError of [None / 1e9]. *)
Theorem X9_check_script_failures
  (provider : list string -> string -> outcome info_dict) (w : world) :
  (forall e : exn,
     provider (fetched w) "PLTR" = Raised e ->
     check_pltr_marketcap provider w
     = (Raised e,
        {| stdout := stdout w; fetched := fetched w ++ ["PLTR"];
           update_item_calls := update_item_calls w |})) /\
  (forall info : info_dict,
     provider (fetched w) "PLTR" = Returned info ->
     let market_cap := dict_get_default info "marketCap" (PyInt 0) in
     let shares := dict_get_default info "sharesOutstanding" (PyInt 0) in
     let price := dict_get_default info "currentPrice"
                    (dict_get_default info "regularMarketPrice" (PyStr "N/A")) in
     (prints_as_text price = false ->
      check_pltr_marketcap provider w
      = (Raised int_str_limit,
         {| stdout := stdout w ++ [check_header];
            fetched := fetched w ++ ["PLTR"];
            update_item_calls := update_item_calls w |})) /\
     (forall p : string,
        py_str price = Returned p ->
        (formats_as_float market_cap = false ->
         exists e : exn,
           check_pltr_marketcap provider w
           = (Raised e,
              {| stdout := stdout w ++ [check_header; price_line p];
                 fetched := fetched w ++ ["PLTR"];
                 update_item_calls := update_item_calls w |}) /\
           (info !! "marketCap" = Some PyNone ->
            e = TypeError "unsupported operand type(s) for /: 'NoneType' and 'float'")) /\
        (formats_as_float market_cap = true ->
         formats_with_commas shares = false ->
         exists (e : exn) (cap raw : string),
           py_str market_cap = Returned raw /\
           check_pltr_marketcap provider w
           = (Raised e,
              {| stdout := stdout w ++ [check_header; price_line p;
                                        cap_line cap; raw_line raw];
                 fetched := fetched w ++ ["PLTR"];
                 update_item_calls := update_item_calls w |})))).
Proof.
  split.
  - intros e Hp. rewrite check_pltr_marketcap_run. unfold after_check. rewrite Hp.
    reflexivity.
  - intros info Hp. cbv zeta. rewrite selected_price_get_default.
    rewrite check_pltr_marketcap_run. unfold after_check. rewrite Hp.
    unfold check_report. split.
    + intros Hprice.
      destruct (py_str (default (PyStr "N/A") (selected_price info))) as [p | e] eqn:Hs.
      * assert (Hacc : prints_as_text (default (PyStr "N/A") (selected_price info)) = true)
          by (apply py_str_accepts; eauto).
        rewrite Hacc in Hprice. discriminate.
      * rewrite (py_str_raises _ _ Hs). reflexivity.
    + intros p ->. split.
      * intros Hmc.
        destruct (py_truediv (dict_get_default info "marketCap" (PyInt 0)) f1e9)
          as [b | e] eqn:Hdiv.
        -- destruct (py_truediv_returns_float _ _ _ Hdiv) as [x ->].
           assert (Hacc : formats_as_float (dict_get_default info "marketCap" (PyInt 0))
                          = true)
             by (apply py_truediv_1e9_accepts; eauto).
           rewrite Hacc in Hmc. discriminate.
        -- exists e. split; [reflexivity |].
           intros Hnone. unfold dict_get_default in Hdiv. rewrite Hnone in Hdiv.
           change (@Raised pyval (TypeError
                     "unsupported operand type(s) for /: 'NoneType' and 'float'")
                   = Raised e) in Hdiv.
           congruence.
      * intros Hmc Hsh.
        pose proof (float_prints _ Hmc) as Hraw.
        apply py_str_accepts in Hraw as [raw Hraw].
        apply py_truediv_1e9_accepts in Hmc as [x ->]. cbn [py_format_2f].
        rewrite Hraw.
        destruct (py_format_comma (dict_get_default info "sharesOutstanding" (PyInt 0)))
          as [s | e] eqn:Hfmt.
        -- assert (Hacc : formats_with_commas
                            (dict_get_default info "sharesOutstanding" (PyInt 0)) = true)
             by (apply py_format_comma_accepts; eauto).
           rewrite Hacc in Hsh. discriminate.
        -- exists e, (format_2f x), raw. split; reflexivity.
Qed.

Lemma X9_witness :
  exists e : exn,
    check_pltr_marketcap (always none_cap_quote) initial
    = (Raised e,
       {| stdout := stdout initial ++ [check_header; "   Stock Price: $25.5"];
          fetched := fetched initial ++ ["PLTR"];
          update_item_calls := update_item_calls initial |}) /\
    (none_cap_quote !! "marketCap" = Some PyNone ->
     e = TypeError "unsupported operand type(s) for /: 'NoneType' and 'float'").
Proof.
  refine (proj1 (proj2 (proj2 (X9_check_script_failures (always none_cap_quote) initial)
                          none_cap_quote _) "25.5" _) _);
    reflexivity.
Defined.

(** X10. check-pltr-marketcap.py returns normally exactly when the quote
    arrives, the price has a text (it is not an int too long for [str]),
    the market cap (0 if missing) is a number and the shares (0 if missing)
    can take thousands separators; it then prints five lines, the price and
    the raw market cap as [str] gives them. An int has a text, and takes
    thousands separators, exactly when it is below [10^4300] in absolute
    value. In every run the script requests the quote of PLTR once and
    never calls [update_item]. *)
Theorem X10_check_script_completes_on_numbers
  (provider : list string -> string -> outcome info_dict) (w : world) :
  let run := check_pltr_marketcap provider w in
  (fst run = Returned tt <->
   exists info : info_dict,
     provider (fetched w) "PLTR" = Returned info /\
     prints_as_text (dict_get_default info "currentPrice"
                       (dict_get_default info "regularMarketPrice" (PyStr "N/A"))) = true /\
     formats_as_float (dict_get_default info "marketCap" (PyInt 0)) = true /\
     formats_with_commas (dict_get_default info "sharesOutstanding" (PyInt 0)) = true) /\
  (fst run = Returned tt ->
   exists (info : info_dict) (price cap raw shares : string),
     provider (fetched w) "PLTR" = Returned info /\
     py_str (dict_get_default info "currentPrice"
               (dict_get_default info "regularMarketPrice" (PyStr "N/A")))
     = Returned price /\
     py_str (dict_get_default info "marketCap" (PyInt 0)) = Returned raw /\
     stdout (snd run)
     = stdout w ++
       [check_header; price_line price; cap_line cap; raw_line raw; shares_line shares]) /\
  (forall z : Z,
     (prints_as_text (PyInt z) = true <-> Z.abs z < 10 ^ 4300) /\
     (formats_with_commas (PyInt z) = true <-> Z.abs z < 10 ^ 4300)) /\
  fetched (snd run) = fetched w ++ ["PLTR"] /\
  update_item_calls (snd run) = update_item_calls w.
Proof.
  cbv zeta. rewrite check_pltr_marketcap_run. unfold after_check.
  assert (Hlimit : forall z : Z,
            (prints_as_text (PyInt z) = true <-> Z.abs z < 10 ^ 4300) /\
            (formats_with_commas (PyInt z) = true <-> Z.abs z < 10 ^ 4300))
    by (intros z; split; apply int_fits_below).
  destruct (provider (fetched w) "PLTR") as [info | e] eqn:Hp.
  - cbn [fst snd fetched update_item_calls stdout].
    unfold check_report.
    rewrite <- (selected_price_get_default info (PyStr "N/A")).
    set (price := dict_get_default info "currentPrice"
                    (dict_get_default info "regularMarketPrice" (PyStr "N/A"))).
    destruct (py_str price) as [p | e] eqn:Hprice.
    + assert (Hpr : prints_as_text price = true) by (apply py_str_accepts; eauto).
      destruct (py_truediv (dict_get_default info "marketCap" (PyInt 0)) f1e9)
        as [b | e] eqn:Hdiv.
      * destruct (py_truediv_returns_float _ _ _ Hdiv) as [x ->].
        assert (Hmc : formats_as_float (dict_get_default info "marketCap" (PyInt 0)) = true)
          by (apply py_truediv_1e9_accepts; eauto).
        cbn [py_format_2f].
        pose proof (float_prints _ Hmc) as Hraw.
        apply py_str_accepts in Hraw as [raw Hraw]. rewrite Hraw.
        destruct (py_format_comma (dict_get_default info "sharesOutstanding" (PyInt 0)))
          as [s | e] eqn:Hfmt; cbn [fst snd].
        -- assert (Hsh : formats_with_commas
                           (dict_get_default info "sharesOutstanding" (PyInt 0)) = true)
             by (apply py_format_comma_accepts; eauto).
           split; [split; [intros _; exists info; auto | reflexivity] |].
           split; [intros _; exists info, p, (format_2f x), raw, s; auto |].
           auto.
        -- split; [split; [discriminate |] |].
           { intros (info' & [= <-] & _ & _ & Hsh).
             apply py_format_comma_accepts in Hsh as [s Hs]. congruence. }
           split; [discriminate | auto].
      * cbn [fst snd]. split; [split; [discriminate |] |].
        { intros (info' & [= <-] & _ & Hmc & _).
          apply py_truediv_1e9_accepts in Hmc as [x Hx]. congruence. }
        split; [discriminate | auto].
    + cbn [fst snd]. split; [split; [discriminate |] |].
      { intros (info' & [= <-] & Hpr & _).
        apply py_str_accepts in Hpr as [p Hs]. fold price in Hs. congruence. }
      split; [discriminate | auto].
  - cbn [fst snd fetched update_item_calls]. split; [split; [discriminate |] |].
    { intros (info & Hi & _). discriminate. }
    split; [discriminate | auto].
Qed.

(** ** The batch as a sequence of calls *)

Lemma after_ticker_independent
  (provider : list string -> string -> outcome info_dict)
  (store : list update_item_request -> update_item_request -> option exn)
  (t : string) (w : world) :
  (forall h h' x, provider h x = provider h' x) ->
  (forall l l' r, store l r = store l' r) ->
  stdout (after_ticker provider store t w)
  = stdout w ++ stdout (after_ticker provider store t initial) /\
  update_item_calls (after_ticker provider store t w)
  = update_item_calls w ++ update_item_calls (after_ticker provider store t initial).
Proof.
  intros Hprov Hstore. unfold after_ticker.
  rewrite (Hprov (fetched w) (fetched initial)).
  destruct (provider (fetched initial) t) as [info | e];
    [| cbn [stdout update_item_calls initial app]; rewrite app_nil_r; split; reflexivity].
  cbv zeta. destruct (truthy (dict_get info "marketCap"));
    [| cbn [stdout update_item_calls initial app]; rewrite app_nil_r; split; reflexivity].
  destruct (report _ _ _) as [lines [e |]];
    [cbn [stdout update_item_calls initial app]; rewrite app_nil_r; split; reflexivity |].
  destruct (py_str _) as [number | e];
    [| cbn [stdout update_item_calls initial app]; rewrite app_nil_r; split; reflexivity].
  cbn [stdout update_item_calls initial app].
  rewrite (Hstore (update_item_calls w) []). split; reflexivity.
Qed.

(** X13. The loop of [main] over two lists one after the other is the loop
    over the first followed by the loop over the second; and when the
    provider and the store answer the same whatever happened before, what a
    batch prints and sends is, ticker by ticker, what a call for that
    ticker alone prints and sends: no call depends on an earlier one. *)
Theorem X13_batch_is_the_sequence_of_its_calls
  (provider : list string -> string -> outcome info_dict)
  (store : list update_item_request -> update_item_request -> option exn) :
  (forall (ts1 ts2 : list string) (w : world),
     for_each (ts1 ++ ts2) (update_market_cap provider store) w
     = for_each ts2 (update_market_cap provider store)
         (snd (for_each ts1 (update_market_cap provider store) w))) /\
  ((forall h h' x, provider h x = provider h' x) ->
   (forall l l' r, store l r = store l' r) ->
   forall (ts : list string) (w : world),
     stdout (snd (for_each ts (update_market_cap provider store) w))
     = stdout w ++
       concat (map (fun t => stdout (snd (update_market_cap provider store t initial))) ts) /\
     update_item_calls (snd (for_each ts (update_market_cap provider store) w))
     = update_item_calls w ++
       concat (map (fun t =>
                      update_item_calls (snd (update_market_cap provider store t initial)))
                 ts)).
Proof.
  split.
  - intros ts1 ts2 w. rewrite !for_each_run. cbn [snd]. f_equal.
    unfold after_tickers. apply fold_left_app.
  - intros Hprov Hstore ts. induction ts as [| t ts IH]; intros w.
    + cbn. rewrite !app_nil_r. split; reflexivity.
    + rewrite for_each_run. cbn [snd after_tickers fold_left map concat].
      specialize (IH (after_ticker provider store t w)).
      rewrite for_each_run in IH. cbn [snd] in IH. unfold after_tickers in IH.
      destruct IH as [IHo IHc]. rewrite IHo, IHc.
      destruct (after_ticker_independent provider store t w Hprov Hstore) as [Ho Hc].
      rewrite Ho, Hc, !update_market_cap_run. cbn [snd].
      rewrite <- !app_assoc. split; reflexivity.
Qed.

Lemma X13_witness :
  stdout (snd (for_each ["PLTR"; "AMZN"] (update_market_cap (always pltr_quote) store_ok)
                 initial))
  = stdout initial ++
    concat (map (fun t => stdout (snd (update_market_cap (always pltr_quote) store_ok
                                         t initial))) ["PLTR"; "AMZN"]) /\
  update_item_calls (snd (for_each ["PLTR"; "AMZN"]
                            (update_market_cap (always pltr_quote) store_ok) initial))
  = update_item_calls initial ++
    concat (map (fun t =>
                   update_item_calls (snd (update_market_cap (always pltr_quote) store_ok
                                             t initial)))
              ["PLTR"; "AMZN"]).
Proof.
  apply (proj2 (X13_batch_is_the_sequence_of_its_calls (always pltr_quote) store_ok));
    reflexivity.
Defined.

Lemma after_tickers_stdout_prefix
  (provider : list string -> string -> outcome info_dict)
  (store : list update_item_request -> update_item_request -> option exn)
  (ts : list string) (w : world) :
  exists rest : list string,
    stdout (after_tickers provider store ts w) = stdout w ++ rest.
Proof.
  revert w. induction ts as [| t ts IH]; intros w.
  - exists []. cbn. rewrite app_nil_r. reflexivity.
  - cbn [after_tickers fold_left].
    destruct (IH (after_ticker provider store t w)) as [rest Hrest].
    unfold after_tickers in Hrest. rewrite Hrest.
    destruct (after_ticker_stdout provider store t w) as [lines ->].
    eexists. rewrite <- app_assoc. reflexivity.
Qed.

(** ** The scripts from their first line *)

Section WholeScriptRuns.

Variable importer : list (list string) -> string -> import_result.
Variable check_call : list (list string) -> list string -> option exn.

(** The imports end in one of four ways. *)
Lemma import_or_install_cases (names : list string) (notice : string)
  (argv : list string) (p : process) :
  let run := import_or_install importer check_call names notice argv p in
  (import_all importer names (pip_calls p) = Imported /\ run = (Returned tt, p)) \/
  (exists e, import_all importer names (pip_calls p) = ImportCrashed e /\
             run = (Raised e, p)) \/
  (exists e0, import_all importer names (pip_calls p) = ImportFailed e0 /\
     snd run = {| pip_calls := pip_calls p ++ [argv];
                  console := after_print notice (console p) |} /\
     ((fst run = Returned tt /\ check_call (pip_calls p) argv = None) \/
      (exists e, fst run = Raised e /\
         (check_call (pip_calls p) argv = Some e \/
          check_call (pip_calls p) argv = None)))).
Proof.
  cbv zeta. unfold import_or_install.
  destruct (import_all importer names (pip_calls p)) as [| e0 | e].
  - left. split; reflexivity.
  - right. right. exists e0. split; [reflexivity |]. cbv zeta.
    destruct (check_call (pip_calls p) argv) as [e |].
    + split; [reflexivity |]. right. exists e. split; [reflexivity | left; reflexivity].
    + destruct (import_all importer names _) as [| e | e]; cbn [fst snd].
      * split; [reflexivity |]. left. split; reflexivity.
      * split; [reflexivity |]. right. exists e. split; [reflexivity | right; reflexivity].
      * split; [reflexivity |]. right. exists e. split; [reflexivity | right; reflexivity].
  - right. left. exists e. split; reflexivity.
Qed.

End WholeScriptRuns.

(** X11. update-all-market-caps.py from its first line: pip is run at most
    once, only after an import raised ImportError, with the arguments
    [sys.executable -m pip install yfinance boto3 -q] and after the notice
    "Installing required packages..." was printed; when both packages
    import and the client is built the script is [main]; and a run either
    returns after requesting PLTR, AMZN and META, or raises before anything
    was requested from the provider or sent to the store. *)
Theorem X11_update_script_installs_then_runs_main
  (importer : list (list string) -> string -> import_result)
  (check_call : list (list string) -> list string -> option exn)
  (sys_executable : string)
  (new_client : string -> string -> option exn)
  (provider : list string -> string -> outcome info_dict)
  (store : list update_item_request -> update_item_request -> option exn)
  (p : process) :
  let argv := [sys_executable; "-m"; "pip"; "install"; "yfinance"; "boto3"; "-q"] in
  let run := update_all_market_caps importer check_call sys_executable new_client
               provider store p in
  (pip_calls (snd run) = pip_calls p \/
   (pip_calls (snd run) = pip_calls p ++ [argv] /\
    (exists e, import_all importer ["yfinance"; "boto3"] (pip_calls p) = ImportFailed e) /\
    exists rest : list string,
      stdout (console (snd run))
      = stdout (console p) ++ "Installing required packages..." :: rest)) /\
  (import_all importer ["yfinance"; "boto3"] (pip_calls p) = Imported ->
   new_client "dynamodb" "us-east-1" = None ->
   run = (Returned tt,
          {| pip_calls := pip_calls p;
             console := snd (main provider store (console p)) |})) /\
  ((fst run = Returned tt /\
    fetched (console (snd run)) = fetched (console p) ++ ["PLTR"; "AMZN"; "META"]) \/
   (exists e : exn,
      fst run = Raised e /\
      fetched (console (snd run)) = fetched (console p) /\
      update_item_calls (console (snd run)) = update_item_calls (console p))).
Proof.
  cbv zeta. unfold update_all_market_caps.
  set (argv := [sys_executable; "-m"; "pip"; "install"; "yfinance"; "boto3"; "-q"]).
  pose proof (import_or_install_cases importer check_call ["yfinance"; "boto3"]
                "Installing required packages..." argv p) as Hcases.
  cbv zeta in Hcases.
  destruct (import_or_install importer check_call ["yfinance"; "boto3"]
              "Installing required packages..." argv p) as [[[] | e] p'] eqn:Hrun.
  - (* the imports are done *)
    pose proof (main_run provider store (console p')) as Hmain.
    destruct (new_client "dynamodb" "us-east-1") as [e |] eqn:Hclient.
    + cbn [fst snd].
      destruct Hcases as [[Himp [= <-]] | [(e' & _ & [=]) | (e0 & Himp & Hsnd & Hres)]].
      * split; [left; reflexivity |]. split; [discriminate |].
        right. exists e. auto.
      * cbn [snd] in Hsnd. subst p'. cbn [pip_calls console after_print stdout].
        split; [right; split; [reflexivity | split; [eauto | exists []; reflexivity]] |].
        split; [rewrite Himp; discriminate |].
        right. exists e. auto.
    + rewrite Hmain. cbn [fst snd pip_calls console after_print fetched stdout].
      rewrite after_tickers_fetched.
      destruct Hcases as [[Himp [= <-]] | [(e' & _ & [=]) | (e0 & Himp & Hsnd & Hres)]].
      * split; [left; reflexivity |].
        split; [intros _ _; rewrite Hmain; reflexivity |]. left. split; reflexivity.
      * cbn [snd] in Hsnd. subst p'. cbn [pip_calls console after_print fetched stdout].
        split.
        -- right. split; [reflexivity |]. split; [eauto |].
           destruct (after_tickers_stdout_prefix provider store tickers
                       (after_print banner_line
                          (after_print "Installing required packages..." (console p))))
             as [rest Hrest].
           rewrite Hrest. cbn [after_print stdout].
           eexists. rewrite <- !app_assoc. cbn [app]. reflexivity.
        -- split; [rewrite Himp; discriminate |]. left. split; reflexivity.
  - (* the imports raised *)
    cbn [fst snd].
    destruct Hcases as [[_ [=]] | [(e' & Himp & [= <- <-]) | (e0 & Himp & Hsnd & Hres)]].
    + split; [left; reflexivity |]. split; [rewrite Himp; discriminate |].
      right. exists e. auto.
    + cbn [snd] in Hsnd. subst p'. cbn [pip_calls console after_print fetched stdout
                                        update_item_calls].
      split; [right; split; [reflexivity | split; [eauto | exists []; reflexivity]] |].
      split; [rewrite Himp; discriminate |].
      right. exists e. auto.
Qed.

Lemma X11_witness :
  update_all_market_caps all_installed pip_ok "/usr/bin/python3" client_ok
    (always pltr_quote) store_ok boot
  = (Returned tt,
     {| pip_calls := pip_calls boot;
        console := snd (main (always pltr_quote) store_ok (console boot)) |}).
Proof.
  apply (proj1 (proj2 (X11_update_script_installs_then_runs_main all_installed pip_ok
                         "/usr/bin/python3" client_ok (always pltr_quote) store_ok boot)));
    reflexivity.
Defined.

(** A failed installation: the notice, one pip command, nothing fetched. *)
Example failed_installation :
  update_all_market_caps missing_until_installed pip_fails "/usr/bin/python3" client_ok
    (always pltr_quote) store_ok boot
  = (Raised called_process_error,
     {| pip_calls := [["/usr/bin/python3"; "-m"; "pip"; "install"; "yfinance"; "boto3"; "-q"]];
        console := {| stdout := ["Installing required packages..."];
                      fetched := []; update_item_calls := [] |} |}).
Proof. reflexivity. Qed.

Lemma import_all_one (importer : list (list string) -> string -> import_result)
  (name : string) (installed : list (list string)) :
  import_all importer [name] installed = importer installed name.
Proof. cbn [import_all]. destruct (importer installed name); reflexivity. Qed.

Lemma after_check_frame (provider : list string -> string -> outcome info_dict)
  (w : world) :
  update_item_calls (snd (after_check provider w)) = update_item_calls w /\
  exists rest : list string,
    stdout (snd (after_check provider w)) = stdout w ++ rest.
Proof.
  unfold after_check. destruct (provider (fetched w) "PLTR") as [info | e]; cbn [snd].
  - split; [reflexivity | eexists; reflexivity].
  - split; [reflexivity | exists []; cbn; rewrite app_nil_r; reflexivity].
Qed.

(** X12. check-pltr-marketcap.py from its first line: pip is run at most
    once, only after [import yfinance] raised ImportError, with the
    arguments [pip install yfinance -q] and after the notice
    "Installing yfinance..." was printed; when yfinance imports the script
    is its body; when the installation fails the script raises what
    [check_call] raised with nothing else printed and nothing requested;
    and no run calls [update_item]. *)
Theorem X12_check_script_installs_then_reports
  (importer : list (list string) -> string -> import_result)
  (check_call : list (list string) -> list string -> option exn)
  (provider : list string -> string -> outcome info_dict)
  (p : process) :
  let argv := ["pip"; "install"; "yfinance"; "-q"] in
  let run := check_pltr_script importer check_call provider p in
  (pip_calls (snd run) = pip_calls p \/
   (pip_calls (snd run) = pip_calls p ++ [argv] /\
    (exists e, importer (pip_calls p) "yfinance" = ImportFailed e) /\
    exists rest : list string,
      stdout (console (snd run))
      = stdout (console p) ++ "Installing yfinance..." :: rest)) /\
  (importer (pip_calls p) "yfinance" = Imported ->
   run = (fst (check_pltr_marketcap provider (console p)),
          {| pip_calls := pip_calls p;
             console := snd (check_pltr_marketcap provider (console p)) |})) /\
  (forall e e' : exn,
     importer (pip_calls p) "yfinance" = ImportFailed e ->
     check_call (pip_calls p) argv = Some e' ->
     run = (Raised e',
            {| pip_calls := pip_calls p ++ [argv];
               console := after_print "Installing yfinance..." (console p) |})) /\
  update_item_calls (console (snd run)) = update_item_calls (console p).
Proof.
  cbv zeta. unfold check_pltr_script, import_or_install.
  rewrite !import_all_one.
  destruct (importer (pip_calls p) "yfinance") as [| e0 | e0] eqn:Himp.
  - rewrite check_pltr_marketcap_run.
    destruct (after_check_frame provider (console p)) as [Hcalls _].
    cbn [fst snd pip_calls console].
    split; [left; reflexivity |]. split; [reflexivity |].
    split; [discriminate | exact Hcalls].
  - cbv zeta.
    destruct (check_call (pip_calls p) ["pip"; "install"; "yfinance"; "-q"]) as [e |]
      eqn:Hpip.
    + cbn [fst snd pip_calls console after_print stdout update_item_calls].
      split; [right; split; [reflexivity | split; [eauto | exists []; reflexivity]] |].
      split; [discriminate |]. split; [| reflexivity].
      intros e1 e2 _ [= <-]. reflexivity.
    + cbn [pip_calls].
      destruct (importer (pip_calls p ++ [["pip"; "install"; "yfinance"; "-q"]]) "yfinance")
        as [| e | e].
      * rewrite check_pltr_marketcap_run.
        destruct (after_check_frame provider
                    (after_print "Installing yfinance..." (console p)))
          as [Hcalls [rest Hrest]].
        cbn [fst snd pip_calls console].
        split.
        -- right. split; [reflexivity |]. split; [eauto |].
           rewrite Hrest. cbn [after_print stdout]. eexists.
           rewrite <- app_assoc. reflexivity.
        -- split; [discriminate |]. split; [discriminate | exact Hcalls].
      * cbn [fst snd pip_calls console after_print stdout update_item_calls].
        split; [right; split; [reflexivity | split; [eauto | exists []; reflexivity]] |].
        split; [discriminate |]. split; [discriminate | reflexivity].
      * cbn [fst snd pip_calls console after_print stdout update_item_calls].
        split; [right; split; [reflexivity | split; [eauto | exists []; reflexivity]] |].
        split; [discriminate |]. split; [discriminate | reflexivity].
  - cbn [fst snd pip_calls console].
    split; [left; reflexivity |]. split; [discriminate |].
    split; [discriminate | reflexivity].
Qed.

Lemma X12_witness :
  check_pltr_script missing_until_installed pip_fails (always pltr_quote) boot
  = (Raised called_process_error,
     {| pip_calls := pip_calls boot ++ [["pip"; "install"; "yfinance"; "-q"]];
        console := after_print "Installing yfinance..." (console boot) |}).
Proof.
  apply (proj1 (proj2 (proj2 (X12_check_script_installs_then_reports
                                missing_until_installed pip_fails (always pltr_quote) boot)))
           (module_not_found "yfinance") called_process_error);
    reflexivity.
Defined.

Lemma X1_witness :
  last (stdout (snd (update_market_cap (always pltr_quote) store_ok "PLTR" initial)))
  = Some (updated_line "PLTR").
Proof.
  apply (proj2 (proj1 (X1_outcome_line_is_truthful (always pltr_quote) store_ok
                         "PLTR" initial))).
  exists "54000000000"%string. split; [| reflexivity].
  exists pltr_quote,
    [price_line "25.50"; cap_line "54.00"; shares_line "2,116,000,000"].
  repeat split; reflexivity.
Defined.

Lemma X10_witness :
  fst (check_pltr_marketcap (always pltr_quote) initial) = Returned tt.
Proof.
  apply (proj2 (proj1 (X10_check_script_completes_on_numbers (always pltr_quote) initial))).
  exists pltr_quote. repeat split; reflexivity.
Defined.

Lemma X3_witness :
  exists written : list (string * string),
    update_item_calls (snd (main meta_down store_ok initial))
    = update_item_calls initial
        ++ map (fun x => market_cap_request (fst x) (snd x)) written /\
    map fst written `sublist_of` ["PLTR"; "AMZN"; "META"] /\
    (length written <= 3)%nat /\
    forall r : update_item_request,
      r ∈ map (fun x => market_cap_request (fst x) (snd x)) written ->
      TableName r = "fintail-companies-development" /\
      UpdateExpression r = "SET marketCap = :mc" /\
      dom (ExpressionAttributeValues r) = ({[ ":mc" ]} : gset string) /\
      exists t : string,
        t ∈ ["PLTR"; "AMZN"; "META"] /\
        Key r = {[ "PK" := AttrS ("COMPANY#" +:+ t); "SK" := AttrS "METADATA" ]}.
Proof. exact (X3_main_writes_only_the_three_records meta_down store_ok initial). Defined.

(** ** A market cap beyond the range of a float *)

(** X14. A market cap that is an integer of 1025 bits or more cannot be
    divided by [1e9]: [update_market_cap] prints the price line and the
    error line "int too large to convert to float" and sends nothing, and
    the check script raises this OverflowError after its price line. *)
Theorem X14_huge_market_cap_is_an_error
  (provider : list string -> string -> outcome info_dict)
  (store : list update_item_request -> update_item_request -> option exn)
  (info : info_dict) (z : Z) :
  info !! "marketCap" = Some (PyInt z) ->
  2 ^ 1024 <= Z.abs z ->
  let overflow := OverflowError "int too large to convert to float" in
  (forall (ticker : string) (w : world) (p : string),
     provider (fetched w) ticker = Returned info ->
     py_format_2f
       (dict_get_default info "currentPrice" (dict_get info "regularMarketPrice"))
     = Returned p ->
     update_market_cap provider store ticker w
     = (Returned tt,
        {| stdout := stdout w ++ [fetching_line ticker; price_line p;
                                  error_line ticker overflow];
           fetched := fetched w ++ [ticker];
           update_item_calls := update_item_calls w |})) /\
  (forall (w : world) (p : string),
     provider (fetched w) "PLTR" = Returned info ->
     py_str (dict_get_default info "currentPrice"
               (dict_get_default info "regularMarketPrice" (PyStr "N/A")))
     = Returned p ->
     check_pltr_marketcap provider w
     = (Raised overflow,
        {| stdout := stdout w ++ [check_header; price_line p];
           fetched := fetched w ++ ["PLTR"];
           update_item_calls := update_item_calls w |})).
Proof.
  intros Hmc Hz. cbv zeta.
  assert (Hdiv : py_truediv (PyInt z) f1e9
                 = Raised (OverflowError "int too large to convert to float"))
    by (cbn [py_truediv]; rewrite int_to_float_overflow by exact Hz; reflexivity).
  assert (Htruthy : truthy (PyInt z) = true)
    by (cbn [truthy]; destruct (Z.eqb_spec z 0); [subst z; cbn in Hz; lia | reflexivity]).
  split.
  - intros ticker w p Hp Hfmt. rewrite selected_price_get in Hfmt.
    rewrite update_market_cap_run. f_equal.
    rewrite (after_ticker_report_raises provider store ticker w info [price_line p]
               (OverflowError "int too large to convert to float") Hp).
    + reflexivity.
    + unfold dict_get. rewrite Hmc. exact Htruthy.
    + unfold report. rewrite Hfmt. unfold dict_get at 1. rewrite Hmc.
      cbn [default from_option id]. rewrite Hdiv. reflexivity.
  - intros w p Hp Hprice. rewrite selected_price_get_default in Hprice.
    rewrite check_pltr_marketcap_run. unfold after_check. rewrite Hp.
    unfold check_report. rewrite Hprice. unfold dict_get_default. rewrite Hmc.
    cbn [default from_option id]. rewrite Hdiv. reflexivity.
Qed.

Lemma X14_witness :
  update_market_cap (always huge_cap_quote) store_ok "PLTR" initial
  = (Returned tt,
     {| stdout := stdout initial ++
          [fetching_line "PLTR"; price_line "25.50";
           error_line "PLTR" (OverflowError "int too large to convert to float")];
        fetched := fetched initial ++ ["PLTR"];
        update_item_calls := update_item_calls initial |}).
Proof.
  refine (proj1 (X14_huge_market_cap_is_an_error (always huge_cap_quote) store_ok
                   huge_cap_quote (2 ^ 1024) _ _) "PLTR" initial "25.50" _ _);
    [reflexivity | lia | reflexivity | reflexivity].
Defined.

